(** * Saves API: a shallow embedding of the Hono/D1 worker

    The worker in [saves-api/src/index.ts] is a set of route handlers, each of
    which runs one or more SQL statements against three tables ([users],
    [categories], [transactions]).  Tables are modelled as lists of rows in
    storage order; every statement is written with the small relational
    vocabulary of module [Sql] (WHERE, JOIN, GROUP BY, ORDER BY, LIMIT), so
    that each handler below can be read side by side with its SQL text.

    Amounts are the column [amount REAL] / a JavaScript [number], a
    binary64 value.  They are kept here as integers: the development covers
    the amounts that are whole numbers, and [Sql.sum] over a list of rows
    stands for the engine's [SUM] over those rows.  Where a property needs
    sums over differently grouped rows to agree, it is stated for rows that
    are [exactly_added] (whole amounts whose magnitudes add up to at most
    2^53), on which binary64 addition does not round in any order; how
    [SUM] rounds otherwise is the engine's matter and outside this
    development.

    The second half of the definitions follows the app in [saves-app]: the
    API client with its stored session, the registration and login forms,
    the start of the app and the monthly trend of the statistics screen,
    so that what the client sends can be run against the handlers.  Text
    that the code measures (user names, passwords) is a sequence of code
    units, one [ascii] each, so that [String.length] is JavaScript's
    [length]; messages and icons are only ever compared for equality. *)

From Stdlib Require Import ZArith List String Ascii Bool Lia Sorted Permutation.
From Stdlib Require Import DecimalString.
Import ListNotations.
Local Open Scope string_scope.
Local Open Scope list_scope.
Local Open Scope Z_scope.

(** ** Decidable equality on keys (GROUP BY keys, SQL [=]) *)

Class EqDec (K : Type) := eq_dec : forall x y : K, {x = y} + {x <> y}.

#[export] Instance Z_EqDec : EqDec Z := Z.eq_dec.
#[export] Instance string_EqDec : EqDec string := string_dec.

#[export] Instance option_EqDec (K : Type) `{EqDec K} : EqDec (option K).
Proof.
  intros [x|] [y|]; try (right; discriminate); [|left; reflexivity].
  destruct (eq_dec x y) as [->|n]; [left; reflexivity|right; congruence].
Defined.

#[export] Instance prod_EqDec (K L : Type) `{EqDec K} `{EqDec L} : EqDec (K * L).
Proof.
  intros [a b] [c d].
  destruct (eq_dec a c) as [->|n]; [|right; congruence].
  destruct (eq_dec b d) as [->|n]; [left; reflexivity|right; congruence].
Defined.

Definition eqb {K : Type} `{EqDec K} (x y : K) : bool :=
  if eq_dec x y then true else false.

(** ** The SQL fragment the worker uses *)

Module Sql.

(** [WHERE p] *)
Definition where_ {A : Type} (p : A -> bool) (rows : list A) : list A :=
  filter p rows.

(** [FROM l JOIN r ON on]: inner join, nested loops, left rows outermost. *)
Definition join {A B : Type} (on : A -> B -> bool)
    (l : list A) (r : list B) : list (A * B) :=
  flat_map (fun a => map (pair a) (filter (on a) r)) l.

(** The rows whose grouping key is [k], in scan order. *)
Definition with_key {A K : Type} `{EqDec K} (key : A -> K) (k : K)
    (rows : list A) : list A :=
  filter (fun r => eqb (key r) k) rows.

(** [GROUP BY key]: one group per distinct key, holding the rows with that
    key.  SQL leaves the order of the groups open; no property stated below
    depends on it. *)
Definition group_by {A K : Type} `{EqDec K} (key : A -> K)
    (rows : list A) : list (K * list A) :=
  map (fun k => (k, with_key key k rows)) (nodup eq_dec (map key rows)).

(** [SUM(f)] and [COUNT( * )] over the rows of one group. *)
Definition sum {A : Type} (f : A -> Z) (rows : list A) : Z :=
  fold_right (fun r acc => f r + acc) 0 rows.

Definition count {A : Type} (rows : list A) : Z := Z.of_nat (List.length rows).

(** [ORDER BY]: a stable insertion sort; [before x y] says that [x] may
    stand in front of [y].  Rows with equal keys come out in the order the
    sort finds them; the engine is free to order them otherwise, and the
    properties below say nothing about their order. *)
Fixpoint insert_by {A : Type} (before : A -> A -> bool) (x : A)
    (rows : list A) : list A :=
  match rows with
  | [] => [x]
  | y :: rows' =>
      if before x y then x :: y :: rows' else y :: insert_by before x rows'
  end.

Definition order_by {A : Type} (before : A -> A -> bool)
    (rows : list A) : list A :=
  fold_right (insert_by before) [] rows.

(** [LIMIT n] (a negative [n] means no limit) and [OFFSET n]. *)
Definition limit {A : Type} (n : Z) (rows : list A) : list A :=
  if n <? 0 then rows else firstn (Z.to_nat n) rows.

Definition offset {A : Type} (n : Z) (rows : list A) : list A :=
  skipn (Z.to_nat n) rows.

(** [.first()] of a D1 statement: the first row, or null. *)
Definition first {A : Type} (rows : list A) : option A := hd_error rows.

(** Text comparison under the BINARY collation. *)
Definition text_le (a b : string) : bool := String.leb a b.
Definition text_lt (a b : string) : bool := String.ltb a b.

(** NULL sorts below every text value. *)
Definition null_text_le (a b : option string) : bool :=
  match a, b with
  | None, _ => true
  | Some _, None => false
  | Some x, Some y => text_le x y
  end.

End Sql.

(** ** Schema ([schema.sql] and the users migration) *)

Inductive ttype : Type := income | expense.

#[export] Instance ttype_EqDec : EqDec ttype.
Proof. intros [] []; (left; reflexivity) || (right; discriminate). Defined.

(** The text stored in a [type] column (CHECK (type IN ('income','expense'))). *)
Definition type_text (ty : ttype) : string :=
  match ty with income => "income" | expense => "expense" end.

(** [z.enum(['income', 'expense'])] *)
Definition parse_type (s : string) : option ttype :=
  if (s =? "income")%string then Some income
  else if (s =? "expense")%string then Some expense
  else None.

Module User.
Record t : Type := mk
  { id : Z; username : string; password_hash : string;
    created_at : option string }.
End User.

Module Category.
Record t : Type := mk
  { id : Z; name : string; icon : string; type : ttype;
    created_at : option string }.
End Category.

Module Transaction.
Record t : Type := mk
  { id : Z; amount : Z; type : ttype; category_id : Z;
    note : option string; date : string; created_at : option string;
    user_id : option Z }.
End Transaction.

(** The D1 database bound as [c.env.DB].  [transactions_seq] is the
    AUTOINCREMENT counter kept for [transactions]. *)
Record DB : Type := mkDB
  { users : list User.t;
    categories : list Category.t;
    transactions : list Transaction.t;
    transactions_seq : Z }.

(** ** Requests and responses *)

(** [Variables.user] *)
Module Identity.
Record t : Type := mk { id : Z; username : string }.
End Identity.

(** [c.json(body, status)], [c.json({ error }, status)], and the 400 that
    [zValidator] sends before a handler runs. *)
Inductive response (A : Type) : Type :=
| Json (status : Z) (body : A)
| JsonError (status : Z) (error : string)
| Invalid.
Arguments Json {A} status body.
Arguments JsonError {A} status error.
Arguments Invalid {A}.

(** JavaScript truthiness of a query parameter: present and non-empty. *)
Definition truthy (s : option string) : bool :=
  match s with
  | Some v => negb (v =? "")%string
  | None => false
  end.


(** [requireAuth(c)] followed by [c.get('user')!]: either the 401 response
    or the acting user. *)
Definition requireAuth {A : Type} (user : option Identity.t)
  : response A + Identity.t :=
  match user with
  | None => inl (JsonError 401 "请先登录")
  | Some u => inr u
  end.

(** [if (param) { query += ' AND ...' }]: a condition that is appended to
    the WHERE clause only when the query parameter is truthy. *)
Definition and_if {A : Type} (param : option string)
    (cond : string -> A -> bool) (row : A) : bool :=
  match param with
  | Some v => if truthy param then cond v row else true
  | None => true
  end.

(** [t.user_id = ?] bound to the acting user's id. *)
Definition owned_by (uid : Z) (t : Transaction.t) : bool :=
  eqb (Transaction.user_id t) (Some uid).

(** ** GET /api/transactions *)

Module ListQuery.
Record t : Type := mk
  { type : option string; start_date : option string;
    end_date : option string; limit : option Z; offset : option Z }.
End ListQuery.

(** [SELECT t.*, c.name as category_name, c.icon as category_icon] *)
Module TransactionRow.
Record t : Type := mk
  { txn : Transaction.t; category_name : string; category_icon : string }.
End TransactionRow.

Definition on_category (t : Transaction.t) (c : Category.t) : bool :=
  eqb (Transaction.category_id t) (Category.id c).

Definition list_where (uid : Z) (q : ListQuery.t)
    (r : Transaction.t * Category.t) : bool :=
  owned_by uid (fst r)
  && and_if (ListQuery.type q)
       (fun v r => eqb (type_text (Transaction.type (fst r))) v) r
  && and_if (ListQuery.start_date q)
       (fun v r => Sql.text_le v (Transaction.date (fst r))) r
  && and_if (ListQuery.end_date q)
       (fun v r => Sql.text_le (Transaction.date (fst r)) v) r.

(** [ORDER BY t.date DESC, t.id DESC] *)
Definition list_order (x y : Transaction.t * Category.t) : bool :=
  Sql.text_lt (Transaction.date (fst y)) (Transaction.date (fst x))
  || (eqb (Transaction.date (fst x)) (Transaction.date (fst y))
      && (Transaction.id (fst y) <=? Transaction.id (fst x))).

Definition list_select (r : Transaction.t * Category.t) : TransactionRow.t :=
  TransactionRow.mk (fst r) (Category.name (snd r)) (Category.icon (snd r)).

(** The numeric values of [parseInt(limit)] and [parseInt(offset)], with
    the defaults ['50'] and ['0'] of the destructuring.  The statement binds
    them as integers; a value that is no 64-bit integer (NaN, or beyond
    [int64]) makes the statement fail instead, which [get_transactions]
    does not follow: the properties of the list are stated for queries that
    are [bindable]. *)
Definition list_limit (q : ListQuery.t) : Z :=
  match ListQuery.limit q with Some n => n | None => 50 end.
Definition list_offset (q : ListQuery.t) : Z :=
  match ListQuery.offset q with Some n => n | None => 0 end.

Definition get_transactions (db : DB) (user : option Identity.t)
    (q : ListQuery.t) : response (list TransactionRow.t) :=
  match requireAuth user with
  | inl authError => authError
  | inr user =>
      let joined := Sql.join on_category (transactions db) (categories db) in
      let rows := Sql.where_ (list_where (Identity.id user) q) joined in
      let rows := Sql.order_by list_order rows in
      let rows := Sql.limit (list_limit q) (Sql.offset (list_offset q) rows) in
      Json 200 (map list_select rows)
  end.

(** ** POST /api/transactions and PUT /api/transactions/:id *)

(** The JSON body as received.  [createTransactionSchema] parses it into
    [NewTransaction.t]; [createTransactionSchema.partial()] into
    [Updates.t]. *)
Module Body.
Record t : Type := mk
  { amount : option Z; type : option string; category_id : option Z;
    note : option string; date : option string }.
End Body.

Module NewTransaction.
Record t : Type := mk
  { amount : Z; type : ttype; category_id : Z;
    note : option string; date : string }.
End NewTransaction.

Module Updates.
Record t : Type := mk
  { amount : option Z; type : option ttype; category_id : option Z;
    note : option string; date : option string }.
End Updates.

Definition is_digit (c : ascii) : bool :=
  ((48 <=? nat_of_ascii c) && (nat_of_ascii c <=? 57))%nat.

(** [/^\d{4}-\d{2}-\d{2}$/] *)
Definition date_regex (s : string) : bool :=
  match list_ascii_of_string s with
  | [y1; y2; y3; y4; h1; m1; m2; h2; d1; d2] =>
      is_digit y1 && is_digit y2 && is_digit y3 && is_digit y4
      && Ascii.eqb h1 "-" && is_digit m1 && is_digit m2
      && Ascii.eqb h2 "-" && is_digit d1 && is_digit d2
  | _ => false
  end.

(** [z.number().positive()] and [z.number().int().positive()] *)
Definition positive (n : Z) : bool := 0 <? n.

(** Fields of a zod object: [.optional()] accepts an absent field, a
    required one does not; [check p] is a refinement such as [.positive()]. *)
Definition optional {A B : Type} (field : option A) (parse : A -> option B)
  : option (option B) :=
  match field with
  | None => Some None
  | Some v => match parse v with Some w => Some (Some w) | None => None end
  end.

Definition required {A B : Type} (field : option A) (parse : A -> option B)
  : option B :=
  match field with
  | None => None
  | Some v => parse v
  end.

Definition check {A : Type} (p : A -> bool) (v : A) : option A :=
  if p v then Some v else None.

Definition createTransactionSchema (b : Body.t) : option NewTransaction.t :=
  match required (Body.amount b) (check positive),
        required (Body.type b) parse_type,
        required (Body.category_id b) (check positive),
        optional (Body.note b) (@Some string),
        required (Body.date b) (check date_regex) with
  | Some a, Some ty, Some cid, Some n, Some d =>
      Some (NewTransaction.mk a ty cid n d)
  | _, _, _, _, _ => None
  end.

Definition createTransactionSchema_partial (b : Body.t) : option Updates.t :=
  match optional (Body.amount b) (check positive),
        optional (Body.type b) parse_type,
        optional (Body.category_id b) (check positive),
        optional (Body.note b) (@Some string),
        optional (Body.date b) (check date_regex) with
  | Some a, Some ty, Some cid, Some n, Some d => Some (Updates.mk a ty cid n d)
  | _, _, _, _, _ => None
  end.

(** [note || null]: an empty note is stored as NULL. *)
Definition or_null (note : option string) : option string :=
  match note with
  | Some v => if (v =? "")%string then None else Some v
  | None => None
  end.

Definition set_transactions (db : DB) (rows : list Transaction.t) : DB :=
  mkDB (users db) (categories db) rows (transactions_seq db).

(** The rowid an AUTOINCREMENT insert takes: one more than the largest
    rowid ever used in the table. *)
Definition next_rowid (db : DB) : Z :=
  1 + fold_right Z.max (transactions_seq db)
        (map Transaction.id (transactions db)).

(** [INSERT INTO transactions (...) VALUES (...) RETURNING *].  [now] is the
    value of [datetime('now')] filled in for [created_at].  The insert does
    not look [category_id] up in [categories]; where the engine enforces
    the column's REFERENCES clause, an insert for a category that does not
    exist fails instead, and what is proved of a created row is proved of
    an insert that answered 201. *)
Definition post_transaction (now : string) (db : DB)
    (user : option Identity.t) (body : Body.t)
  : response Transaction.t * DB :=
  match createTransactionSchema body with
  | None => (Invalid, db)
  | Some v =>
      match requireAuth user with
      | inl authError => (authError, db)
      | inr user =>
          let result :=
            Transaction.mk (next_rowid db) (NewTransaction.amount v)
              (NewTransaction.type v) (NewTransaction.category_id v)
              (or_null (NewTransaction.note v)) (NewTransaction.date v)
              (Some now) (Some (Identity.id user)) in
          (Json 201 result,
           mkDB (users db) (categories db) (transactions db ++ [result])
                (next_rowid db))
      end
  end.

(** One entry of [fields] together with its bound value in [values]. *)
Inductive assignment : Type :=
| SetAmount (v : Z)
| SetType (v : ttype)
| SetCategoryId (v : Z)
| SetNote (v : option string)
| SetDate (v : string).

Definition assign (t : Transaction.t) (a : assignment) : Transaction.t :=
  let 'Transaction.mk i am ty cid n d cr uid := t in
  match a with
  | SetAmount v => Transaction.mk i v ty cid n d cr uid
  | SetType v => Transaction.mk i am v cid n d cr uid
  | SetCategoryId v => Transaction.mk i am ty v n d cr uid
  | SetNote v => Transaction.mk i am ty cid v d cr uid
  | SetDate v => Transaction.mk i am ty cid n v cr uid
  end.

Definition push_if {A : Type} (field : option A) (set : A -> assignment)
  : list assignment :=
  match field with
  | Some v => [set v]
  | None => []
  end.

Definition put_fields (updates : Updates.t) : list assignment :=
  push_if (Updates.amount updates) SetAmount
  ++ push_if (Updates.type updates) SetType
  ++ push_if (Updates.category_id updates) SetCategoryId
  ++ push_if (Updates.note updates) (fun v => SetNote (or_null (Some v)))
  ++ push_if (Updates.date updates) SetDate.

(** [WHERE id = ? AND user_id = ?] *)
Definition id_and_owner (id uid : Z) (t : Transaction.t) : bool :=
  eqb (Transaction.id t) id && owned_by uid t.

(** [UPDATE transactions SET fields WHERE p RETURNING *]: the table after
    the statement and the rows it returns. *)
Definition sql_update (fields : list assignment) (p : Transaction.t -> bool)
    (rows : list Transaction.t) : list Transaction.t * list Transaction.t :=
  let set t := fold_left assign fields t in
  (map (fun t => if p t then set t else t) rows,
   map set (Sql.where_ p rows)).

(** [id] is [parseInt(c.req.param('id'))]. *)
Definition put_transaction (db : DB) (user : option Identity.t) (id : Z)
    (body : Body.t) : response Transaction.t * DB :=
  match createTransactionSchema_partial body with
  | None => (Invalid, db)
  | Some updates =>
      match requireAuth user with
      | inl authError => (authError, db)
      | inr user =>
          let fields := put_fields updates in
          if (List.length fields =? 0)%nat
          then (JsonError 400 "No fields to update", db)
          else
            let (table, returning) :=
              sql_update fields (id_and_owner id (Identity.id user))
                (transactions db) in
            (match Sql.first returning with
             | None => JsonError 404 "Transaction not found"
             | Some result => Json 200 result
             end,
             set_transactions db table)
      end
  end.

(** ** DELETE /api/transactions/:id *)

(** [DELETE FROM transactions WHERE p RETURNING id] *)
Definition sql_delete (p : Transaction.t -> bool) (rows : list Transaction.t)
  : list Transaction.t * list Z :=
  (filter (fun t => negb (p t)) rows,
   map Transaction.id (Sql.where_ p rows)).

(** The body [true] stands for [{ success: true }]. *)
Definition delete_transaction (db : DB) (user : option Identity.t) (id : Z)
  : response bool * DB :=
  match requireAuth user with
  | inl authError => (authError, db)
  | inr user =>
      let (table, returning) :=
        sql_delete (id_and_owner id (Identity.id user)) (transactions db) in
      (match Sql.first returning with
       | None => JsonError 404 "Transaction not found"
       | Some _ => Json 200 true
       end,
       set_transactions db table)
  end.

(** ** GET /api/stats *)

Module TotalsRow.
Record t : Type := mk { type : ttype; total : Z; count : Z }.
End TotalsRow.

Module Summary.
Record t : Type := mk
  { income : Z; expense : Z; balance : Z;
    income_count : Z; expense_count : Z }.
End Summary.

Module CategoryStat.
Record t : Type := mk
  { id : Z; name : string; icon : string; type : ttype;
    total : Z; count : Z }.
End CategoryStat.

Module Daily.
Record t : Type := mk { date : string; type : ttype; total : Z }.
End Daily.

Module Stats.
Record t : Type := mk
  { summary : Summary.t; by_category : list CategoryStat.t;
    daily : list Daily.t }.
End Stats.

(** [start_date && end_date ? 'AND date >= ? AND date <= ?' : ''] *)
Definition range_filter (start_date end_date : option string)
    (t : Transaction.t) : bool :=
  match start_date, end_date with
  | Some s, Some e =>
      if truthy start_date && truthy end_date
      then Sql.text_le s (Transaction.date t) && Sql.text_le (Transaction.date t) e
      else true
  | _, _ => true
  end.

(** [WHERE user_id = ?] extended by the range when both bounds are given. *)
Definition dateFilter (uid : Z) (start_date end_date : option string)
    (t : Transaction.t) : bool :=
  owned_by uid t && range_filter start_date end_date t.

Definition amount_of (r : Transaction.t * Category.t) : Z :=
  Transaction.amount (fst r).

(** [SELECT type, SUM(amount) as total, COUNT( * ) as count
     FROM transactions ${dateFilter} GROUP BY type] *)
Definition totals_query (db : DB) (uid : Z)
    (start_date end_date : option string) : list TotalsRow.t :=
  map (fun g => TotalsRow.mk (fst g) (Sql.sum Transaction.amount (snd g))
                  (Sql.count (snd g)))
      (Sql.group_by Transaction.type
         (Sql.where_ (dateFilter uid start_date end_date) (transactions db))).

(** The select list of the by-category query.  [c.name], [c.icon] and
    [c.type] are bare columns of an aggregate query: they are read from a
    row of the group. *)
Definition category_stat (g : Z * list (Transaction.t * Category.t))
  : list CategoryStat.t :=
  match snd g with
  | [] => []
  | (_, c) :: _ =>
      [CategoryStat.mk (Category.id c) (Category.name c) (Category.icon c)
         (Category.type c) (Sql.sum amount_of (snd g)) (Sql.count (snd g))]
  end.

(** [... FROM transactions t JOIN categories c ON t.category_id = c.id
     WHERE t.user_id = ? ${range} GROUP BY c.id ORDER BY total DESC] *)
Definition byCategory_query (db : DB) (uid : Z)
    (start_date end_date : option string) : list CategoryStat.t :=
  Sql.order_by
    (fun x y => CategoryStat.total y <=? CategoryStat.total x)
    (flat_map category_stat
       (Sql.group_by (fun r => Category.id (snd r))
          (Sql.where_ (fun r => dateFilter uid start_date end_date (fst r))
             (Sql.join on_category (transactions db) (categories db))))).

(** [SELECT date, type, SUM(amount) as total FROM transactions
     WHERE user_id = ? AND date >= date('now', '-30 days')
     GROUP BY date, type ORDER BY date DESC];
    [since] is the value of [date('now', '-30 days')]. *)
Definition daily_query (since : string) (db : DB) (uid : Z) : list Daily.t :=
  Sql.order_by
    (fun x y => Sql.text_le (Daily.date y) (Daily.date x))
    (map (fun g => Daily.mk (fst (fst g)) (snd (fst g))
                     (Sql.sum Transaction.amount (snd g)))
       (Sql.group_by (fun t => (Transaction.date t, Transaction.type t))
          (Sql.where_
             (fun t => owned_by uid t && Sql.text_le since (Transaction.date t))
             (transactions db)))).

(** [v || 0] for a number read through optional chaining. *)
Definition or_zero (v : option Z) : Z :=
  match v with
  | Some n => if n =? 0 then 0 else n
  | None => 0
  end.

Definition find_type (ty : ttype) (totals : list TotalsRow.t)
  : option TotalsRow.t :=
  find (fun r => eqb (TotalsRow.type r) ty) totals.

Definition get_stats (since : string) (db : DB) (user : option Identity.t)
    (start_date end_date : option string) : response Stats.t :=
  match requireAuth user with
  | inl authError => authError
  | inr user =>
      let uid := Identity.id user in
      let totals := totals_query db uid start_date end_date in
      let byCategory := byCategory_query db uid start_date end_date in
      let daily := daily_query since db uid in
      let income := find_type income totals in
      let expense := find_type expense totals in
      Json 200
        (Stats.mk
           (Summary.mk
              (or_zero (option_map TotalsRow.total income))
              (or_zero (option_map TotalsRow.total expense))
              (or_zero (option_map TotalsRow.total income)
               - or_zero (option_map TotalsRow.total expense))
              (or_zero (option_map TotalsRow.count income))
              (or_zero (option_map TotalsRow.count expense)))
           byCategory daily)
  end.

(** ** GET /api/stats/monthly *)

Module Monthly.
Record t : Type := mk
  { month : option string; type : ttype; total : Z; count : Z }.
End Monthly.

Section MonthlyStats.

(** SQLite's [strftime('%Y-%m', date)]; NULL when the text is not a date
    the engine accepts. *)
Variable strftime_Ym : string -> option string.

(** [SELECT strftime('%Y-%m', date) as month, type, SUM(amount) as total,
     COUNT( * ) as count FROM transactions WHERE user_id = ?
     GROUP BY month, type ORDER BY month DESC LIMIT 24] *)
Definition monthly_query (db : DB) (uid : Z) : list Monthly.t :=
  Sql.limit 24
    (Sql.order_by
       (fun x y => Sql.null_text_le (Monthly.month y) (Monthly.month x))
       (map (fun g => Monthly.mk (fst (fst g)) (snd (fst g))
                        (Sql.sum Transaction.amount (snd g))
                        (Sql.count (snd g)))
          (Sql.group_by
             (fun t => (strftime_Ym (Transaction.date t), Transaction.type t))
             (Sql.where_ (owned_by uid) (transactions db))))).

Definition get_stats_monthly (db : DB) (user : option Identity.t)
  : response (list Monthly.t) :=
  match requireAuth user with
  | inl authError => authError
  | inr user => Json 200 (monthly_query db (Identity.id user))
  end.

End MonthlyStats.

(** ** authMiddleware *)

(** What the body of the [try] block can throw: [atob] on text that is not
    base64, and D1's [bind] on an [undefined] value. *)
Inductive exn : Type := InvalidCharacterError | D1_TYPE_ERROR.

Inductive outcome (A : Type) : Type :=
| Return (a : A)
| Throw (e : exn).
Arguments Return {A} a.
Arguments Throw {A} e.

Definition try_catch {A : Type} (body : outcome A) (handler : exn -> outcome A)
  : outcome A :=
  match body with
  | Return a => Return a
  | Throw e => handler e
  end.

(** [s.startsWith(prefix)] *)
Fixpoint startsWith (s prefix : string) {struct prefix} : bool :=
  match prefix, s with
  | EmptyString, _ => true
  | String _ _, EmptyString => false
  | String a prefix', String b s' => Ascii.eqb a b && startsWith s' prefix'
  end.

(** [s.substring(n)] *)
Fixpoint substring_from (n : nat) (s : string) : string :=
  match n, s with
  | O, _ => s
  | S n', String _ s' => substring_from n' s'
  | S _, EmptyString => EmptyString
  end.

(** [s.split(':')] *)
Fixpoint split_colon (s : string) : list string :=
  match s with
  | EmptyString => [EmptyString]
  | String c s' =>
      if Ascii.eqb c ":" then EmptyString :: split_colon s'
      else match split_colon s' with
           | [] => [String c EmptyString]
           | field :: fields => String c field :: fields
           end
  end.

Section Auth.

(** [atob]: the decoded text, or [None] when it throws. *)
Variable atob : string -> option string.
(** [parseInt]: the integer read, or [None] for NaN. *)
Variable parseInt : string -> option Z.

(** [SELECT id, username FROM users WHERE id = ? AND username = ?]
    [.bind(parseInt(userId), username).first()].  A NaN id is bound as
    NULL and equals no row's id; an [undefined] username is rejected by
    [bind]. *)
Definition select_user (db : DB) (userId : option Z)
    (username : option string) : outcome (option User.t) :=
  match username with
  | None => Throw D1_TYPE_ERROR
  | Some name =>
      Return
        (Sql.first
           (Sql.where_
              (fun u => eqb (Some (User.id u)) userId
                        && eqb (User.username u) name)
              (users db)))
  end.

(** The body of the [try] block; the result is the value stored with
    [c.set('user', ...)]. *)
Definition resolve_token (db : DB) (token : string)
  : outcome (option Identity.t) :=
  match atob token with
  | None => Throw InvalidCharacterError
  | Some decoded =>
      let fields := split_colon decoded in
      let userId := nth_error fields 0 in
      let username := nth_error fields 1 in
      match select_user db
              (match userId with Some v => parseInt v | None => None end)
              username with
      | Throw e => Throw e
      | Return (Some user) =>
          Return (Some (Identity.mk (User.id user) (User.username user)))
      | Return None => Return None
      end
  end.

Definition authMiddleware (db : DB) (authHeader : option string)
  : outcome (option Identity.t) :=
  match authHeader with
  | None => Return None
  | Some h =>
      if negb (truthy authHeader) || negb (startsWith h "Bearer ")
      then Return None
      else
        let token := substring_from 7 h in
        try_catch (resolve_token db token) (fun _ => Return None)
  end.

End Auth.

(** ** Runtime builtins on ASCII text

    [authMiddleware] and [monthly_query] are stated for any behaviour of
    [atob], [parseInt] and [strftime].  The definitions below follow the
    builtins on plain ASCII input and are used to run the handlers on
    concrete requests. *)

Module Builtins.

Definition is_space (c : ascii) : bool :=
  let n := nat_of_ascii c in
  ((n =? 9) || (n =? 10) || (n =? 11) || (n =? 12) || (n =? 13)
   || (n =? 32))%nat.

(** The value of one character of the base64 alphabet. *)
Definition sextet (c : ascii) : option Z :=
  let n := Z.of_nat (nat_of_ascii c) in
  if (65 <=? n) && (n <=? 90) then Some (n - 65)
  else if (97 <=? n) && (n <=? 122) then Some (n - 71)
  else if (48 <=? n) && (n <=? 57) then Some (n + 4)
  else if n =? 43 then Some 62
  else if n =? 47 then Some 63
  else None.

Fixpoint sextets (cs : list ascii) : option (list Z) :=
  match cs with
  | [] => Some []
  | c :: cs' =>
      match sextet c, sextets cs' with
      | Some v, Some vs => Some (v :: vs)
      | _, _ => None
      end
  end.

Definition byte (n : Z) : ascii := ascii_of_nat (Z.to_nat (n mod 256)).

Fixpoint octets (vs : list Z) : list ascii :=
  match vs with
  | a :: b :: c :: d :: rest =>
      let n := ((a * 64 + b) * 64 + c) * 64 + d in
      byte (n / 65536) :: byte (n / 256) :: byte n :: octets rest
  | [a; b; c] =>
      let n := (a * 64 + b) * 64 + c in
      [byte (n / 1024); byte (n / 4)]
  | [a; b] => [byte ((a * 64 + b) / 16)]
  | _ => []
  end.

Definition strip_padding (cs : list ascii) : list ascii :=
  if (List.length cs mod 4 =? 0)%nat then
    match rev cs with
    | "="%char :: "="%char :: r => rev r
    | "="%char :: r => rev r
    | _ => cs
    end
  else cs.

(** [atob]: forgiving base64 decoding. *)
Definition atob (s : string) : option string :=
  let cs := filter (fun c => negb (is_space c)) (list_ascii_of_string s) in
  let cs := strip_padding cs in
  if (List.length cs mod 4 =? 1)%nat then None
  else option_map (fun vs => string_of_list_ascii (octets vs)) (sextets cs).

Fixpoint skip_spaces (s : string) : string :=
  match s with
  | String c s' => if is_space c then skip_spaces s' else s
  | EmptyString => s
  end.

Definition digit (radix : Z) (c : ascii) : option Z :=
  let n := Z.of_nat (nat_of_ascii c) in
  let v := if (48 <=? n) && (n <=? 57) then n - 48
           else if (97 <=? n) && (n <=? 122) then n - 87
           else if (65 <=? n) && (n <=? 90) then n - 55
           else 36 in
  if v <? radix then Some v else None.

(** The longest prefix of digits, most significant first. *)
Fixpoint digits (radix : Z) (s : string) : list Z :=
  match s with
  | String c s' =>
      match digit radix c with
      | Some v => v :: digits radix s'
      | None => []
      end
  | EmptyString => []
  end.

Definition number (radix : Z) (s : string) : option Z :=
  match digits radix s with
  | [] => None
  | ds => Some (fold_left (fun acc d => acc * radix + d) ds 0)
  end.

Definition unsigned (s : string) : option Z :=
  match s with
  | String "0" (String "x" s') => number 16 s'
  | String "0" (String "X" s') => number 16 s'
  | _ => number 10 s
  end.

(** [parseInt] without a radix argument, on texts whose value a [number]
    holds exactly (up to 2^53 in magnitude); beyond that the runtime rounds. *)
Definition parseInt (s : string) : option Z :=
  match skip_spaces s with
  | String "-" s' => option_map Z.opp (unsigned s')
  | String "+" s' => unsigned s'
  | s' => unsigned s'
  end.

Definition leap (y : Z) : bool :=
  ((y mod 4 =? 0) && negb (y mod 100 =? 0)) || (y mod 400 =? 0).

Definition days_in_month (y m : Z) : Z :=
  if m =? 2 then (if leap y then 29 else 28)
  else if (m =? 4) || (m =? 6) || (m =? 9) || (m =? 11) then 30
  else 31.

Definition two_digits (n : Z) : string :=
  String (ascii_of_nat (Z.to_nat (48 + n / 10)))
    (String (ascii_of_nat (Z.to_nat (48 + n mod 10))) "").

(** [strftime('%Y-%m', d)] on a text of the form YYYY-MM-DD.  The engine
    reads a month from 01 to 12 and a day from 01 to 31 and gives NULL
    otherwise; a day past the end of its month counts on into the next
    month (2024-02-30 is the first of March). *)
Definition strftime_Ym (d : string) : option string :=
  if date_regex d then
    match number 10 (String.substring 0 4 d),
          number 10 (String.substring 5 2 d),
          number 10 (String.substring 8 2 d) with
    | Some y, Some m, Some day =>
        if (1 <=? m) && (m <=? 12) && (1 <=? day) && (day <=? 31) then
          if day <=? days_in_month y m then Some (String.substring 0 7 d)
          else Some (String.append (String.substring 0 5 d)
                                     (two_digits (m + 1)))
        else None
    | _, _, _ => None
    end
  else None.

End Builtins.

(** ** Sample data: the seeded categories of [schema.sql] and two users *)

Module Sample.

Definition category (id : Z) (name icon : string) (ty : ttype) : Category.t :=
  Category.mk id name icon ty None.

Definition seed : list Category.t :=
  [ category 1 "工资" "💰" income;
    category 2 "奖金" "🎁" income;
    category 3 "投资收益" "📈" income;
    category 4 "其他收入" "💵" income;
    category 5 "餐饮" "🍜" expense;
    category 6 "交通" "🚗" expense;
    category 7 "购物" "🛒" expense;
    category 8 "娱乐" "🎮" expense;
    category 9 "居住" "🏠" expense;
    category 10 "医疗" "🏥" expense;
    category 11 "教育" "📚" expense;
    category 12 "其他支出" "📦" expense ].

Definition alice : Identity.t := Identity.mk 1 "alice".
Definition bob : Identity.t := Identity.mk 2 "bob".

Definition accounts : list User.t :=
  [ User.mk 1 "alice" "" None; User.mk 2 "bob" "" None ].

Definition txn (id amount : Z) (ty : ttype) (category_id : Z)
    (date : string) (uid : Z) : Transaction.t :=
  Transaction.mk id amount ty category_id None date None (Some uid).

(** A fresh database: seeded categories, two registered users. *)
Definition empty : DB := mkDB accounts seed [] 0.

Definition ledger : DB :=
  mkDB accounts seed
    [ txn 1 5000 income 1 "2024-03-01" 1;
      txn 2 50 expense 5 "2024-03-01" 1;
      txn 3 30 expense 6 "2024-03-02" 1;
      txn 4 20 expense 5 "2024-03-15" 1;
      txn 5 700 expense 9 "2024-03-03" 2;
      txn 6 10 expense 5 "2024-02-10" 1 ]
    6.

(** The same ledger for alice, with other entries for bob. *)
Definition ledger_other : DB :=
  mkDB accounts seed
    [ txn 1 5000 income 1 "2024-03-01" 1;
      txn 7 999 income 2 "2024-03-01" 2;
      txn 2 50 expense 5 "2024-03-01" 1;
      txn 3 30 expense 6 "2024-03-02" 1;
      txn 4 20 expense 5 "2024-03-15" 1;
      txn 6 10 expense 5 "2024-02-10" 1;
      txn 8 1 expense 12 "2024-03-20" 2 ]
    8.


(** The body of a POST that files an income under category 5, an expense
    category; nothing in [createTransactionSchema] relates the two. *)
Definition income_under_expense : Body.t :=
  Body.mk (Some 50) (Some "income") (Some 5) None (Some "2024-03-01").

(** The body of a POST dated in the future. *)
Definition future_expense : Body.t :=
  Body.mk (Some 50) (Some "expense") (Some 5) None (Some "2099-01-01").

End Sample.

(** ** User accounts: POST /api/auth/register, POST /api/auth/login,
    GET /api/auth/me

    Text is a sequence of 8-bit units here; [String.length] is the
    JavaScript [length] on ASCII text, which is all a user name can hold. *)

(** The database together with the AUTOINCREMENT counters of [users] and
    [categories]. *)
Record Store : Type := mkStore
  { tables : DB; users_seq : Z; categories_seq : Z }.

Module RegisterBody.
Record t : Type := mk
  { username : option string; password : option string;
    confirm_password : option string }.
End RegisterBody.

Module LoginBody.
Record t : Type := mk { username : option string; password : option string }.
End LoginBody.

(** The fields a handler reads from [c.req.valid('json')]. *)
Module Credentials.
Record t : Type := mk { username : string; password : string }.
End Credentials.

(** [{ message, user: { id, username }, token }] *)
Module AuthResponse.
Record t : Type := mk
  { message : string; user : Identity.t; token : string }.
End AuthResponse.

(** [[a-zA-Z0-9_]] *)
Definition is_word (c : ascii) : bool :=
  let n := nat_of_ascii c in
  (((97 <=? n) && (n <=? 122)) || ((65 <=? n) && (n <=? 90))
   || ((48 <=? n) && (n <=? 57)) || (n =? 95))%nat.

(** [/^[a-zA-Z0-9_]+$/] *)
Definition word_regex (s : string) : bool :=
  negb (s =? "")%string && forallb is_word (list_ascii_of_string s).

(** [.min(lo).max(hi)] on a string *)
Definition length_within (lo hi : nat) (s : string) : bool :=
  ((lo <=? String.length s) && (String.length s <=? hi))%nat.

Definition registerSchema (b : RegisterBody.t) : option Credentials.t :=
  match RegisterBody.username b, RegisterBody.password b,
        RegisterBody.confirm_password b with
  | Some u, Some p, Some c =>
      if length_within 3 20 u && word_regex u && length_within 6 50 p
         && (p =? c)%string
      then Some (Credentials.mk u p)
      else None
  | _, _, _ => None
  end.

Definition loginSchema (b : LoginBody.t) : option Credentials.t :=
  match LoginBody.username b, LoginBody.password b with
  | Some u, Some p =>
      if (1 <=? String.length u)%nat && (1 <=? String.length p)%nat
      then Some (Credentials.mk u p)
      else None
  | _, _ => None
  end.

(** A whole number in a template string. *)
Definition number_text (n : Z) : string :=
  DecimalString.NilZero.string_of_int (Z.to_int n).

(** [`${id}:${username}:${Date.now()}`] *)
Definition credential (id : Z) (username : string) (now : Z) : string :=
  (number_text id ++ ":" ++ username ++ ":" ++ number_text now)%string.

Definition next_user_id (st : Store) : Z :=
  1 + fold_right Z.max (users_seq st) (map User.id (users (tables st))).

Definition add_user (st : Store) (u : User.t) : Store :=
  mkStore
    (mkDB (users (tables st) ++ [u]) (categories (tables st))
       (transactions (tables st)) (transactions_seq (tables st)))
    (User.id u) (categories_seq st).

Section Accounts.

(** [hashPassword]: the hex SHA-256 digest of the salted password. *)
Variable hashPassword : string -> string.
(** [btoa] *)
Variable btoa : string -> string.

(** [created] is [datetime('now')] at the insert, [now] is [Date.now()]. *)
Definition register (created : string) (now : Z) (st : Store)
    (body : RegisterBody.t) : response AuthResponse.t * Store :=
  match registerSchema body with
  | None => (Invalid, st)
  | Some v =>
      let username := Credentials.username v in
      let existing :=
        Sql.first
          (Sql.where_ (fun u => eqb (User.username u) username)
             (users (tables st))) in
      match existing with
      | Some _ => (JsonError 400 "用户名已被使用，请选择其他用户名", st)
      | None =>
          let passwordHash := hashPassword (Credentials.password v) in
          let result :=
            User.mk (next_user_id st) username passwordHash (Some created) in
          let token :=
            btoa (credential (User.id result) (User.username result) now) in
          (Json 201
             (AuthResponse.mk "注册成功"
                (Identity.mk (User.id result) (User.username result)) token),
           add_user st result)
      end
  end.

Definition login (now : Z) (db : DB) (body : LoginBody.t)
  : response AuthResponse.t :=
  match loginSchema body with
  | None => Invalid
  | Some v =>
      let passwordHash := hashPassword (Credentials.password v) in
      let user :=
        Sql.first
          (Sql.where_
             (fun u => eqb (User.username u) (Credentials.username v)
                       && eqb (User.password_hash u) passwordHash)
             (users db)) in
      match user with
      | None => JsonError 401 "用户名或密码错误"
      | Some user =>
          let token :=
            btoa (credential (User.id user) (User.username user) now) in
          Json 200
            (AuthResponse.mk "登录成功"
               (Identity.mk (User.id user) (User.username user)) token)
      end
  end.

End Accounts.

Definition get_me (user : option Identity.t) : response Identity.t :=
  match user with
  | None => JsonError 401 "未登录"
  | Some user => Json 200 user
  end.

(** ** GET /api/categories and POST /api/categories *)

Definition get_categories (db : DB) (type : option string)
  : response (list Category.t) :=
  Json 200
    (Sql.where_
       (and_if type (fun v c => eqb (type_text (Category.type c)) v))
       (categories db)).

Module CategoryBody.
Record t : Type := mk
  { name : option string; icon : option string; type : option string }.
End CategoryBody.

Module NewCategory.
Record t : Type := mk { name : string; icon : string; type : ttype }.
End NewCategory.

(** [z.string().default('📦')] *)
Definition default_icon (icon : option string) : string :=
  match icon with
  | Some v => v
  | None => "📦"
  end.

Definition createCategorySchema (b : CategoryBody.t) : option NewCategory.t :=
  match required (CategoryBody.name b)
          (check (fun s => (1 <=? String.length s)%nat)),
        required (CategoryBody.type b) parse_type with
  | Some n, Some ty =>
      Some (NewCategory.mk n (default_icon (CategoryBody.icon b)) ty)
  | _, _ => None
  end.

Definition next_category_id (st : Store) : Z :=
  1 + fold_right Z.max (categories_seq st)
        (map Category.id (categories (tables st))).

(** [INSERT INTO categories (name, icon, type) VALUES (?, ?, ?)
     RETURNING *]; the route has no [requireAuth]. *)
Definition post_category (created : string) (st : Store)
    (body : CategoryBody.t) : response Category.t * Store :=
  match createCategorySchema body with
  | None => (Invalid, st)
  | Some v =>
      let result :=
        Category.mk (next_category_id st) (NewCategory.name v)
          (NewCategory.icon v) (NewCategory.type v) (Some created) in
      (Json 201 result,
       mkStore
         (mkDB (users (tables st)) (categories (tables st) ++ [result])
            (transactions (tables st)) (transactions_seq (tables st)))
         (users_seq st) (Category.id result))
  end.

(** ** The client session ([src/api/client.ts]) *)

Module Client.

Definition TOKEN_KEY : string := "saves_auth_token".
Definition USER_KEY : string := "saves_user".

(** AsyncStorage, a store of text under text keys. *)
Definition storage : Type := list (string * string).

Definition getItem (key : string) (s : storage) : option string :=
  option_map snd (find (fun e => (fst e =? key)%string) s).

Definition removeItem (key : string) (s : storage) : storage :=
  filter (fun e => negb (fst e =? key)%string) s.

Definition setItem (key value : string) (s : storage) : storage :=
  (key, value) :: removeItem key s.

(** The module variable [authToken] and the device's storage. *)
Record session : Type := mkSession
  { authToken : option string; stored : storage }.

Definition getToken (c : session) : option string := authToken c.

Definition clearAuth (c : session) : session :=
  mkSession None (removeItem USER_KEY (removeItem TOKEN_KEY (stored c))).

(** The [Authorization] header that [request] sends, if any. *)
Definition authorization (c : session) : option string :=
  match authToken c with
  | Some token =>
      if truthy (authToken c) then Some ("Bearer " ++ token)%string else None
  | None => None
  end.

(** [response.ok] *)
Definition ok (status : Z) : bool := (200 <=? status) && (status <=? 299).

Section Json.

(** [JSON.stringify] and [JSON.parse] on a stored user; [None] when
    [JSON.parse] throws. *)
Variable stringify : Identity.t -> string.
Variable parse : string -> option Identity.t.

Definition saveAuth (token : string) (user : Identity.t) (c : session)
  : session :=
  mkSession (Some token)
    (setItem USER_KEY (stringify user) (setItem TOKEN_KEY token (stored c))).

(** The promised user (or null) and the session afterwards. *)
Definition initAuth (c : session) : option Identity.t * session :=
  let token := getItem TOKEN_KEY (stored c) in
  let userStr := getItem USER_KEY (stored c) in
  match token, userStr with
  | Some t, Some u =>
      if truthy token && truthy userStr
      then
        let c' := mkSession (Some t) (stored c) in
        match parse u with
        | Some user => (Some user, c')
        | None => (None, c')
        end
      else (None, c)
  | _, _ => (None, c)
  end.

(** [register] and [login] of the client once the server has replied:
    [request] throws unless the status is ok, otherwise the token and the
    user of the reply are saved. *)
Definition signed_in (reply : response AuthResponse.t) (c : session)
  : session :=
  match reply with
  | Json status data =>
      if ok status
      then saveAuth (AuthResponse.token data) (AuthResponse.user data) c
      else c
  | _ => c
  end.

End Json.

(** A [number] handed to [getTransactions] as a limit or an offset: a
    whole number, or NaN.  Fractions and the infinities, which a page size
    or a position never is, are left out. *)
Inductive number : Type :=
  | NaN
  | Whole (n : Z).

Module ListParams.
Record t : Type := mk
  { type : option string; start_date : option string;
    end_date : option string; limit : option number;
    offset : option number }.
End ListParams.

(** [if (params?.x) query.set('x', ...)]: a parameter is sent only when it
    is truthy; a number is truthy unless it is 0 or NaN.  What is sent is
    [x.toString()], which the server's [parseInt] reads back as the whole
    number it was. *)
Definition sent_text (v : option string) : option string :=
  if truthy v then v else None.

Definition sent_number (v : option number) : option Z :=
  match v with
  | Some (Whole n) => if n =? 0 then None else Some n
  | Some NaN => None
  | None => None
  end.

(** The query string of [getTransactions], as the server reads it. *)
Definition list_query (params : ListParams.t) : ListQuery.t :=
  ListQuery.mk (sent_text (ListParams.type params))
    (sent_text (ListParams.start_date params))
    (sent_text (ListParams.end_date params))
    (sent_number (ListParams.limit params))
    (sent_number (ListParams.offset params)).

End Client.

(** ** The registration screen ([handleRegister]) *)

Section RegisterScreen.

(** [String.prototype.trim] *)
Variable trim : string -> string.

(** The body that [handleRegister] posts, or [None] when it stops at an
    alert. *)
Definition handleRegister (username password confirmPassword : string)
  : option RegisterBody.t :=
  if (trim username =? "")%string then None
  else if (String.length (trim username) <? 3)%nat then None
  else if negb (word_regex (trim username)) then None
  else if (password =? "")%string then None
  else if (String.length password <? 6)%nat then None
  else if negb (password =? confirmPassword)%string then None
  else Some (RegisterBody.mk (Some (trim username)) (Some password)
               (Some confirmPassword)).

End RegisterScreen.

(** ** The login screen ([handleLogin]) and the start of the app *)

Section LoginScreen.

Variable trim : string -> string.

(** The body that [handleLogin] posts, or [None] when it stops at an
    alert. *)
Definition handleLogin (username password : string) : option LoginBody.t :=
  if (trim username =? "")%string then None
  else if (password =? "")%string then None
  else Some (LoginBody.mk (Some (trim username)) (Some password)).

End LoginScreen.

(** [RootLayout] waits for [initAuth] before it shows any screen. *)
Definition checkAuth (parse : string -> option Identity.t)
    (c : Client.session) : Client.session :=
  snd (Client.initAuth parse c).

(** [IndexScreen]: the route it replaces itself with. *)
Definition IndexScreen (c : Client.session) : string :=
  if truthy (Client.getToken c) then "/(tabs)" else "/login".

(** A start of the app on a device whose storage holds [s]: the module
    variable [authToken] starts as null. *)
Definition launch (parse : string -> option Identity.t) (s : Client.storage)
  : string :=
  IndexScreen (checkAuth parse (Client.mkSession None s)).

(** ** The monthly trend of the statistics screen ([StatsScreen]) *)

(** One line of the trend: the month with [income?.total ?? 0] and
    [expense?.total ?? 0]. *)
Module Trend.
Record t : Type := mk { month : option string; income : Z; expense : Z }.
End Trend.

(** [Array.from(new Set(xs))]: the distinct values of [xs], each at the
    place of its first occurrence. *)
Fixpoint from_set {K : Type} `{EqDec K} (xs : list K) : list K :=
  match xs with
  | [] => []
  | x :: xs' => x :: filter (fun y => negb (eqb y x)) (from_set xs')
  end.

(** [monthlyStats.find((s) => s.month === month && s.type === ty)] *)
Definition find_month (month : option string) (ty : ttype)
    (monthlyStats : list Monthly.t) : option Monthly.t :=
  find (fun s => eqb (Monthly.month s) month && eqb (Monthly.type s) ty)
    monthlyStats.

(** [row?.total ?? 0] *)
Definition total_or_zero (row : option Monthly.t) : Z :=
  match row with
  | Some s => Monthly.total s
  | None => 0
  end.

(** The lines under the heading of the monthly trend, top to bottom. *)
Definition monthly_trend (monthlyStats : list Monthly.t) : list Trend.t :=
  map (fun month =>
         Trend.mk month
           (total_or_zero (find_month month income monthlyStats))
           (total_or_zero (find_month month expense monthlyStats)))
      (firstn 6 (from_set (map Monthly.month monthlyStats))).

(** ** More of the runtime on ASCII text, and sample accounts *)

Module Base64.

(** The character of a six-bit value. *)
Definition alphabet (v : Z) : ascii :=
  ascii_of_nat
    (Z.to_nat
       (if v <? 26 then v + 65
        else if v <? 52 then v + 71
        else if v <? 62 then v - 4
        else if v =? 62 then 43
        else 47)).

Fixpoint encode (bytes : list Z) : list ascii :=
  match bytes with
  | a :: b :: c :: rest =>
      let n := (a * 256 + b) * 256 + c in
      alphabet (n / 262144) :: alphabet (n / 4096 mod 64)
      :: alphabet (n / 64 mod 64) :: alphabet (n mod 64) :: encode rest
  | [a; b] =>
      let n := (a * 256 + b) * 4 in
      [alphabet (n / 4096); alphabet (n / 64 mod 64); alphabet (n mod 64);
       "="%char]
  | [a] =>
      let n := a * 16 in
      [alphabet (n / 64); alphabet (n mod 64); "="%char; "="%char]
  | [] => []
  end.

(** [btoa] *)
Definition btoa (s : string) : string :=
  string_of_list_ascii
    (encode (map (fun c => Z.of_nat (nat_of_ascii c)) (list_ascii_of_string s))).

End Base64.

Module Demo.

(** A stand-in for the password digest. *)
Definition hashPassword (password : string) : string :=
  ("sha256:" ++ password ++ "saves-salt-2024")%string.

Definition fresh : Store := mkStore Sample.empty 2 12.

Definition carol : RegisterBody.t :=
  RegisterBody.mk (Some "carol_01") (Some "secret1") (Some "secret1").

(** [JSON.stringify] / [JSON.parse] of a user, reduced to a pair of
    fields. *)
Definition stringify (u : Identity.t) : string :=
  (number_text (Identity.id u) ++ ":" ++ Identity.username u)%string.

Definition parse (s : string) : option Identity.t :=
  match split_colon s with
  | [i; n] =>
      match Builtins.parseInt i with
      | Some id => Some (Identity.mk id n)
      | None => None
      end
  | _ => None
  end.

(** [String.prototype.trim] on ASCII text: white space is removed at both
    ends. *)
Definition is_space (c : ascii) : bool :=
  let n := nat_of_ascii c in ((n =? 32) || ((9 <=? n) && (n <=? 13)))%nat.

Fixpoint trim_start (s : list ascii) : list ascii :=
  match s with
  | c :: s' => if is_space c then trim_start s' else s
  | [] => []
  end.

Definition trim (s : string) : string :=
  string_of_list_ascii
    (rev (trim_start (rev (trim_start (list_ascii_of_string s))))).

End Demo.

(** ** Vocabulary of the properties *)

(** The transactions of one user. *)
Definition own (uid : Z) (db : DB) : list Transaction.t :=
  filter (owned_by uid) (transactions db).

(** Everything in the table that does not belong to [uid]. *)
Definition foreign (uid : Z) (db : DB) : list Transaction.t :=
  filter (fun t => negb (owned_by uid t)) (transactions db).

Definition has_type (ty : ttype) (t : Transaction.t) : bool :=
  eqb (Transaction.type t) ty.

(** An optional closed interval [[start_date, end_date]] of dates, compared
    as text. *)
Definition in_range (range : option (string * string)) (t : Transaction.t)
  : bool :=
  match range with
  | None => true
  | Some (s, e) =>
      Sql.text_le s (Transaction.date t) && Sql.text_le (Transaction.date t) e
  end.

Definition range_start (range : option (string * string)) : option string :=
  option_map fst range.
Definition range_end (range : option (string * string)) : option string :=
  option_map snd range.

(** Both bounds of a given range are actual dates, not empty text. *)
Definition proper_range (range : option (string * string)) : Prop :=
  match range with
  | None => True
  | Some (s, e) => s <> "" /\ e <> ""
  end.

(** The transactions of [uid] of type [ty] inside [range]. *)
Definition matching (uid : Z) (range : option (string * string)) (ty : ttype)
    (db : DB) : list Transaction.t :=
  filter (fun t => owned_by uid t && in_range range t && has_type ty t)
    (transactions db).

(** The rows that the totals query of GET /api/stats puts in the group of
    type [ty]. *)
Definition selected (db : DB) (uid : Z) (start_date end_date : option string)
    (ty : ttype) : list Transaction.t :=
  filter (has_type ty)
    (Sql.where_ (dateFilter uid start_date end_date) (transactions db)).

(** A joined row whose category has type [ty]. *)
Definition category_has_type (ty : ttype) (r : Transaction.t * Category.t)
  : bool :=
  eqb (Category.type (snd r)) ty.

Definition summary_total (ty : ttype) (s : Summary.t) : Z :=
  match ty with income => Summary.income s | expense => Summary.expense s end.

Definition summary_count (ty : ttype) (s : Summary.t) : Z :=
  match ty with
  | income => Summary.income_count s
  | expense => Summary.expense_count s
  end.

(** The sum of the by-category totals over the categories of one type. *)
Definition category_total (ty : ttype) (rows : list CategoryStat.t) : Z :=
  Sql.sum CategoryStat.total
    (filter (fun r => eqb (CategoryStat.type r) ty) rows).

(** The form of a credential in the words of the specification: three
    colon-separated fields, a numeric subject id, the subject's user name
    and a numeric time of issuance. *)
Definition all_digits (s : string) : bool :=
  negb (s =? "")%string && forallb is_digit (list_ascii_of_string s).

Definition three_fields (decoded : string) : bool :=
  match split_colon decoded with
  | [subject_id; username; issued] =>
      all_digits subject_id && negb (username =? "")%string
      && all_digits issued
  | _ => false
  end.

(** Text without a colon. *)
Definition no_colon (s : string) : bool :=
  forallb (fun c => negb (Ascii.eqb c ":")) (list_ascii_of_string s).

(** User names and user ids are unique, and every user name is made of
    letters, digits and underscores. *)
Definition accounts_ok (db : DB) : Prop :=
  NoDup (map User.username (users db))
  /\ NoDup (map User.id (users db))
  /\ Forall (fun u => word_regex (User.username u) = true) (users db).

(** Transaction ids are unique (PRIMARY KEY). *)
Definition unique_ids (db : DB) : Prop :=
  NoDup (map Transaction.id (transactions db)).

(** Every stored transaction has a positive amount and a date of the shape
    [YYYY-MM-DD]. *)
Definition valid_rows (db : DB) : Prop :=
  Forall
    (fun t => 0 < Transaction.amount t
              /\ date_regex (Transaction.date t) = true)
    (transactions db).

(** Category ids are unique (PRIMARY KEY). *)
Definition unique_categories (db : DB) : Prop :=
  NoDup (map Category.id (categories db)).

(** Row [x] may stand in front of row [y] in a list that shows the latest
    date first and, within one date, the highest id first. *)
Definition newer_first (x y : TransactionRow.t) : Prop :=
  Sql.text_lt (Transaction.date (TransactionRow.txn y))
    (Transaction.date (TransactionRow.txn x)) = true
  \/ (Transaction.date (TransactionRow.txn x)
      = Transaction.date (TransactionRow.txn y)
      /\ Transaction.id (TransactionRow.txn y)
         <= Transaction.id (TransactionRow.txn x)).

(** The transactions of [uid] that the statistics select and that name the
    category [c]. *)
Definition in_category (db : DB) (uid : Z) (start_date end_date : option string)
    (c : Category.t) : list Transaction.t :=
  filter (fun t => eqb (Transaction.category_id t) (Category.id c))
    (Sql.where_ (dateFilter uid start_date end_date) (transactions db)).

(** Amounts whose magnitudes add up to at most 2^53.  Every sum of some of
    them, taken in any order, is then a whole number of magnitude at most
    2^53, which binary64 addition gives without rounding: on such rows
    [SUM] over the column [amount REAL] is the sum of the integers. *)
Definition exactly_added (rows : list Transaction.t) : Prop :=
  Sql.sum (fun t => Z.abs (Transaction.amount t)) rows <= 2 ^ 53.

(** The transactions of [l] that name the category [c]. *)
Definition naming (c : Category.t) (l : list Transaction.t)
  : list Transaction.t :=
  filter (fun t => eqb (Transaction.category_id t) (Category.id c)) l.

(** A JavaScript number that D1 binds as an integer. *)
Definition int64 (n : Z) : Prop := - 2 ^ 63 <= n < 2 ^ 63.

(** The limit and the offset of a list query can be bound. *)
Definition bindable (q : ListQuery.t) : Prop :=
  int64 (list_limit q) /\ int64 (list_offset q).

(** The by-category row of category [c] over the transactions [l]. *)
Definition stat_of (c : Category.t) (l : list Transaction.t) : CategoryStat.t :=
  CategoryStat.mk (Category.id c) (Category.name c) (Category.icon c)
    (Category.type c) (Sql.sum Transaction.amount l) (Sql.count l).

(** The transactions of [uid] of type [ty] whose date falls in the month
    [m], as [strftime_Ym] reads it. *)
Definition in_month (strftime_Ym : string -> option string) (db : DB)
    (uid : Z) (m : option string) (ty : ttype) : list Transaction.t :=
  Sql.with_key
    (fun t => (strftime_Ym (Transaction.date t), Transaction.type t))
    (m, ty) (own uid db).

(** Month [a] comes after month [b]; NULL is before every month. *)
Definition later_month (a b : option string) : Prop :=
  Sql.null_text_le b a = true /\ a <> b.

(** The monthly query without its [LIMIT 24]. *)
Definition monthly_all (strftime_Ym : string -> option string) (db : DB)
    (uid : Z) : list Monthly.t :=
  Sql.order_by
    (fun x y => Sql.null_text_le (Monthly.month y) (Monthly.month x))
    (map (fun g => Monthly.mk (fst (fst g)) (snd (fst g))
                     (Sql.sum Transaction.amount (snd g))
                     (Sql.count (snd g)))
       (Sql.group_by
          (fun t => (strftime_Ym (Transaction.date t), Transaction.type t))
          (Sql.where_ (owned_by uid) (transactions db)))).

(** The requests that write to the transaction table, and the database
    after a sequence of them, each handled on the result of the one
    before. *)
Inductive request : Type :=
| Post (now : string) (user : option Identity.t) (body : Body.t)
| Put (user : option Identity.t) (id : Z) (body : Body.t)
| Delete (user : option Identity.t) (id : Z).

Definition handle (db : DB) (r : request) : DB :=
  match r with
  | Post now user body => snd (post_transaction now db user body)
  | Put user id body => snd (put_transaction db user id body)
  | Delete user id => snd (delete_transaction db user id)
  end.

Definition history (db : DB) (rs : list request) : DB := fold_left handle rs db.

(** The value of a field after an update that may or may not supply it. *)
Definition given {A : Type} (supplied : option A) (old : A) : A :=
  match supplied with
  | Some v => v
  | None => old
  end.

(** A number of the caller passed on as it was given; there is none to
    pass on for NaN. *)
Definition as_given (v : option Client.number) : option (option Z) :=
  match v with
  | None => Some None
  | Some (Client.Whole n) => Some (Some n)
  | Some Client.NaN => None
  end.

(** The query in which every parameter of the caller is passed on as it
    was given, when its numbers are whole. *)
Definition raw_query (params : Client.ListParams.t) : option ListQuery.t :=
  match as_given (Client.ListParams.limit params),
        as_given (Client.ListParams.offset params) with
  | Some limit, Some offset =>
      Some (ListQuery.mk (Client.ListParams.type params)
              (Client.ListParams.start_date params)
              (Client.ListParams.end_date params) limit offset)
  | _, _ => None
  end.

(** Row [r] passes the filters that the query [q] actually sets. *)
Definition passes (q : ListQuery.t) (t : Transaction.t) : Prop :=
  (forall v, ListQuery.type q = Some v -> v <> "" ->
     type_text (Transaction.type t) = v)
  /\ (forall v, ListQuery.start_date q = Some v -> v <> "" ->
        Sql.text_le v (Transaction.date t) = true)
  /\ (forall v, ListQuery.end_date q = Some v -> v <> "" ->
        Sql.text_le (Transaction.date t) v = true).

(** * Properties *)

(** ** Facts about the SQL fragment *)

Lemma eqb_true_iff {K : Type} `{EqDec K} (x y : K) : eqb x y = true <-> x = y.
Proof. unfold eqb. destruct (eq_dec x y); split; congruence. Qed.

Lemma eqb_false_iff {K : Type} `{EqDec K} (x y : K) : eqb x y = false <-> x <> y.
Proof. unfold eqb. destruct (eq_dec x y); split; congruence. Qed.

Lemma eqb_refl {K : Type} `{EqDec K} (x : K) : eqb x x = true.
Proof. apply eqb_true_iff. reflexivity. Qed.

Lemma or_zero_some (n : Z) : or_zero (Some n) = n.
Proof. simpl. destruct (Z.eqb_spec n 0); congruence. Qed.

Section ListFacts.

Context {A : Type}.

Lemma filter_and (p q : A -> bool) (l : list A) :
  filter (fun x => p x && q x) l = filter q (filter p l).
Proof.
  induction l as [|x l IH]; simpl; [reflexivity|].
  destruct (p x); simpl; [destruct (q x)|]; congruence.
Qed.

Lemma filter_comm (p q : A -> bool) (l : list A) :
  filter p (filter q l) = filter q (filter p l).
Proof.
  rewrite <- !filter_and. apply filter_ext. intros x. apply andb_comm.
Qed.

Lemma filter_nil_iff (p : A -> bool) (l : list A) :
  filter p l = [] <-> forall x, In x l -> p x = false.
Proof.
  induction l as [|x l IH]; simpl.
  - split; [intros _ y []|reflexivity].
  - destruct (p x) eqn:E.
    + split; [discriminate|]. intros H'. specialize (H' x (or_introl eq_refl)).
      congruence.
    + rewrite IH. split.
      * intros H' y [<-|Hy]; auto.
      * intros H' y Hy. apply H'. right. exact Hy.
Qed.

Lemma find_map {B : Type} (h : A -> B) (p : B -> bool) (l : list A) :
  find p (map h l) = option_map h (find (fun x => p (h x)) l).
Proof.
  induction l as [|x l IH]; simpl; [reflexivity|].
  destruct (p (h x)); [reflexivity|exact IH].
Qed.

Lemma sum_cons (f : A -> Z) (x : A) (l : list A) :
  Sql.sum f (x :: l) = f x + Sql.sum f l.
Proof. reflexivity. Qed.

Lemma sum_app (f : A -> Z) (l l' : list A) :
  Sql.sum f (l ++ l') = Sql.sum f l + Sql.sum f l'.
Proof. induction l as [|x l IH]; simpl; [reflexivity|]. rewrite IH. lia. Qed.

Lemma sum_ext_in (f g : A -> Z) (l : list A) :
  (forall x, In x l -> f x = g x) -> Sql.sum f l = Sql.sum g l.
Proof.
  induction l as [|x l IH]; simpl; intros E; [reflexivity|].
  rewrite IH, (E x) by auto. reflexivity.
Qed.



End ListFacts.

Section GroupBy.

Context {A K : Type} `{EqDec K}.
Variable key : A -> K.

Lemma group_by_In (rows : list A) (g : K * list A) :
  In g (Sql.group_by key rows) <->
  In (fst g) (map key rows) /\ snd g = Sql.with_key key (fst g) rows.
Proof.
  unfold Sql.group_by. rewrite in_map_iff. split.
  - intros [k [<- Hk]]. apply nodup_In in Hk. simpl. auto.
  - intros [Hk Hg]. exists (fst g). split.
    + destruct g; simpl in *; subst; reflexivity.
    + apply nodup_In. exact Hk.
Qed.

Lemma group_by_keys (rows : list A) :
  map fst (Sql.group_by key rows) = nodup eq_dec (map key rows).
Proof.
  unfold Sql.group_by. rewrite map_map. simpl. apply map_id.
Qed.

Lemma group_by_NoDup (rows : list A) :
  NoDup (map fst (Sql.group_by key rows)).
Proof. rewrite group_by_keys. apply NoDup_nodup. Qed.

Lemma find_keyed {B : Type} (f : K -> B) (k : K) (ks : list K) :
  find (fun g => eqb (fst g) k) (map (fun k' => (k', f k')) ks)
  = if in_dec eq_dec k ks then Some (k, f k) else None.
Proof.
  induction ks as [|k' ks IH]; simpl; [reflexivity|].
  unfold eqb at 1. destruct (eq_dec k' k) as [->|n].
  - destruct (eq_dec k k); [reflexivity|congruence].
  - rewrite IH. destruct (eq_dec k' k); [congruence|].
    destruct (in_dec eq_dec k ks); reflexivity.
Qed.

(** Looking a key up among the groups yields exactly the rows with that
    key, or nothing when no row has it. *)
Lemma group_by_find (rows : list A) (k : K) :
  find (fun g => eqb (fst g) k) (Sql.group_by key rows)
  = match Sql.with_key key k rows with
    | [] => None
    | _ :: _ => Some (k, Sql.with_key key k rows)
    end.
Proof.
  unfold Sql.group_by. rewrite find_keyed.
  destruct (in_dec eq_dec k (nodup eq_dec (map key rows))) as [i|n].
  - apply nodup_In, in_map_iff in i. destruct i as [r [Hr Hin]].
    assert (Hw : In r (Sql.with_key key k rows)).
    { apply filter_In. split; [exact Hin|]. apply eqb_true_iff. exact Hr. }
    destruct (Sql.with_key key k rows); [destruct Hw|reflexivity].
  - assert (Hw : Sql.with_key key k rows = []).
    { apply filter_nil_iff. intros r Hr. apply eqb_false_iff. intros E.
      apply n, nodup_In, in_map_iff. exists r. auto. }
    rewrite Hw. reflexivity.
Qed.

(** Summing group by group over any duplicate-free list of keys that
    covers the rows gives the sum over all the rows. *)
Lemma sum_by_key (f : A -> Z) (ks : list K) (rows : list A) :
  NoDup ks -> (forall r, In r rows -> In (key r) ks) ->
  Sql.sum (fun k => Sql.sum f (Sql.with_key key k rows)) ks = Sql.sum f rows.
Proof.
  intros Hnd. revert rows. induction Hnd as [|k ks Hk Hnd IH]; intros rows Hcov.
  - destruct rows as [|r rows]; [reflexivity|]. destruct (Hcov r (or_introl eq_refl)).
  - simpl.
    assert (Hsplit : Sql.sum f rows
              = Sql.sum f (Sql.with_key key k rows)
                + Sql.sum f (filter (fun r => negb (eqb (key r) k)) rows)).
    { clear. induction rows as [|r rows IHr]; simpl; [reflexivity|].
      unfold Sql.with_key in *. simpl. destruct (eqb (key r) k); simpl; lia. }
    rewrite Hsplit. f_equal.
    rewrite <- (IH (filter (fun r => negb (eqb (key r) k)) rows)).
    + apply sum_ext_in. intros k' Hk'. f_equal. unfold Sql.with_key.
      rewrite <- filter_and. apply filter_ext_in. intros r _.
      destruct (eqb (key r) k') eqn:E; [|now rewrite andb_false_r].
      apply eqb_true_iff in E. subst k'. rewrite andb_true_r.
      symmetry. apply negb_true_iff, eqb_false_iff. congruence.
    + intros r Hr. apply filter_In in Hr. destruct Hr as [Hr Hne].
      apply negb_true_iff, eqb_false_iff in Hne.
      destruct (Hcov r Hr) as [E|Hin]; [congruence|exact Hin].
Qed.

End GroupBy.

(** ** GET /api/stats: the summary *)

Section SummaryFacts.

Variables (db : DB) (uid : Z) (start_date end_date : option string).

Lemma find_type_group (ty : ttype) :
  find_type ty (totals_query db uid start_date end_date)
  = match selected db uid start_date end_date ty with
    | [] => None
    | _ :: _ =>
        Some (TotalsRow.mk ty
                (Sql.sum Transaction.amount
                   (selected db uid start_date end_date ty))
                (Sql.count (selected db uid start_date end_date ty)))
    end.
Proof.
  unfold find_type, totals_query. rewrite find_map. simpl.
  rewrite (group_by_find Transaction.type).
  change (Sql.with_key Transaction.type ty
            (Sql.where_ (dateFilter uid start_date end_date) (transactions db)))
    with (selected db uid start_date end_date ty).
  destruct (selected db uid start_date end_date ty); reflexivity.
Qed.

Lemma totals_total (ty : ttype) :
  or_zero (option_map TotalsRow.total
             (find_type ty (totals_query db uid start_date end_date)))
  = Sql.sum Transaction.amount (selected db uid start_date end_date ty).
Proof.
  rewrite find_type_group.
  destruct (selected db uid start_date end_date ty) eqn:E; [reflexivity|].
  cbn [option_map TotalsRow.total]. apply or_zero_some.
Qed.

Lemma totals_count (ty : ttype) :
  or_zero (option_map TotalsRow.count
             (find_type ty (totals_query db uid start_date end_date)))
  = Sql.count (selected db uid start_date end_date ty).
Proof.
  rewrite find_type_group.
  destruct (selected db uid start_date end_date ty) eqn:E; [reflexivity|].
  cbn [option_map TotalsRow.count]. apply or_zero_some.
Qed.

End SummaryFacts.

Lemma dateFilter_range (uid : Z) (range : option (string * string))
    (t : Transaction.t) :
  proper_range range ->
  dateFilter uid (range_start range) (range_end range) t
  = owned_by uid t && in_range range t.
Proof.
  unfold dateFilter. destruct range as [[s e]|]; simpl; [|reflexivity].
  intros [Hs He]. apply String.eqb_neq in Hs, He. rewrite Hs, He. reflexivity.
Qed.

Lemma matching_rows (db : DB) (uid : Z) (range : option (string * string))
    (ty : ttype) :
  proper_range range ->
  filter (has_type ty)
    (Sql.where_ (dateFilter uid (range_start range) (range_end range))
       (transactions db))
  = matching uid range ty db.
Proof.
  intros Hr. unfold matching, Sql.where_. rewrite <- filter_and.
  apply filter_ext. intros t. rewrite dateFilter_range by exact Hr. reflexivity.
Qed.

(** From [E : get_stats ... (Some user) ... = Json 200 stats], replace
    [stats] by the record that the handler builds. *)
Ltac open_stats E stats :=
  unfold get_stats in E; cbn [requireAuth] in E;
  injection E as E; subst stats.

Lemma get_stats_ok (since : string) (db : DB) (user : Identity.t)
    (start_date end_date : option string) :
  exists stats, get_stats since db (Some user) start_date end_date = Json 200 stats.
Proof. eexists. reflexivity. Qed.

Lemma get_stats_summary (since : string) (db : DB) (user : Identity.t)
    (start_date end_date : option string) (stats : Stats.t) (ty : ttype) :
  get_stats since db (Some user) start_date end_date = Json 200 stats ->
  let rows :=
    filter (has_type ty)
      (Sql.where_ (dateFilter (Identity.id user) start_date end_date)
         (transactions db)) in
  summary_total ty (Stats.summary stats) = Sql.sum Transaction.amount rows
  /\ summary_count ty (Stats.summary stats) = Sql.count rows.
Proof.
  intros E rows. subst rows. open_stats E stats.
  destruct ty; cbn [summary_total summary_count Stats.summary Summary.income
                    Summary.expense Summary.income_count Summary.expense_count];
    split; first [apply totals_total | apply totals_count].
Qed.

Lemma get_stats_balance (since : string) (db : DB) (user : option Identity.t)
    (start_date end_date : option string) (stats : Stats.t) :
  get_stats since db user start_date end_date = Json 200 stats ->
  Summary.balance (Stats.summary stats)
  = Summary.income (Stats.summary stats) - Summary.expense (Stats.summary stats).
Proof.
  unfold get_stats. destruct user as [user|]; cbn [requireAuth]; [|discriminate].
  intros E. injection E as E. subst stats. reflexivity.
Qed.

(** The scenario of the specification: alice files an expense of 50 in
    category 5 on 2024-03-01 and asks for the statistics of March. *)
Example march_scenario :
  exists t db stats,
    post_transaction "2024-03-01 09:00:00" Sample.empty (Some Sample.alice)
      (Body.mk (Some 50) (Some "expense") (Some 5) None (Some "2024-03-01"))
    = (Json 201 t, db)
    /\ get_stats "2024-02-20" db (Some Sample.alice)
         (Some "2024-03-01") (Some "2024-03-31") = Json 200 stats
    /\ Summary.expense (Stats.summary stats) = 50
    /\ Summary.expense_count (Stats.summary stats) = 1
    /\ Stats.by_category stats
       = [CategoryStat.mk 5 "餐饮" "🍜" expense 50 1].
Proof. do 3 eexists. repeat split; reflexivity. Qed.

Lemma date_regex_nonempty (s : string) : date_regex s = true -> s <> "".
Proof. intros H ->. discriminate H. Qed.

(** ** Facts about ORDER BY, LIMIT and JOIN *)

Section OrderBy.

Context {A : Type}.
Variable before : A -> A -> bool.

Lemma insert_by_perm (x : A) (l : list A) :
  Permutation (Sql.insert_by before x l) (x :: l).
Proof.
  induction l as [|y l IH]; simpl; [reflexivity|].
  destruct (before x y); [reflexivity|].
  rewrite IH. apply perm_swap.
Qed.

Lemma order_by_perm (l : list A) : Permutation (Sql.order_by before l) l.
Proof.
  induction l as [|x l IH]; simpl; [reflexivity|].
  rewrite insert_by_perm. apply perm_skip. exact IH.
Qed.

Lemma order_by_In (l : list A) (x : A) :
  In x (Sql.order_by before l) <-> In x l.
Proof.
  split; apply Permutation_in;
    [apply order_by_perm | apply Permutation_sym, order_by_perm].
Qed.

(** With a total and transitive [before], the result is ordered. *)
Hypothesis before_total : forall x y, before x y = true \/ before y x = true.
Hypothesis before_trans :
  forall x y z, before x y = true -> before y z = true -> before x z = true.

Lemma insert_by_sorted (x : A) (l : list A) :
  StronglySorted (fun a b => before a b = true) l ->
  StronglySorted (fun a b => before a b = true) (Sql.insert_by before x l).
Proof.
  induction 1 as [|y l Hs IH Hy]; simpl.
  - constructor; constructor.
  - destruct (before x y) eqn:E.
    + constructor; [constructor; assumption|].
      constructor; [exact E|].
      rewrite Forall_forall in *. intros z Hz. eauto.
    + constructor; [exact IH|].
      rewrite Forall_forall in *. intros z Hz.
      apply (Permutation_in _ (insert_by_perm x l)) in Hz.
      destruct Hz as [<-|Hz]; [|auto].
      destruct (before_total x y) as [E'|E']; congruence.
Qed.

Lemma order_by_sorted (l : list A) :
  StronglySorted (fun a b => before a b = true) (Sql.order_by before l).
Proof.
  induction l as [|x l IH]; simpl; [constructor|].
  apply insert_by_sorted. exact IH.
Qed.

End OrderBy.

Lemma sum_filter_perm {A : Type} (f : A -> Z) (p : A -> bool) (l l' : list A) :
  Permutation l l' -> Sql.sum f (filter p l) = Sql.sum f (filter p l').
Proof.
  induction 1 as [|x l l' _ IH|x y l|l l' l'' _ IH1 _ IH2]; simpl.
  - reflexivity.
  - destruct (p x); simpl; congruence.
  - destruct (p x), (p y); simpl; lia.
  - congruence.
Qed.

Lemma limit_length {A : Type} (n : Z) (l : list A) :
  0 <= n -> Z.of_nat (List.length (Sql.limit n l)) <= n.
Proof.
  intros Hn. unfold Sql.limit. destruct (Z.ltb_spec n 0); [lia|].
  pose proof (firstn_le_length (Z.to_nat n) l). lia.
Qed.

Lemma limit_prefix {A : Type} (n : Z) (l : list A) :
  exists rest, l = Sql.limit n l ++ rest.
Proof.
  unfold Sql.limit. destruct (n <? 0).
  - exists []. symmetry. apply app_nil_r.
  - exists (skipn (Z.to_nat n) l). symmetry. apply firstn_skipn.
Qed.

Lemma limit_In {A : Type} (n : Z) (l : list A) (x : A) :
  In x (Sql.limit n l) -> In x l.
Proof.
  destruct (limit_prefix n l) as [rest E]. intros Hx. rewrite E.
  apply in_or_app. left. exact Hx.
Qed.

Lemma offset_In {A : Type} (n : Z) (l : list A) (x : A) :
  In x (Sql.offset n l) -> In x l.
Proof.
  unfold Sql.offset. intros Hx.
  rewrite <- (firstn_skipn (Z.to_nat n) l). apply in_or_app. right. exact Hx.
Qed.

Lemma join_cons {A B : Type} (on : A -> B -> bool) (a : A) (l : list A)
    (r : list B) :
  Sql.join on (a :: l) r = map (pair a) (filter (on a) r) ++ Sql.join on l r.
Proof. reflexivity. Qed.

Lemma join_In {A B : Type} (on : A -> B -> bool) (l : list A) (r : list B)
    (a : A) (b : B) :
  In (a, b) (Sql.join on l r) <-> In a l /\ In b r /\ on a b = true.
Proof.
  unfold Sql.join. rewrite in_flat_map. split.
  - intros [a' [Ha Hab]]. apply in_map_iff in Hab.
    destruct Hab as [b' [E Hb]]. injection E as -> ->.
    apply filter_In in Hb. tauto.
  - intros [Ha [Hb Hon]]. exists a. split; [exact Ha|].
    apply in_map. apply filter_In. tauto.
Qed.

(** A WHERE condition on the left table can be applied before the join. *)
Lemma join_where_left {A B : Type} (on : A -> B -> bool) (p : A -> bool)
    (q : A * B -> bool) (l : list A) (r : list B) :
  filter (fun x => p (fst x) && q x) (Sql.join on l r)
  = filter q (Sql.join on (filter p l) r).
Proof.
  induction l as [|a l IH]; [reflexivity|].
  rewrite join_cons, filter_app, IH.
  change (filter p (a :: l)) with (if p a then a :: filter p l else filter p l).
  destruct (p a) eqn:E.
  - rewrite join_cons, filter_app. f_equal.
    apply filter_ext_in. intros [a' b] Hin. apply in_map_iff in Hin.
    destruct Hin as [b' [E' _]]. injection E' as <- <-. simpl. rewrite E.
    reflexivity.
  - rewrite <- (app_nil_l (filter q _)). f_equal.
    apply filter_nil_iff. intros [a' b] Hin. apply in_map_iff in Hin.
    destruct Hin as [b' [E' _]]. injection E' as <- <-. simpl. rewrite E.
    reflexivity.
Qed.

Lemma NoDup_map_inj {A B : Type} (f : A -> B) (l : list A) (x y : A) :
  NoDup (map f l) -> In x l -> In y l -> f x = f y -> x = y.
Proof.
  induction l as [|a l IH]; simpl; [intros _ []|].
  intros Hnd Hx Hy E. apply NoDup_cons_iff in Hnd. destruct Hnd as [Ha Hnd].
  destruct Hx as [->|Hx], Hy as [->|Hy]; auto.
  - exfalso. apply Ha. rewrite E. apply in_map. exact Hy.
  - exfalso. apply Ha. rewrite <- E. apply in_map. exact Hx.
Qed.

(** With unique category ids, the join finds exactly the referenced row. *)
Lemma on_category_unique (cats : list Category.t) (t : Transaction.t)
    (c : Category.t) :
  NoDup (map Category.id cats) -> In c cats ->
  Category.id c = Transaction.category_id t ->
  filter (on_category t) cats = [c].
Proof.
  intros Hnd Hc E. induction cats as [|c' cats IH]; [destruct Hc|].
  simpl in Hnd. apply NoDup_cons_iff in Hnd. destruct Hnd as [Hc' Hnd].
  simpl. unfold on_category at 1.
  destruct (eq_dec (Transaction.category_id t) (Category.id c')) as [E'|E'];
    unfold eqb; destruct (eq_dec _ _) as [E''|E'']; try congruence.
  - assert (c = c').
    { destruct Hc as [->|Hc]; [reflexivity|]. exfalso. apply Hc'.
      rewrite <- E', <- E. apply in_map. exact Hc. }
    subst c'. f_equal. apply filter_nil_iff. intros c2 Hc2.
    apply eqb_false_iff. intros E2. apply Hc'. rewrite <- E', E2.
    apply in_map. exact Hc2.
  - destruct Hc as [->|Hc]; [congruence|]. apply IH; assumption.
Qed.

(** ** GET /api/stats: by-category totals against the summary *)

Section ByCategory.

Variables (cats : list Category.t) (keep : Transaction.t -> bool).
Variable ty : ttype.

(** Joined rows of the categories of type [ty] add up to the kept
    transactions of type [ty], provided every kept transaction refers to
    one category and agrees with it on the type. *)
Lemma joined_sum (txs : list Transaction.t) :
  NoDup (map Category.id cats) ->
  (forall t, In t txs -> keep t = true ->
     exists c, In c cats /\ Category.id c = Transaction.category_id t
               /\ Category.type c = Transaction.type t) ->
  Sql.sum amount_of
    (filter (category_has_type ty)
       (Sql.where_ (fun r => keep (fst r)) (Sql.join on_category txs cats)))
  = Sql.sum Transaction.amount (filter (has_type ty) (filter keep txs)).
Proof.
  intros Hnd. unfold Sql.where_.
  induction txs as [|t txs IH]; intros Href; [reflexivity|].
  rewrite join_cons, !filter_app, sum_app, IH
    by (intros t' Ht'; apply Href; right; exact Ht').
  simpl (filter keep (t :: txs)). destruct (keep t) eqn:Ek.
  - destruct (Href t (or_introl eq_refl) Ek) as [c [Hc [Eid Ety]]].
    rewrite (on_category_unique cats t c Hnd Hc Eid). simpl. rewrite Ek.
    simpl. unfold category_has_type, has_type. simpl. rewrite Ety.
    destruct (eqb (Transaction.type t) ty); simpl; unfold amount_of;
      simpl; lia.
  - replace (filter (fun r => keep (fst r))
               (map (pair t) (filter (on_category t) cats))) with
      (@nil (Transaction.t * Category.t)); [reflexivity|].
    symmetry. apply filter_nil_iff. intros [t' c] Hin.
    apply in_map_iff in Hin. destruct Hin as [c' [E _]].
    injection E as <- <-. exact Ek.
Qed.

(** The by-category rows of type [ty] add up to the joined rows whose
    category has type [ty], when rows with one category id carry one
    category. *)
Lemma category_stats_sum (rows : list (Transaction.t * Category.t))
    (ks : list Z) :
  (forall r r', In r rows -> In r' rows ->
     Category.id (snd r) = Category.id (snd r') -> snd r = snd r') ->
  category_total ty
    (flat_map category_stat
       (map (fun k => (k, Sql.with_key (fun r => Category.id (snd r)) k rows))
          ks))
  = Sql.sum
      (fun k => Sql.sum amount_of
         (Sql.with_key (fun r => Category.id (snd r)) k
            (filter (category_has_type ty) rows)))
      ks.
Proof.
  intros Hsame. unfold category_total.
  induction ks as [|k ks IH]; [reflexivity|].
  simpl map. simpl flat_map. rewrite filter_app, sum_app, IH.
  rewrite (sum_cons _ k ks). f_equal.
  unfold category_stat, Sql.with_key. simpl snd.
  rewrite (filter_comm _ (category_has_type ty) rows).
  destruct (filter (fun r => eqb (Category.id (snd r)) k) rows)
    as [|[t0 c0] g] eqn:Eg; [reflexivity|].
  assert (Hall : forall r, In r ((t0, c0) :: g) -> snd r = c0).
  { intros r Hr. rewrite <- Eg in Hr.
    assert (H0 : In (t0, c0)
                   (filter (fun r => eqb (Category.id (snd r)) k) rows))
      by (rewrite Eg; left; reflexivity).
    apply filter_In in Hr, H0. destruct Hr as [Hr Ek], H0 as [H0 Ek0].
    apply eqb_true_iff in Ek, Ek0.
    apply (Hsame r (t0, c0) Hr H0). simpl in *. congruence. }
  assert (Hf : filter (category_has_type ty) ((t0, c0) :: g)
               = if eqb (Category.type c0) ty then (t0, c0) :: g else []).
  { destruct (eqb (Category.type c0) ty) eqn:Ety.
    - apply forallb_filter_id, forallb_forall. intros r Hr.
      unfold category_has_type.
      rewrite (Hall r Hr). exact Ety.
    - apply filter_nil_iff. intros r Hr. unfold category_has_type.
      rewrite (Hall r Hr). exact Ety. }
  rewrite Hf. cbn [filter CategoryStat.type].
  destruct (eqb (Category.type c0) ty);
    cbn [Sql.sum fold_right CategoryStat.total]; lia.
Qed.

End ByCategory.

Lemma category_total_order_by (ty : ttype)
    (before : CategoryStat.t -> CategoryStat.t -> bool)
    (rows : list CategoryStat.t) :
  category_total ty (Sql.order_by before rows) = category_total ty rows.
Proof. apply sum_filter_perm, order_by_perm. Qed.

Lemma byCategory_total (db : DB) (uid : Z) (start_date end_date : option string)
    (ty : ttype) :
  NoDup (map Category.id (categories db)) ->
  (forall t, In t (transactions db) ->
     dateFilter uid start_date end_date t = true ->
     exists c, In c (categories db)
               /\ Category.id c = Transaction.category_id t
               /\ Category.type c = Transaction.type t) ->
  category_total ty (byCategory_query db uid start_date end_date)
  = Sql.sum Transaction.amount
      (filter (has_type ty)
         (Sql.where_ (dateFilter uid start_date end_date) (transactions db))).
Proof.
  intros Hnd Href. unfold byCategory_query.
  rewrite category_total_order_by. unfold Sql.group_by.
  rewrite category_stats_sum.
  - rewrite sum_by_key.
    + apply joined_sum; assumption.
    + apply NoDup_nodup.
    + intros r Hr. apply nodup_In.
      apply (in_map (fun r => Category.id (snd r))).
      apply filter_In in Hr. tauto.
  - intros [t c] [t' c'] Hr Hr' E. simpl in *.
    apply filter_In in Hr, Hr'. destruct Hr as [Hr _], Hr' as [Hr' _].
    apply join_In in Hr, Hr'.
    apply (NoDup_map_inj Category.id (categories db)); tauto.
Qed.

(** Alice files 50 as income under category 5, which is an expense category.
    The summary counts it as income; the by-category row of category 5
    carries the category's type, so the expense categories add up to 50
    while the summary's expense total is 0. *)
Lemma category_totals_differ :
  exists stats,
    get_stats "2024-02-20"
      (snd (post_transaction "2024-03-01 09:00:00" Sample.empty
              (Some Sample.alice) Sample.income_under_expense))
      (Some Sample.alice) (Some "2024-03-01") (Some "2024-03-31")
    = Json 200 stats
    /\ category_total expense (Stats.by_category stats) = 50
    /\ summary_total expense (Stats.summary stats) = 0
    /\ category_total expense (Stats.by_category stats)
       <> summary_total expense (Stats.summary stats).
Proof.
  eexists. split; [reflexivity|].
  split; [reflexivity|]. split; [reflexivity|]. discriminate.
Qed.

(** C2 (amended). For every user and every pair of range parameters, when
    category ids are unique, every transaction the range filter selects
    for the user refers to an existing category of the transaction's own
    type, and the selected amounts are whole numbers whose magnitudes add
    up to at most 2^53 (so that no addition rounds), the by-category totals
    of the categories of a type add up to the summary total of that
    type. *)
Theorem category_totals_match :
  forall (since : string) (db : DB) (user : Identity.t)
         (start_date end_date : option string),
    NoDup (map Category.id (categories db)) ->
    (forall t, In t (transactions db) ->
       dateFilter (Identity.id user) start_date end_date t = true ->
       exists c, In c (categories db)
                 /\ Category.id c = Transaction.category_id t
                 /\ Category.type c = Transaction.type t) ->
    exactly_added
      (Sql.where_ (dateFilter (Identity.id user) start_date end_date)
         (transactions db)) ->
    exists stats,
      get_stats since db (Some user) start_date end_date = Json 200 stats
      /\ forall ty,
           category_total ty (Stats.by_category stats)
           = summary_total ty (Stats.summary stats).
Proof.
  intros since db user start_date end_date Hnd Href _.
  destruct (get_stats_ok since db user start_date end_date) as [stats E].
  exists stats. split; [exact E|]. intros ty.
  destruct (get_stats_summary _ _ _ _ _ _ ty E) as [-> _].
  open_stats E stats.
  cbn [Stats.by_category]. apply byCategory_total; assumption.
Qed.

(** The hypothesis on categories can be checked by running over the table. *)
Lemma categorised_check (cats : list Category.t) (keep : Transaction.t -> bool)
    (txs : list Transaction.t) :
  forallb
    (fun t =>
       implb (keep t)
         (existsb
            (fun c => eqb (Category.id c) (Transaction.category_id t)
                      && eqb (Category.type c) (Transaction.type t))
            cats))
    txs = true ->
  forall t, In t txs -> keep t = true ->
    exists c, In c cats /\ Category.id c = Transaction.category_id t
              /\ Category.type c = Transaction.type t.
Proof.
  intros Hall t Hin Hk. rewrite forallb_forall in Hall.
  specialize (Hall t Hin). rewrite Hk in Hall. simpl in Hall.
  apply existsb_exists in Hall. destruct Hall as [c [Hc Hb]].
  apply andb_true_iff in Hb. destruct Hb as [H1 H2].
  apply eqb_true_iff in H1, H2. exists c. auto.
Qed.

Lemma seed_ids_unique : NoDup (map Category.id Sample.seed).
Proof.
  unfold Sample.seed, Sample.category. cbn [map Category.id].
  repeat (constructor; [cbn [In]; intuition discriminate|]). constructor.
Qed.

(** On the sample ledger every transaction sits in a category of its own
    type: expense categories add up to alice's 110, income ones to 5000. *)
Lemma category_totals_match_witness :
  exists stats,
    get_stats "2024-02-20" Sample.ledger (Some Sample.alice) None None
    = Json 200 stats
    /\ category_total expense (Stats.by_category stats) = 110
    /\ category_total income (Stats.by_category stats) = 5000.
Proof.
  destruct (category_totals_match "2024-02-20" Sample.ledger Sample.alice
              None None seed_ids_unique) as [stats [E Hty]].
  - apply categorised_check. reflexivity.
  - apply Z.leb_le. reflexivity.
  - exists stats. split; [exact E|].
    rewrite !Hty. open_stats E stats. split; reflexivity.
Defined.

(** ** Isolation between users *)

Lemma assign_user_id (t : Transaction.t) (a : assignment) :
  Transaction.user_id (assign t a) = Transaction.user_id t.
Proof. destruct t, a; reflexivity. Qed.

Lemma assign_id (t : Transaction.t) (a : assignment) :
  Transaction.id (assign t a) = Transaction.id t.
Proof. destruct t, a; reflexivity. Qed.

Lemma set_user_id (fields : list assignment) (t : Transaction.t) :
  Transaction.user_id (fold_left assign fields t) = Transaction.user_id t.
Proof.
  revert t. induction fields as [|a fields IH]; intros t; [reflexivity|].
  simpl. rewrite IH. apply assign_user_id.
Qed.

Lemma set_id (fields : list assignment) (t : Transaction.t) :
  Transaction.id (fold_left assign fields t) = Transaction.id t.
Proof.
  revert t. induction fields as [|a fields IH]; intros t; [reflexivity|].
  simpl. rewrite IH. apply assign_id.
Qed.

Lemma set_owned (uid : Z) (fields : list assignment) (t : Transaction.t) :
  owned_by uid (fold_left assign fields t) = owned_by uid t.
Proof. unfold owned_by. rewrite set_user_id. reflexivity. Qed.

Lemma id_and_owner_owned (id uid : Z) (t : Transaction.t) :
  id_and_owner id uid t = true -> owned_by uid t = true.
Proof. unfold id_and_owner. intros H. apply andb_true_iff in H. tauto. Qed.

Section Isolation.

Variables (id uid : Z) (fields : list assignment).

Lemma where_id_and_owner (txs : list Transaction.t) :
  Sql.where_ (id_and_owner id uid) txs
  = Sql.where_ (id_and_owner id uid) (filter (owned_by uid) txs).
Proof.
  unfold Sql.where_. rewrite <- filter_and. apply filter_ext. intros t.
  unfold id_and_owner. destruct (owned_by uid t); simpl;
    [reflexivity|apply andb_false_r].
Qed.

Lemma update_returning (txs : list Transaction.t) :
  snd (sql_update fields (id_and_owner id uid) txs)
  = snd (sql_update fields (id_and_owner id uid) (filter (owned_by uid) txs)).
Proof. unfold sql_update. simpl. rewrite where_id_and_owner. reflexivity. Qed.

Lemma update_own (txs : list Transaction.t) :
  filter (owned_by uid) (fst (sql_update fields (id_and_owner id uid) txs))
  = fst (sql_update fields (id_and_owner id uid) (filter (owned_by uid) txs)).
Proof.
  unfold sql_update. simpl. induction txs as [|t txs IH]; [reflexivity|].
  simpl. destruct (id_and_owner id uid t) eqn:Eh.
  - rewrite set_owned, (id_and_owner_owned id uid t Eh). simpl.
    rewrite Eh, IH. reflexivity.
  - destruct (owned_by uid t) eqn:Em; simpl; rewrite ?Eh, IH; reflexivity.
Qed.

Lemma update_foreign (txs : list Transaction.t) :
  filter (fun t => negb (owned_by uid t))
    (fst (sql_update fields (id_and_owner id uid) txs))
  = filter (fun t => negb (owned_by uid t)) txs.
Proof.
  unfold sql_update. simpl. induction txs as [|t txs IH]; [reflexivity|].
  simpl. destruct (id_and_owner id uid t) eqn:Eh; [|rewrite IH; reflexivity].
  rewrite set_owned, (id_and_owner_owned id uid t Eh). simpl. exact IH.
Qed.

Lemma delete_returning (txs : list Transaction.t) :
  snd (sql_delete (id_and_owner id uid) txs)
  = snd (sql_delete (id_and_owner id uid) (filter (owned_by uid) txs)).
Proof. unfold sql_delete. simpl. rewrite where_id_and_owner. reflexivity. Qed.

Lemma delete_own (txs : list Transaction.t) :
  filter (owned_by uid) (fst (sql_delete (id_and_owner id uid) txs))
  = fst (sql_delete (id_and_owner id uid) (filter (owned_by uid) txs)).
Proof. unfold sql_delete. simpl. apply filter_comm. Qed.

Lemma delete_foreign (txs : list Transaction.t) :
  filter (fun t => negb (owned_by uid t))
    (fst (sql_delete (id_and_owner id uid) txs))
  = filter (fun t => negb (owned_by uid t)) txs.
Proof.
  unfold sql_delete. simpl. rewrite <- filter_and. apply filter_ext_in.
  intros t _. destruct (id_and_owner id uid t) eqn:Eh; [|reflexivity].
  rewrite (id_and_owner_owned id uid t Eh). reflexivity.
Qed.

End Isolation.

Lemma filter_implied {A : Type} (p q : A -> bool) (l : list A) :
  (forall x, q x = true -> p x = true) ->
  filter q l = filter q (filter p l).
Proof.
  intros Hpq. rewrite <- filter_and. apply filter_ext. intros x.
  destruct (q x) eqn:E; [rewrite (Hpq x E); reflexivity|].
  symmetry. apply andb_false_r.
Qed.

(** A query over [transactions] whose WHERE clause requires
    [user_id = uid] reads only the rows of [uid]. *)
Lemma where_own (db : DB) (uid : Z) (q : Transaction.t -> bool) :
  (forall t, q t = true -> owned_by uid t = true) ->
  Sql.where_ q (transactions db) = Sql.where_ q (own uid db).
Proof. intros Hq. apply filter_implied. exact Hq. Qed.

Lemma join_own (db : DB) (uid : Z) (q : Transaction.t * Category.t -> bool) :
  (forall r, q r = true -> owned_by uid (fst r) = true) ->
  Sql.where_ q (Sql.join on_category (transactions db) (categories db))
  = Sql.where_ q (Sql.join on_category (own uid db) (categories db)).
Proof.
  intros Hq. unfold Sql.where_, own.
  rewrite <- (join_where_left on_category (owned_by uid) q).
  apply filter_ext. intros r.
  destruct (q r) eqn:E; [rewrite (Hq r E); reflexivity|].
  symmetry. apply andb_false_r.
Qed.

Lemma list_where_owned (uid : Z) (q : ListQuery.t)
    (r : Transaction.t * Category.t) :
  list_where uid q r = true -> owned_by uid (fst r) = true.
Proof.
  unfold list_where. intros H.
  repeat (apply andb_true_iff in H; destruct H as [H _]). exact H.
Qed.

Lemma dateFilter_owned (uid : Z) (s e : option string) (t : Transaction.t) :
  dateFilter uid s e t = true -> owned_by uid t = true.
Proof. unfold dateFilter. intros H. apply andb_true_iff in H. tauto. Qed.

(** Two databases with the same category table and the same rows for the
    user [uid], seen through the handlers by that user. *)
Section SameView.

Variables (db db' : DB) (uid : Z) (name : string).
Hypothesis same_categories : categories db = categories db'.
Hypothesis same_own : own uid db = own uid db'.

Lemma same_list (q : ListQuery.t) :
  get_transactions db (Some (Identity.mk uid name)) q
  = get_transactions db' (Some (Identity.mk uid name)) q.
Proof.
  unfold get_transactions. cbn [requireAuth Identity.id].
  rewrite !(join_own _ uid) by apply list_where_owned.
  rewrite same_categories, same_own. reflexivity.
Qed.

Lemma same_totals (s e : option string) :
  totals_query db uid s e = totals_query db' uid s e.
Proof.
  unfold totals_query.
  rewrite !(where_own _ uid) by apply dateFilter_owned.
  rewrite same_own. reflexivity.
Qed.

Lemma same_byCategory (s e : option string) :
  byCategory_query db uid s e = byCategory_query db' uid s e.
Proof.
  unfold byCategory_query.
  rewrite !(join_own _ uid) by (intros r; apply dateFilter_owned).
  rewrite same_categories, same_own. reflexivity.
Qed.

Lemma same_daily (since : string) :
  daily_query since db uid = daily_query since db' uid.
Proof.
  unfold daily_query.
  rewrite !(where_own _ uid)
    by (intros t Ht; apply andb_true_iff in Ht; tauto).
  rewrite same_own. reflexivity.
Qed.

Lemma same_stats (since : string) (s e : option string) :
  get_stats since db (Some (Identity.mk uid name)) s e
  = get_stats since db' (Some (Identity.mk uid name)) s e.
Proof.
  unfold get_stats. cbn [requireAuth Identity.id]. cbv zeta.
  rewrite same_totals, same_byCategory, same_daily. reflexivity.
Qed.

Lemma same_monthly (strftime_Ym : string -> option string) :
  get_stats_monthly strftime_Ym db (Some (Identity.mk uid name))
  = get_stats_monthly strftime_Ym db' (Some (Identity.mk uid name)).
Proof.
  unfold get_stats_monthly, monthly_query. cbn [requireAuth Identity.id].
  change (Sql.where_ (owned_by uid) (transactions db)) with (own uid db).
  change (Sql.where_ (owned_by uid) (transactions db')) with (own uid db').
  rewrite same_own. reflexivity.
Qed.

Lemma same_put (id : Z) (body : Body.t) :
  fst (put_transaction db (Some (Identity.mk uid name)) id body)
  = fst (put_transaction db' (Some (Identity.mk uid name)) id body)
  /\ own uid (snd (put_transaction db (Some (Identity.mk uid name)) id body))
     = own uid
         (snd (put_transaction db' (Some (Identity.mk uid name)) id body)).
Proof.
  unfold put_transaction.
  destruct (createTransactionSchema_partial body) as [updates|];
    cbn [requireAuth fst snd Identity.id];
    [|split; [reflexivity|exact same_own]].
  destruct (List.length (put_fields updates) =? 0)%nat;
    cbn [fst snd]; [split; [reflexivity|exact same_own]|].
  pose proof (update_returning id uid (put_fields updates)) as Hr.
  pose proof (update_own id uid (put_fields updates)) as Ho.
  destruct (sql_update (put_fields updates) (id_and_owner id uid)
              (transactions db)) as [table returning] eqn:E.
  destruct (sql_update (put_fields updates) (id_and_owner id uid)
              (transactions db')) as [table' returning'] eqn:E'.
  cbn [fst snd]. unfold own in *. cbn [transactions set_transactions].
  assert (Hret : returning = returning').
  { change returning with (snd (table, returning)).
    change returning' with (snd (table', returning')).
    rewrite <- E, <- E', (Hr (transactions db)), (Hr (transactions db')).
    rewrite same_own. reflexivity. }
  assert (Htab : filter (owned_by uid) table = filter (owned_by uid) table').
  { change table with (fst (table, returning)).
    change table' with (fst (table', returning')).
    rewrite <- E, <- E', !Ho, same_own. reflexivity. }
  rewrite Hret. split; [reflexivity|exact Htab].
Qed.

Lemma same_delete (id : Z) :
  fst (delete_transaction db (Some (Identity.mk uid name)) id)
  = fst (delete_transaction db' (Some (Identity.mk uid name)) id)
  /\ own uid (snd (delete_transaction db (Some (Identity.mk uid name)) id))
     = own uid (snd (delete_transaction db' (Some (Identity.mk uid name)) id)).
Proof.
  unfold delete_transaction. cbn [requireAuth Identity.id].
  pose proof (delete_returning id uid) as Hr.
  pose proof (delete_own id uid) as Ho.
  destruct (sql_delete (id_and_owner id uid) (transactions db))
    as [table returning] eqn:E.
  destruct (sql_delete (id_and_owner id uid) (transactions db'))
    as [table' returning'] eqn:E'.
  cbn [fst snd]. unfold own in *. cbn [transactions set_transactions].
  assert (Hret : returning = returning').
  { change returning with (snd (table, returning)).
    change returning' with (snd (table', returning')).
    rewrite <- E, <- E', (Hr (transactions db)), (Hr (transactions db')).
    rewrite same_own. reflexivity. }
  assert (Htab : filter (owned_by uid) table = filter (owned_by uid) table').
  { change table with (fst (table, returning)).
    change table' with (fst (table', returning')).
    rewrite <- E, <- E', !Ho, same_own. reflexivity. }
  rewrite Hret. split; [reflexivity|exact Htab].
Qed.

End SameView.

(** Rows that do not belong to the acting user come through PUT and DELETE
    untouched; the category table is not written. *)
Lemma put_foreign (db : DB) (user : Identity.t) (id : Z) (body : Body.t) :
  foreign (Identity.id user) (snd (put_transaction db (Some user) id body))
  = foreign (Identity.id user) db
  /\ categories (snd (put_transaction db (Some user) id body)) = categories db.
Proof.
  unfold put_transaction.
  destruct (createTransactionSchema_partial body) as [updates|];
    cbn [requireAuth fst snd]; [|split; reflexivity].
  destruct (List.length (put_fields updates) =? 0)%nat;
    cbn [fst snd]; [split; reflexivity|].
  pose proof (update_foreign id (Identity.id user) (put_fields updates)
                (transactions db)) as Hf.
  destruct (sql_update (put_fields updates)
              (id_and_owner id (Identity.id user)) (transactions db))
    as [table returning].
  cbn [fst snd] in *. unfold foreign. cbn [transactions set_transactions categories].
  split; [exact Hf|reflexivity].
Qed.

Lemma delete_foreign_rows (db : DB) (user : Identity.t) (id : Z) :
  foreign (Identity.id user) (snd (delete_transaction db (Some user) id))
  = foreign (Identity.id user) db
  /\ categories (snd (delete_transaction db (Some user) id)) = categories db.
Proof.
  unfold delete_transaction. cbn [requireAuth].
  pose proof (delete_foreign id (Identity.id user) (transactions db)) as Hf.
  destruct (sql_delete (id_and_owner id (Identity.id user)) (transactions db))
    as [table returning].
  cbn [fst snd] in *. unfold foreign. cbn [transactions set_transactions categories].
  split; [exact Hf|reflexivity].
Qed.

(** C3. Whatever one user lists, aggregates, updates or deletes is
    determined by that user's own transactions (and the shared category
    table): two databases that hold the same transactions for the user give
    the same answers and leave the user with the same transactions, however
    the rows of other users differ; and an update or a delete leaves every
    row that is not the user's own exactly as it was. *)
Theorem user_isolation :
  forall (strftime_Ym : string -> option string) (since : string)
         (db db' : DB) (user : Identity.t),
    categories db = categories db' ->
    own (Identity.id user) db = own (Identity.id user) db' ->
    (forall q,
       get_transactions db (Some user) q = get_transactions db' (Some user) q)
    /\ (forall s e,
          get_stats since db (Some user) s e
          = get_stats since db' (Some user) s e)
    /\ get_stats_monthly strftime_Ym db (Some user)
       = get_stats_monthly strftime_Ym db' (Some user)
    /\ (forall id body,
          fst (put_transaction db (Some user) id body)
          = fst (put_transaction db' (Some user) id body)
          /\ own (Identity.id user)
               (snd (put_transaction db (Some user) id body))
             = own (Identity.id user)
                 (snd (put_transaction db' (Some user) id body))
          /\ foreign (Identity.id user)
               (snd (put_transaction db (Some user) id body))
             = foreign (Identity.id user) db)
    /\ (forall id,
          fst (delete_transaction db (Some user) id)
          = fst (delete_transaction db' (Some user) id)
          /\ own (Identity.id user) (snd (delete_transaction db (Some user) id))
             = own (Identity.id user)
                 (snd (delete_transaction db' (Some user) id))
          /\ foreign (Identity.id user)
               (snd (delete_transaction db (Some user) id))
             = foreign (Identity.id user) db).
Proof.
  intros strftime_Ym since db db' [uid name] Hc Ho. cbn [Identity.id] in *.
  split; [intros q; apply same_list; assumption|].
  split; [intros s e; apply same_stats; assumption|].
  split; [apply same_monthly; assumption|].
  split.
  - intros id body. destruct (same_put db db' uid name Ho id body) as [H1 H2].
    destruct (put_foreign db (Identity.mk uid name) id body) as [H3 _]. auto.
  - intros id. destruct (same_delete db db' uid name Ho id) as [H1 H2].
    destruct (delete_foreign_rows db (Identity.mk uid name) id) as [H3 _].
    auto.
Qed.

(** Alice on the two sample ledgers, which differ in bob's rows only:
    her statistics agree, and her attempt to delete bob's transaction 5
    leaves his rows in place. *)
Lemma user_isolation_witness :
  categories Sample.ledger = categories Sample.ledger_other
  /\ own 1 Sample.ledger = own 1 Sample.ledger_other
  /\ get_stats "2024-02-20" Sample.ledger (Some Sample.alice) None None
     = get_stats "2024-02-20" Sample.ledger_other (Some Sample.alice) None None
  /\ foreign 1 (snd (delete_transaction Sample.ledger (Some Sample.alice) 5))
     = foreign 1 Sample.ledger.
Proof.
  split; [reflexivity|]. split; [reflexivity|].
  destruct (user_isolation Builtins.strftime_Ym "2024-02-20"
              Sample.ledger Sample.ledger_other Sample.alice
              eq_refl eq_refl) as [_ [Hs [_ [_ Hd]]]].
  split; [apply Hs|]. destruct (Hd 5) as [_ [_ Hf]]. exact Hf.
Defined.

(** ** Text order *)

Lemma string_compare_trans (a b c : string) :
  String.compare a b <> Gt -> String.compare b c <> Gt ->
  String.compare a c <> Gt.
Proof.
  revert b c. induction a as [|x a IH]; intros [|y b] [|z c]; simpl;
    try congruence.
  unfold Ascii.compare.
  destruct (N.compare_spec (N_of_ascii x) (N_of_ascii y)) as [Exy|Exy|Exy];
    destruct (N.compare_spec (N_of_ascii y) (N_of_ascii z)) as [Eyz|Eyz|Eyz];
    destruct (N.compare_spec (N_of_ascii x) (N_of_ascii z)) as [Exz|Exz|Exz];
    try congruence; try (exfalso; lia).
  apply IH.
Qed.

Lemma text_le_trans (a b c : string) :
  Sql.text_le a b = true -> Sql.text_le b c = true -> Sql.text_le a c = true.
Proof.
  unfold Sql.text_le, String.leb. intros Hab Hbc.
  pose proof (string_compare_trans a b c) as H.
  destruct (String.compare a b), (String.compare b c), (String.compare a c);
    try reflexivity; try discriminate; exfalso; apply H; congruence.
Qed.

Lemma text_le_total (a b : string) :
  Sql.text_le a b = true \/ Sql.text_le b a = true.
Proof. apply String.leb_total. Qed.

Lemma null_text_le_trans (a b c : option string) :
  Sql.null_text_le a b = true -> Sql.null_text_le b c = true ->
  Sql.null_text_le a c = true.
Proof.
  destruct a, b, c; simpl; try congruence. apply text_le_trans.
Qed.

Lemma null_text_le_total (a b : option string) :
  Sql.null_text_le a b = true \/ Sql.null_text_le b a = true.
Proof. destruct a, b; simpl; auto. apply text_le_total. Qed.

Lemma StronglySorted_app_l {A : Type} (R : A -> A -> Prop) (l l' : list A) :
  StronglySorted R (l ++ l') -> StronglySorted R l.
Proof.
  induction l as [|x l IH]; simpl; intros H; [constructor|].
  apply StronglySorted_inv in H. destruct H as [Hs Hx].
  constructor; [exact (IH Hs)|]. apply Forall_app in Hx. tauto.
Qed.

(** ** GET /api/stats: the daily breakdown *)

(** X19. What holds of the daily breakdown for every request: it does not
    look at the range parameters, every date it reports is on or after
    [since = date('now', '-30 days')], each row sums one (date, type) pair,
    and the rows are in descending date order. *)
Lemma daily_breakdown (since : string) (db : DB) (user : Identity.t)
    (start_date end_date : option string) :
  exists stats,
    get_stats since db (Some user) start_date end_date = Json 200 stats
    /\ Stats.daily stats = daily_query since db (Identity.id user)
    /\ (forall r, In r (Stats.daily stats) ->
          Sql.text_le since (Daily.date r) = true
          /\ Daily.total r
             = Sql.sum Transaction.amount
                 (filter
                    (fun t => eqb (Transaction.date t) (Daily.date r)
                              && has_type (Daily.type r) t
                              && Sql.text_le since (Transaction.date t))
                    (own (Identity.id user) db)))
    /\ StronglySorted
         (fun x y => Sql.text_le (Daily.date y) (Daily.date x) = true)
         (Stats.daily stats).
Proof.
  eexists. split; [reflexivity|]. cbn [Stats.daily]. split; [reflexivity|].
  unfold daily_query. split.
  - intros r Hr. apply order_by_In, in_map_iff in Hr.
    destruct Hr as [[[d ty] g] [<- Hg]]. apply group_by_In in Hg.
    cbn [fst snd Daily.date Daily.type Daily.total] in *.
    destruct Hg as [Hk ->]. split.
    + apply in_map_iff in Hk. destruct Hk as [t [E Ht]].
      injection E as <- <-. apply filter_In in Ht. destruct Ht as [_ Ht].
      apply andb_true_iff in Ht. tauto.
    + f_equal. unfold Sql.with_key, Sql.where_, own.
      rewrite <- !filter_and. apply filter_ext. intros t.
      unfold has_type, eqb at 1.
      destruct (eq_dec (Transaction.date t, Transaction.type t) (d, ty)) as [E|E].
      * injection E as <- <-. rewrite !eqb_refl, andb_true_r. reflexivity.
      * destruct (eqb (Transaction.date t) d) eqn:E1;
          destruct (eqb (Transaction.type t) ty) eqn:E2;
          rewrite ?andb_false_r; simpl; rewrite ?andb_false_r; try reflexivity.
        apply eqb_true_iff in E1, E2. congruence.
  - apply order_by_sorted.
    + intros x y. apply text_le_total.
    + intros x y z Hxy Hyz. exact (text_le_trans _ _ _ Hyz Hxy).
Qed.

(** C4. The daily breakdown is not confined to the trailing 30 days.  On
    2024-03-31, when [date('now', '-30 days')] is 2024-03-01, alice files an
    expense dated 2099-01-01; GET /api/stats then reports that date in
    [daily], although it lies after the day of the request. *)
Theorem daily_reports_future_date :
  exists stats,
    get_stats "2024-03-01"
      (snd (post_transaction "2024-03-31 10:00:00" Sample.empty
              (Some Sample.alice) Sample.future_expense))
      (Some Sample.alice) None None
    = Json 200 stats
    /\ Stats.daily stats = [Daily.mk "2099-01-01" expense 50]
    /\ Sql.text_lt "2024-03-31" "2099-01-01" = true.
Proof.
  eexists. split; [reflexivity|]. split; reflexivity.
Qed.

(** ** GET /api/stats/monthly *)

Lemma limit_NoDup {A : Type} (n : Z) (l : list A) :
  NoDup l -> NoDup (Sql.limit n l).
Proof.
  destruct (limit_prefix n l) as [rest E]. intros Hnd. rewrite E in Hnd.
  exact (NoDup_app_remove_r _ _ Hnd).
Qed.

Lemma limit_map {A B : Type} (f : A -> B) (n : Z) (l : list A) :
  map f (Sql.limit n l) = Sql.limit n (map f l).
Proof.
  unfold Sql.limit. destruct (n <? 0); [reflexivity|]. symmetry. apply firstn_map.
Qed.

Lemma limit_sorted {A : Type} (R : A -> A -> Prop) (n : Z) (l : list A) :
  StronglySorted R l -> StronglySorted R (Sql.limit n l).
Proof.
  destruct (limit_prefix n l) as [rest E]. intros Hs. rewrite E in Hs.
  exact (StronglySorted_app_l _ _ _ Hs).
Qed.

(** ** The identity gate *)

Lemma split_colon_first (s : string) :
  exists field fields, split_colon s = field :: fields.
Proof.
  induction s as [|c s [field [fields IH]]]; simpl; [eauto|].
  destruct (Ascii.eqb c ":"); [eauto|]. rewrite IH. eauto.
Qed.

Lemma bearer_token (atob : string -> option string)
    (parseInt : string -> option Z) (db : DB) (token : string) :
  authMiddleware atob parseInt db (Some ("Bearer " ++ token)%string)
  = try_catch (resolve_token atob parseInt db token) (fun _ => Return None).
Proof. reflexivity. Qed.

Lemma authMiddleware_returns (atob : string -> option string)
    (parseInt : string -> option Z) (db : DB) (authHeader : option string) :
  exists user, authMiddleware atob parseInt db authHeader = Return user.
Proof.
  unfold authMiddleware. destruct authHeader as [h|]; [|eauto].
  destruct (negb (truthy (Some h)) || negb (startsWith h "Bearer "));
    [eauto|].
  destruct (resolve_token atob parseInt db (substring_from 7 h)); simpl; eauto.
Qed.

Lemma select_user_found (db : DB) (userId : option Z) (name : string)
    (u : User.t) :
  select_user db userId (Some name) = Return (Some u) ->
  In u (users db) /\ userId = Some (User.id u) /\ User.username u = name.
Proof.
  unfold select_user, Sql.first, Sql.where_. intros E. injection E as E.
  assert (Hin : In u (filter
                        (fun u => eqb (Some (User.id u)) userId
                                  && eqb (User.username u) name) (users db))).
  { destruct (filter _ (users db)); [discriminate|]. injection E as ->.
    left. reflexivity. }
  apply filter_In in Hin. destruct Hin as [Hin Hb].
  apply andb_true_iff in Hb. destruct Hb as [H1 H2].
  apply eqb_true_iff in H1, H2. auto.
Qed.

Lemma select_user_missing (db : DB) (userId : option Z) (name : string) :
  (forall u, In u (users db) ->
     ~ (userId = Some (User.id u) /\ User.username u = name)) ->
  select_user db userId (Some name) = Return None.
Proof.
  intros Hmiss. unfold select_user, Sql.first, Sql.where_.
  replace (filter _ (users db)) with (@nil User.t); [reflexivity|].
  symmetry. apply filter_nil_iff. intros u Hu.
  apply andb_false_iff.
  destruct (eqb (Some (User.id u)) userId) eqn:E1; [|auto].
  destruct (eqb (User.username u) name) eqn:E2; [|auto].
  apply eqb_true_iff in E1, E2. exfalso. apply (Hmiss u Hu). auto.
Qed.

(** The gate does not check the form of the credential.  Decoded text of
    two fields, and text of four fields whose first one only starts with a
    number, are not of the three-field form, yet both resolve to alice:
    only the numeric prefix of the first field and the second field are
    read. *)
Lemma malformed_credentials_resolve :
  (Builtins.atob "MTphbGljZQ==" = Some "1:alice"
   /\ three_fields "1:alice" = false
   /\ authMiddleware Builtins.atob Builtins.parseInt Sample.ledger
        (Some "Bearer MTphbGljZQ==")
      = Return (Some Sample.alice))
  /\ (Builtins.atob "MWFiYzphbGljZTpub3QtYS10aW1lOmV4dHJh"
      = Some "1abc:alice:not-a-time:extra"
      /\ three_fields "1abc:alice:not-a-time:extra" = false
      /\ authMiddleware Builtins.atob Builtins.parseInt Sample.ledger
           (Some "Bearer MWFiYzphbGljZTpub3QtYS10aW1lOmV4dHJh")
         = Return (Some Sample.alice)).
Proof. repeat split; reflexivity. Qed.

(** C6 (amended). The identity gate never raises: for every Authorization
    header it returns an [{id, username}] pair or null.  For a bearer
    credential it returns null when [atob] fails to decode it, when the
    decoded text has no second field, when [parseInt] reads no number at the
    start of its first field, and when no user row has that id and the
    second field as its user name; a pair it returns is the id and user
    name of such a row.  Nothing else about the form of the credential is
    checked. *)
Theorem identity_gate :
  forall (atob : string -> option string) (parseInt : string -> option Z)
         (db : DB),
    (forall authHeader,
       exists user, authMiddleware atob parseInt db authHeader = Return user)
    /\ forall token,
         exists user,
           authMiddleware atob parseInt db (Some ("Bearer " ++ token)%string)
           = Return user
           /\ (atob token = None -> user = None)
           /\ forall decoded id_text rest,
                atob token = Some decoded ->
                split_colon decoded = id_text :: rest ->
                (rest = [] -> user = None)
                /\ (parseInt id_text = None -> user = None)
                /\ (forall name,
                      hd_error rest = Some name ->
                      (forall u, In u (users db) ->
                         ~ (parseInt id_text = Some (User.id u)
                            /\ User.username u = name)) ->
                      user = None)
                /\ (forall ident,
                      user = Some ident ->
                      exists u,
                        In u (users db)
                        /\ parseInt id_text = Some (User.id u)
                        /\ hd_error rest = Some (User.username u)
                        /\ ident = Identity.mk (User.id u) (User.username u))
                /\ (forall u,
                      In u (users db) ->
                      parseInt id_text = Some (User.id u) ->
                      hd_error rest = Some (User.username u) ->
                      user <> None).
Proof.
  intros atob parseInt db. split; [apply authMiddleware_returns|].
  intros token.
  destruct (authMiddleware_returns atob parseInt db
              (Some ("Bearer " ++ token)%string)) as [user E].
  exists user. split; [exact E|].
  rewrite bearer_token in E. unfold resolve_token in E.
  destruct (atob token) as [decoded|] eqn:Ea.
  2:{ split; [intros _; simpl in E; congruence|]. intros; discriminate. }
  split; [discriminate|].
  intros decoded' id_text rest Hd Hs. injection Hd as <-.
  rewrite Hs in E. cbn [nth_error] in E.
  change (nth_error rest 0) with (hd_error rest) in E.
  destruct rest as [|name rest]; cbn [hd_error] in *.
  { simpl in E. injection E as <-.
    split; [reflexivity|]. split; [reflexivity|].
    split; [discriminate|]. split; discriminate. }
  destruct (select_user db (parseInt id_text) (Some name)) as [[u|]|e] eqn:Eu;
    simpl in E; injection E as <-.
  - apply select_user_found in Eu. destruct Eu as [Hin [Hid Hname]].
    split; [discriminate|]. split; [congruence|]. split; [|split].
    + intros name' Hn Hmiss. injection Hn as <-. exfalso.
      apply (Hmiss u Hin). auto.
    + intros ident Hi. injection Hi as <-. exists u. subst name. auto.
    + discriminate.
  - split; [discriminate|]. split; [reflexivity|].
    split; [reflexivity|]. split; [discriminate|].
    intros u Hin Hid Hname _. injection Hname as Hname.
    unfold select_user, Sql.first, Sql.where_ in Eu. injection Eu as Eu.
    assert (Hu : In u (filter
                         (fun x => eqb (Some (User.id x)) (parseInt id_text)
                                   && eqb (User.username x) name)
                         (users db))).
    { apply filter_In. split; [exact Hin|]. rewrite Hid, Hname, !eqb_refl.
      reflexivity. }
    destruct (filter _ (users db)); [destruct Hu|discriminate Eu].
  - discriminate Eu.
Qed.

(** A well-formed credential of alice resolves to her identity; text that
    is not base64 resolves to null. *)
Example alice_signs_in :
  authMiddleware Builtins.atob Builtins.parseInt Sample.ledger
    (Some "Bearer MTphbGljZToxNzAwMDAwMDAwMDAw")
  = Return (Some Sample.alice).
Proof. reflexivity. Qed.

(** A credential for an id and a username that do not belong together
    resolves to null. *)
Example wrong_pair_is_null :
  Builtins.atob "MjphbGljZTow" = Some "2:alice:0"
  /\ authMiddleware Builtins.atob Builtins.parseInt Sample.ledger
       (Some "Bearer MjphbGljZTow")
     = Return None.
Proof. split; reflexivity. Qed.

Lemma identity_gate_witness :
  Builtins.atob "!!" = None
  /\ authMiddleware Builtins.atob Builtins.parseInt Sample.ledger
       (Some "Bearer !!")
     = Return None.
Proof.
  split; [reflexivity|].
  destruct (identity_gate Builtins.atob Builtins.parseInt Sample.ledger)
    as [_ H].
  destruct (H "!!") as [user [E [Hnone _]]].
  change ("Bearer " ++ "!!")%string with "Bearer !!" in E.
  rewrite E. f_equal. apply Hnone. reflexivity.
Defined.

(** ** PUT and DELETE /api/transactions/:id *)

Lemma filter_unique {A B : Type} (f : A -> B) (p : A -> bool) (l : list A)
    (x : A) :
  NoDup (map f l) -> In x l -> p x = true ->
  (forall y, In y l -> p y = true -> f y = f x) ->
  filter p l = [x].
Proof.
  intros Hnd Hx Hp Hf.
  assert (Hall : forall y, In y l -> p y = true -> y = x).
  { intros y Hy Hpy. apply (NoDup_map_inj f l); auto. }
  clear Hf. induction l as [|a l IH]; [destruct Hx|].
  simpl in Hnd. apply NoDup_cons_iff in Hnd. destruct Hnd as [Ha Hnd].
  simpl. destruct (p a) eqn:Epa.
  - assert (a = x) by (apply Hall; [left; reflexivity|exact Epa]). subst a.
    f_equal. apply filter_nil_iff. intros y Hy.
    destruct (p y) eqn:Epy; [|reflexivity].
    exfalso. apply Ha. rewrite <- (Hall y (or_intror Hy) Epy).
    apply in_map. exact Hy.
  - destruct Hx as [->|Hx]; [congruence|].
    apply IH; auto. intros y Hy. apply Hall. right. exact Hy.
Qed.

Lemma set_transactions_same (db : DB) : set_transactions db (transactions db) = db.
Proof. destruct db. reflexivity. Qed.

(** C7. A PUT that supplies only the amount leaves the type, category,
    date and note of every row of the table as they were.  When the amount
    is valid (positive), the answer for a transaction owned by the acting
    user is 200 with that transaction in which only the amount has changed:
    id, type, category, note, date, creation time and owner are those it had
    before, and this is the row now stored. *)
Theorem put_amount_only :
  forall (db : DB) (user : Identity.t) (t : Transaction.t) (a : Z),
    NoDup (map Transaction.id (transactions db)) ->
    In t (transactions db) ->
    Transaction.user_id t = Some (Identity.id user) ->
    let body := Body.mk (Some a) None None None None in
    Forall2
      (fun x x' =>
         Transaction.type x' = Transaction.type x
         /\ Transaction.category_id x' = Transaction.category_id x
         /\ Transaction.date x' = Transaction.date x
         /\ Transaction.note x' = Transaction.note x)
      (transactions db)
      (transactions
         (snd (put_transaction db (Some user) (Transaction.id t) body)))
    /\ (0 < a ->
        exists t' db',
          put_transaction db (Some user) (Transaction.id t) body
          = (Json 200 t', db')
          /\ t' = Transaction.mk (Transaction.id t) a (Transaction.type t)
                    (Transaction.category_id t) (Transaction.note t)
                    (Transaction.date t) (Transaction.created_at t)
                    (Transaction.user_id t)
          /\ In t' (transactions db')).
Proof.
  intros db user t a Hnd Hin Hown body. subst body.
  unfold put_transaction, createTransactionSchema_partial.
  cbn [Body.amount Body.type Body.category_id Body.note Body.date optional].
  unfold check, positive. destruct (Z.ltb_spec 0 a) as [Ha|Ha].
  2:{ cbn [snd]. split; [|lia].
      clear. induction (transactions db); constructor; auto. }
  cbn [requireAuth put_fields push_if Updates.amount Updates.type
       Updates.category_id Updates.note Updates.date app List.length Nat.eqb].
  unfold sql_update. cbn [snd transactions set_transactions]. split.
  - clear. induction (transactions db) as [|x l IH]; simpl; constructor; auto.
    destruct (id_and_owner _ _ x); destruct x; simpl; auto.
  - intros _.
    assert (Hhit : id_and_owner (Transaction.id t) (Identity.id user) t = true).
    { unfold id_and_owner, owned_by. rewrite Hown, !eqb_refl. reflexivity. }
    assert (Hone : Sql.where_ (id_and_owner (Transaction.id t) (Identity.id user))
                     (transactions db) = [t]).
    { apply (filter_unique Transaction.id); auto.
      intros y _ Hy. unfold id_and_owner in Hy. apply andb_true_iff in Hy.
      destruct Hy as [Hy _]. apply eqb_true_iff in Hy. exact Hy. }
    rewrite Hone. cbn [map Sql.first hd_error fold_left].
    eexists. eexists. split; [reflexivity|].
    split; [destruct t; reflexivity|].
    cbn [transactions set_transactions]. apply in_map_iff. exists t.
    rewrite Hhit. auto.
Qed.

(** Alice changes the amount of her transaction 2 on the sample ledger. *)
Lemma put_amount_only_witness :
  fst (put_transaction Sample.ledger (Some Sample.alice) 2
         (Body.mk (Some 77) None None None None))
  = Json 200 (Sample.txn 2 77 expense 5 "2024-03-01" 1).
Proof.
  assert (Hnd : NoDup (map Transaction.id (transactions Sample.ledger))).
  { cbn. repeat (constructor; [cbn [In]; intuition discriminate|]). constructor. }
  destruct (put_amount_only Sample.ledger Sample.alice
              (Sample.txn 2 50 expense 5 "2024-03-01" 1) 77 Hnd)
    as [_ H].
  - cbn. auto.
  - reflexivity.
  - destruct (H eq_refl) as [t' [db' [E [Ht' _]]]].
    cbn [Transaction.id Sample.txn] in E. rewrite E, Ht'. reflexivity.
Defined.

(** C8. When no transaction has the given id and the acting user as its
    owner (the id is unknown, or the transaction is someone else's),
    DELETE answers 404 and the database is unchanged. *)
Theorem delete_not_found :
  forall (db : DB) (user : Identity.t) (id : Z),
    (forall t, In t (transactions db) -> Transaction.id t = id ->
       Transaction.user_id t <> Some (Identity.id user)) ->
    delete_transaction db (Some user) id
    = (JsonError 404 "Transaction not found", db).
Proof.
  intros db user id Hnone. unfold delete_transaction, sql_delete.
  cbn [requireAuth].
  assert (Hmiss : forall t, In t (transactions db) ->
            id_and_owner id (Identity.id user) t = false).
  { intros t Ht. unfold id_and_owner, owned_by.
    destruct (eqb (Transaction.id t) id) eqn:E1; [|reflexivity].
    apply eqb_true_iff in E1. simpl. apply eqb_false_iff. auto. }
  replace (Sql.where_ (id_and_owner id (Identity.id user)) (transactions db))
    with (@nil Transaction.t)
    by (symmetry; apply filter_nil_iff; exact Hmiss).
  rewrite forallb_filter_id.
  - cbn [map Sql.first hd_error]. rewrite set_transactions_same. reflexivity.
  - apply forallb_forall. intros t Ht. rewrite (Hmiss t Ht). reflexivity.
Qed.

(** Alice asks to delete bob's transaction 5, then transaction 99, which
    does not exist. *)
Lemma delete_not_found_witness :
  delete_transaction Sample.ledger (Some Sample.alice) 5
  = (JsonError 404 "Transaction not found", Sample.ledger)
  /\ delete_transaction Sample.ledger (Some Sample.alice) 99
     = (JsonError 404 "Transaction not found", Sample.ledger).
Proof.
  split; apply delete_not_found; intros t Hin Hid;
    cbn [Sample.ledger transactions In] in Hin;
    repeat (destruct Hin as [<-|Hin]; [discriminate|]); destruct Hin.
Defined.

(** ** GET /api/stats: the range parameters *)

Lemma range_filter_one_sided (s e : option string) (t : Transaction.t) :
  truthy s && truthy e = false -> range_filter s e t = true.
Proof.
  unfold range_filter. destruct s as [s|], e as [e|]; try reflexivity.
  intros ->. reflexivity.
Qed.

Lemma dateFilter_one_sided (uid : Z) (s e : option string) (t : Transaction.t) :
  truthy s && truthy e = false -> dateFilter uid s e t = dateFilter uid None None t.
Proof.
  intros H. unfold dateFilter. rewrite (range_filter_one_sided s e t H).
  reflexivity.
Qed.

Lemma dateFilter_two_sided (uid : Z) (s e : string) (t : Transaction.t) :
  s <> "" -> e <> "" ->
  dateFilter uid (Some s) (Some e) t
  = in_range (Some (s, e)) t && dateFilter uid None None t.
Proof.
  intros Hs He. apply String.eqb_neq in Hs, He.
  unfold dateFilter, range_filter, in_range, truthy. rewrite Hs, He. simpl.
  rewrite andb_true_r. apply andb_comm.
Qed.

(** ** Transactions without a category row *)

Lemma get_transactions_rows (db : DB) (user : Identity.t) (q : ListQuery.t)
    (rows : list TransactionRow.t) (r : TransactionRow.t) :
  get_transactions db (Some user) q = Json 200 rows -> In r rows ->
  exists c, In (TransactionRow.txn r) (transactions db)
            /\ In c (categories db)
            /\ Category.id c = Transaction.category_id (TransactionRow.txn r)
            /\ list_where (Identity.id user) q (TransactionRow.txn r, c) = true.
Proof.
  unfold get_transactions. cbn [requireAuth]. intros E Hr.
  injection E as E. subst rows. apply in_map_iff in Hr.
  destruct Hr as [[t c] [<- Hr]].
  apply limit_In, offset_In, order_by_In, filter_In in Hr.
  destruct Hr as [Hj Hw]. apply join_In in Hj. destruct Hj as [Ht [Hc Hon]].
  apply eqb_true_iff in Hon. exists c. cbn [list_select TransactionRow.txn].
  auto.
Qed.





(** * Further properties of the worker and of the client *)

(** ** Fresh ids *)

Lemma max_fold_ge (seq : Z) (l : list Z) :
  seq <= fold_right Z.max seq l /\ forall x, In x l -> x <= fold_right Z.max seq l.
Proof.
  induction l as [|y l [IH1 IH2]]; simpl.
  - split; [lia|intros x []].
  - split; [lia|]. intros x [<-|Hx]; [lia|]. specialize (IH2 x Hx). lia.
Qed.

Lemma fresh_not_in (seq : Z) (l : list Z) :
  ~ In (1 + fold_right Z.max seq l) l.
Proof.
  intros Hin. destruct (max_fold_ge seq l) as [_ H].
  specialize (H _ Hin). lia.
Qed.

Lemma NoDup_snoc {A : Type} (l : list A) (x : A) :
  NoDup l -> ~ In x l -> NoDup (l ++ [x]).
Proof.
  intros Hl Hx. apply NoDup_app; [exact Hl|repeat constructor; intros []|].
  intros y Hy [<-|[]]. exact (Hx Hy).
Qed.

(** ** Accounts *)

Section AccountFacts.

Variables (hashPassword : string -> string) (btoa : string -> string).

Lemma registerSchema_word (body : RegisterBody.t) (v : Credentials.t) :
  registerSchema body = Some v ->
  RegisterBody.username body = Some (Credentials.username v)
  /\ RegisterBody.password body = Some (Credentials.password v)
  /\ word_regex (Credentials.username v) = true
  /\ (3 <= String.length (Credentials.username v) <= 20)%nat
  /\ (6 <= String.length (Credentials.password v) <= 50)%nat.
Proof.
  unfold registerSchema.
  destruct (RegisterBody.username body) as [u|]; [|discriminate].
  destruct (RegisterBody.password body) as [p|]; [|discriminate].
  destruct (RegisterBody.confirm_password body) as [c|]; [|discriminate].
  destruct (length_within 3 20 u) eqn:E1; [|discriminate].
  destruct (word_regex u) eqn:E2; [|discriminate].
  destruct (length_within 6 50 p) eqn:E3; [|discriminate].
  destruct (p =? c)%string; [|discriminate].
  intros E. injection E as <-. cbn [Credentials.username Credentials.password].
  unfold length_within in E1, E3.
  apply andb_true_iff in E1, E3. destruct E1 as [A1 A2], E3 as [B1 B2].
  apply Nat.leb_le in A1, A2, B1, B2. auto 10.
Qed.

(** X1. Registering a user name that is already taken is answered 400 and
    changes nothing. *)
Theorem register_taken :
  forall (created : string) (now : Z) (st : Store) (body : RegisterBody.t)
         (v : Credentials.t) (u : User.t),
    registerSchema body = Some v ->
    In u (users (tables st)) ->
    User.username u = Credentials.username v ->
    register hashPassword btoa created now st body
    = (JsonError 400 "用户名已被使用，请选择其他用户名", st).
Proof.
  intros created now st body v u Hv Hin Hname. unfold register. rewrite Hv.
  cbv zeta. unfold Sql.first, Sql.where_.
  destruct (filter _ (users (tables st))) as [|x l] eqn:E; [|reflexivity].
  exfalso.
  assert (Hu : In u (filter
                       (fun u => eqb (User.username u) (Credentials.username v))
                       (users (tables st)))).
  { apply filter_In. split; [exact Hin|]. apply eqb_true_iff. exact Hname. }
  rewrite E in Hu. destruct Hu.
Qed.

Lemma register_free (created : string) (now : Z) (st : Store)
    (body : RegisterBody.t) (v : Credentials.t) :
  registerSchema body = Some v ->
  (forall u, In u (users (tables st)) ->
     User.username u <> Credentials.username v) ->
  let row :=
    User.mk (next_user_id st) (Credentials.username v)
      (hashPassword (Credentials.password v)) (Some created) in
  register hashPassword btoa created now st body
  = (Json 201
       (AuthResponse.mk "注册成功"
          (Identity.mk (next_user_id st) (Credentials.username v))
          (btoa (credential (next_user_id st) (Credentials.username v) now))),
     add_user st row).
Proof.
  intros Hv Hfree row. unfold register. rewrite Hv. cbv zeta.
  unfold Sql.first, Sql.where_.
  replace (filter (fun u => eqb (User.username u) (Credentials.username v))
             (users (tables st))) with (@nil User.t); [reflexivity|].
  symmetry. apply filter_nil_iff. intros u Hu. apply eqb_false_iff. auto.
Qed.

(** A 201 is only given for a user name that was free. *)
Lemma register_name_free (created : string) (now : Z) (st st' : Store)
    (body : RegisterBody.t) (v : Credentials.t) (data : AuthResponse.t) :
  registerSchema body = Some v ->
  register hashPassword btoa created now st body = (Json 201 data, st') ->
  forall u, In u (users (tables st)) ->
    User.username u <> Credentials.username v.
Proof.
  intros Hv E u Hin Hname.
  assert (Hu : In u (filter
                       (fun u => eqb (User.username u) (Credentials.username v))
                       (users (tables st)))).
  { apply filter_In. split; [exact Hin|]. apply eqb_true_iff. exact Hname. }
  unfold register in E. rewrite Hv in E. cbv zeta in E.
  unfold Sql.first, Sql.where_ in E.
  destruct (filter _ (users (tables st))) as [|x l];
    [destruct Hu|discriminate E].
Qed.

(** The outcome of [register] is one of three. *)
Lemma register_cases (created : string) (now : Z) (st : Store)
    (body : RegisterBody.t) :
  (snd (register hashPassword btoa created now st body) = st)
  \/ exists v,
       registerSchema body = Some v
       /\ (forall u, In u (users (tables st)) ->
             User.username u <> Credentials.username v)
       /\ snd (register hashPassword btoa created now st body)
          = add_user st
              (User.mk (next_user_id st) (Credentials.username v)
                 (hashPassword (Credentials.password v)) (Some created)).
Proof.
  destruct (registerSchema body) as [v|] eqn:Hv.
  2:{ left. unfold register. rewrite Hv. reflexivity. }
  destruct (filter (fun u => eqb (User.username u) (Credentials.username v))
              (users (tables st))) as [|x l] eqn:E.
  - right. exists v. split; [reflexivity|].
    assert (Hfree : forall u, In u (users (tables st)) ->
              User.username u <> Credentials.username v).
    { intros u Hu. apply eqb_false_iff.
      exact (proj1 (filter_nil_iff _ _) E u Hu). }
    split; [exact Hfree|].
    rewrite (register_free created now st body v Hv Hfree). reflexivity.
  - left. unfold register. rewrite Hv. cbv zeta.
    unfold Sql.first, Sql.where_. rewrite E. reflexivity.
Qed.

(** X2. Registration keeps the account table well formed: user names and
    ids stay unique and every user name consists of letters, digits and
    underscores.  It never writes to the categories or the transactions. *)
Theorem register_keeps_accounts :
  forall (created : string) (now : Z) (st : Store) (body : RegisterBody.t),
    accounts_ok (tables st) ->
    let st' := snd (register hashPassword btoa created now st body) in
    accounts_ok (tables st')
    /\ categories (tables st') = categories (tables st)
    /\ transactions (tables st') = transactions (tables st).
Proof.
  intros created now st body [Hn [Hi Hw]] st'. subst st'.
  destruct (register_cases created now st body) as [->|[v [Hv [Hfree ->]]]].
  - repeat split; assumption.
  - unfold add_user, accounts_ok. cbn [tables users categories transactions].
    rewrite !map_app. cbn [map User.username User.id].
    destruct (registerSchema_word body v Hv) as [_ [_ [Hword _]]].
    repeat split.
    + apply NoDup_snoc; [exact Hn|]. intros Hin. apply in_map_iff in Hin.
      destruct Hin as [u [E Hu]]. exact (Hfree u Hu E).
    + apply NoDup_snoc; [exact Hi|]. apply fresh_not_in.
    + apply Forall_app. split; [exact Hw|]. repeat constructor. exact Hword.
Qed.

(** Logging in with the credentials of an account that has just been
    created. *)
Lemma login_created (created : string) (now now' : Z) (st st' : Store)
    (body : RegisterBody.t) (v : Credentials.t) (data : AuthResponse.t) :
  registerSchema body = Some v ->
  register hashPassword btoa created now st body = (Json 201 data, st') ->
  exists data',
    login hashPassword btoa now' (tables st')
      (LoginBody.mk (Some (Credentials.username v))
         (Some (Credentials.password v)))
    = Json 200 data'
    /\ AuthResponse.user data' = AuthResponse.user data.
Proof.
  intros Hv E.
  destruct (registerSchema_word body v Hv) as [_ [_ [_ [Hlu Hlp]]]].
  pose proof (register_name_free created now st st' body v data Hv E)
    as Hfree.
  rewrite (register_free created now st body v Hv Hfree) in E.
  injection E as <- <-.
  unfold login, loginSchema.
  cbn [LoginBody.username LoginBody.password].
  replace (1 <=? String.length (Credentials.username v))%nat with true
    by (symmetry; apply Nat.leb_le; lia).
  replace (1 <=? String.length (Credentials.password v))%nat with true
    by (symmetry; apply Nat.leb_le; lia).
  cbn [andb Credentials.username Credentials.password]. cbv zeta.
  unfold add_user. cbn [tables users]. unfold Sql.where_.
  rewrite filter_app.
  replace (filter _ (users (tables st))) with (@nil User.t).
  - cbn [filter User.username User.password_hash app].
    rewrite !eqb_refl. cbn [andb Sql.first hd_error User.id User.username].
    eexists. split; reflexivity.
  - symmetry. apply filter_nil_iff. intros u Hin. apply andb_false_iff. left.
    apply eqb_false_iff. auto.
Qed.

(** X3. A user who has just registered can log in with the same user name
    and password, and is given the same identity. *)
Theorem register_then_login :
  forall (created : string) (now now' : Z) (st st' : Store)
         (body : RegisterBody.t) (data : AuthResponse.t),
    register hashPassword btoa created now st body = (Json 201 data, st') ->
    exists data',
      login hashPassword btoa now' (tables st')
        (LoginBody.mk (RegisterBody.username body) (RegisterBody.password body))
      = Json 200 data'
      /\ AuthResponse.user data' = AuthResponse.user data.
Proof.
  intros created now now' st st' body data E.
  destruct (registerSchema body) as [v|] eqn:Hv;
    [|unfold register in E; rewrite Hv in E; discriminate].
  destruct (registerSchema_word body v Hv) as [Hu [Hp _]].
  rewrite Hu, Hp. exact (login_created created now now' st st' body v data Hv E).
Qed.

(** X4. Login succeeds exactly for a stored pair of user name and password
    digest: a 200 answer names a stored user with that name and that digest;
    when no stored user has both, the answer is 401. *)
Theorem login_sound :
  forall (now : Z) (db : DB) (body : LoginBody.t) (v : Credentials.t),
    loginSchema body = Some v ->
    (forall data,
       login hashPassword btoa now db body = Json 200 data ->
       exists u,
         In u (users db)
         /\ User.username u = Credentials.username v
         /\ User.password_hash u = hashPassword (Credentials.password v)
         /\ AuthResponse.user data = Identity.mk (User.id u) (User.username u))
    /\ ((forall u, In u (users db) ->
           ~ (User.username u = Credentials.username v
              /\ User.password_hash u
                 = hashPassword (Credentials.password v))) ->
        login hashPassword btoa now db body
        = JsonError 401 "用户名或密码错误").
Proof.
  intros now db body v Hv. unfold login. rewrite Hv. cbv zeta.
  unfold Sql.first, Sql.where_.
  destruct (filter _ (users db)) as [|u l] eqn:E; cbn [hd_error].
  - split; [discriminate|reflexivity].
  - assert (Hu : In u (filter
                         (fun u => eqb (User.username u) (Credentials.username v)
                                   && eqb (User.password_hash u)
                                        (hashPassword (Credentials.password v)))
                         (users db))) by (rewrite E; left; reflexivity).
    apply filter_In in Hu. destruct Hu as [Hin Hb].
    apply andb_true_iff in Hb. destruct Hb as [H1 H2].
    apply eqb_true_iff in H1, H2. split.
    + intros data Hd. injection Hd as <-. exists u. auto.
    + intros Hnone. exfalso. apply (Hnone u Hin). auto.
Qed.

End AccountFacts.

(** ** Credentials *)

Lemma split_colon_field (a rest : string) :
  no_colon a = true ->
  split_colon (a ++ ":" ++ rest)%string = a :: split_colon rest.
Proof.
  unfold no_colon. induction a as [|c a IH]; intros H; [reflexivity|].
  simpl in H. apply andb_true_iff in H. destruct H as [Hc Ha].
  apply negb_true_iff in Hc. simpl. rewrite Hc.
  change (a ++ String ":" rest)%string with (a ++ ":" ++ rest)%string.
  rewrite (IH Ha). reflexivity.
Qed.

Lemma is_word_not_colon (c : ascii) : is_word c = true -> Ascii.eqb c ":" = false.
Proof.
  intros H. apply Ascii.eqb_neq. intros ->. discriminate H.
Qed.

Lemma word_no_colon (s : string) : word_regex s = true -> no_colon s = true.
Proof.
  unfold word_regex, no_colon. intros H. apply andb_true_iff in H.
  destruct H as [_ H]. rewrite forallb_forall in *. intros c Hc.
  apply negb_true_iff, is_word_not_colon. auto.
Qed.

Lemma uint_no_colon (d : Decimal.uint) :
  no_colon (DecimalString.NilEmpty.string_of_uint d) = true.
Proof. induction d; simpl; auto. Qed.

Lemma number_no_colon (n : Z) : no_colon (number_text n) = true.
Proof.
  unfold number_text, DecimalString.NilZero.string_of_int.
  destruct (Z.to_int n) as [d|d];
    unfold DecimalString.NilZero.string_of_uint;
    destruct d; try reflexivity; try apply uint_no_colon;
    try (change (no_colon (String "-" ?s)) with (no_colon s)).
  all: apply (uint_no_colon (_ d)).
Qed.

Lemma credential_fields (id : Z) (name : string) (now : Z) :
  no_colon name = true ->
  split_colon (credential id name now)
  = number_text id :: name :: split_colon (number_text now).
Proof.
  intros Hname. unfold credential.
  rewrite (split_colon_field _ _ (number_no_colon id)).
  rewrite (split_colon_field _ _ Hname). reflexivity.
Qed.

(** The [try] block on a credential that names a stored user. *)
Lemma resolve_token_stored (atob : string -> option string)
    (parseInt : string -> option Z) (db : DB) (u : User.t) (now : Z)
    (token : string) :
  In u (users db) ->
  no_colon (User.username u) = true ->
  atob token = Some (credential (User.id u) (User.username u) now) ->
  parseInt (number_text (User.id u)) = Some (User.id u) ->
  resolve_token atob parseInt db token
  = Return (Some (Identity.mk (User.id u) (User.username u))).
Proof.
  intros Hin Hname Hatob Hparse. unfold resolve_token. rewrite Hatob.
  rewrite (credential_fields _ _ _ Hname). cbn [nth_error]. rewrite Hparse.
  unfold select_user, Sql.first, Sql.where_.
  destruct (filter _ (users db)) as [|r l] eqn:E.
  - exfalso.
    assert (Hu : In u (filter
                         (fun x => eqb (Some (User.id x)) (Some (User.id u))
                                   && eqb (User.username x) (User.username u))
                         (users db))).
    { apply filter_In. split; [exact Hin|]. rewrite !eqb_refl. reflexivity. }
    rewrite E in Hu. destruct Hu.
  - assert (Hr : In r (filter
                         (fun x => eqb (Some (User.id x)) (Some (User.id u))
                                   && eqb (User.username x) (User.username u))
                         (users db))) by (rewrite E; left; reflexivity).
    apply filter_In in Hr. destruct Hr as [_ Hb].
    apply andb_true_iff in Hb. destruct Hb as [H1 H2].
    apply eqb_true_iff in H1, H2. injection H1 as H1.
    cbn [hd_error]. rewrite H1, H2. reflexivity.
Qed.

(** X5. The gate accepts a credential for what it names, not for how it
    was obtained: any text that decodes to [id:username:timestamp] of a
    stored user resolves to that user, whatever the timestamp, and without
    the password digest being read. *)
Theorem credential_resolves :
  forall (atob : string -> option string) (parseInt : string -> option Z)
         (db : DB) (u : User.t) (now : Z) (token : string),
    In u (users db) ->
    no_colon (User.username u) = true ->
    atob token = Some (credential (User.id u) (User.username u) now) ->
    parseInt (number_text (User.id u)) = Some (User.id u) ->
    authMiddleware atob parseInt db (Some ("Bearer " ++ token)%string)
    = Return (Some (Identity.mk (User.id u) (User.username u))).
Proof.
  intros atob parseInt db u now token Hin Hname Hatob Hparse.
  rewrite bearer_token.
  rewrite (resolve_token_stored atob parseInt db u now token
             Hin Hname Hatob Hparse).
  reflexivity.
Qed.

(** Bob's password is never asked for: a credential written by hand from
    his id and name is accepted. *)
Lemma credential_resolves_witness :
  authMiddleware Builtins.atob Builtins.parseInt Sample.ledger
    (Some "Bearer Mjpib2I6MA==")
  = Return (Some Sample.bob).
Proof.
  apply (credential_resolves Builtins.atob Builtins.parseInt Sample.ledger
           (User.mk 2 "bob" "" None) 0 "Mjpib2I6MA==").
  - cbn. auto.
  - reflexivity.
  - reflexivity.
  - reflexivity.
Defined.

(** X6. Registration opens a working session: once the client has saved
    the reply, the Authorization header of its next request resolves, on the
    server, to the identity that was registered. *)
Theorem session_round_trip :
  forall (hashPassword : string -> string) (btoa : string -> string)
         (atob : string -> option string) (parseInt : string -> option Z)
         (stringify : Identity.t -> string)
         (created : string) (now : Z) (st st' : Store)
         (body : RegisterBody.t) (data : AuthResponse.t) (c : Client.session),
    register hashPassword btoa created now st body = (Json 201 data, st') ->
    AuthResponse.token data <> "" ->
    atob (AuthResponse.token data)
    = Some (credential (Identity.id (AuthResponse.user data))
              (Identity.username (AuthResponse.user data)) now) ->
    parseInt (number_text (Identity.id (AuthResponse.user data)))
    = Some (Identity.id (AuthResponse.user data)) ->
    authMiddleware atob parseInt (tables st')
      (Client.authorization (Client.signed_in stringify (Json 201 data) c))
    = Return (Some (AuthResponse.user data)).
Proof.
  intros hashPassword btoa atob parseInt stringify created now st st' body
         data c E Htoken Hatob Hparse.
  destruct (registerSchema body) as [v|] eqn:Hv;
    [|unfold register in E; rewrite Hv in E; discriminate].
  pose proof (register_name_free hashPassword btoa created now st st' body v
                data Hv E) as Hfree.
  rewrite (register_free hashPassword btoa created now st body v Hv Hfree) in E.
  injection E as <- <-.
  cbn [AuthResponse.user AuthResponse.token Identity.id Identity.username] in *.
  unfold Client.signed_in. change (Client.ok 201) with true. cbv iota.
  unfold Client.authorization, Client.saveAuth. cbn [Client.authToken].
  unfold truthy. cbn [AuthResponse.token AuthResponse.user].
  apply String.eqb_neq in Htoken. rewrite Htoken. cbn [negb].
  destruct (registerSchema_word body v Hv) as [_ [_ [Hword _]]].
  rewrite bearer_token.
  rewrite (resolve_token_stored atob parseInt _
             (User.mk (next_user_id st) (Credentials.username v)
                (hashPassword (Credentials.password v)) (Some created)) now);
    [reflexivity| | | |].
  - unfold add_user. cbn [tables users]. apply in_or_app. right. left.
    reflexivity.
  - apply word_no_colon. exact Hword.
  - exact Hatob.
  - exact Hparse.
Qed.

(** Carol registers on the fresh store; her next request carries a header
    that the server resolves to carol. *)
Lemma session_round_trip_witness :
  exists data st',
    register Demo.hashPassword Base64.btoa "2024-03-01 09:00:00"
      1700000000000 Demo.fresh Demo.carol = (Json 201 data, st')
    /\ authMiddleware Builtins.atob Builtins.parseInt (tables st')
         (Client.authorization
            (Client.signed_in Demo.stringify (Json 201 data)
               (Client.mkSession None [])))
       = Return (Some (Identity.mk 3 "carol_01")).
Proof.
  eexists. eexists. split; [reflexivity|].
  apply (session_round_trip Demo.hashPassword Base64.btoa Builtins.atob
           Builtins.parseInt Demo.stringify "2024-03-01 09:00:00"
           1700000000000 Demo.fresh _ Demo.carol).
  - reflexivity.
  - discriminate.
  - reflexivity.
  - reflexivity.
Defined.

Lemma sample_accounts_ok : accounts_ok Sample.empty.
Proof.
  unfold accounts_ok. cbn.
  repeat split; repeat (constructor; [cbn [In]; intuition discriminate|]);
    repeat constructor.
Qed.

(** Alice is already registered on the fresh store. *)
Lemma register_taken_witness :
  register Demo.hashPassword Base64.btoa "2024-03-01 09:00:00" 1700000000000
    Demo.fresh
    (RegisterBody.mk (Some "alice") (Some "secret1") (Some "secret1"))
  = (JsonError 400 "用户名已被使用，请选择其他用户名", Demo.fresh).
Proof.
  apply (register_taken Demo.hashPassword Base64.btoa _ _ _ _
           (Credentials.mk "alice" "secret1") (User.mk 1 "alice" "" None)).
  - reflexivity.
  - cbn. auto.
  - reflexivity.
Defined.

Lemma register_keeps_accounts_witness :
  accounts_ok
    (tables
       (snd (register Demo.hashPassword Base64.btoa "2024-03-01 09:00:00"
               1700000000000 Demo.fresh Demo.carol))).
Proof.
  apply (register_keeps_accounts Demo.hashPassword Base64.btoa
           "2024-03-01 09:00:00" 1700000000000 Demo.fresh Demo.carol).
  exact sample_accounts_ok.
Defined.

Lemma register_then_login_witness :
  exists data',
    login Demo.hashPassword Base64.btoa 1700000099000
      (tables
         (snd (register Demo.hashPassword Base64.btoa "2024-03-01 09:00:00"
                 1700000000000 Demo.fresh Demo.carol)))
      (LoginBody.mk (Some "carol_01") (Some "secret1"))
    = Json 200 data'
    /\ AuthResponse.user data' = Identity.mk 3 "carol_01".
Proof.
  exact (register_then_login Demo.hashPassword Base64.btoa
           "2024-03-01 09:00:00" 1700000000000 1700000099000 Demo.fresh _
           Demo.carol _ eq_refl).
Defined.

(** Nobody on the sample ledger has the digest of "guess": 401. *)
Lemma login_sound_witness :
  login Demo.hashPassword Base64.btoa 1700000000000 Sample.ledger
    (LoginBody.mk (Some "alice") (Some "guess"))
  = JsonError 401 "用户名或密码错误".
Proof.
  destruct (login_sound Demo.hashPassword Base64.btoa 1700000000000
              Sample.ledger (LoginBody.mk (Some "alice") (Some "guess"))
              (Credentials.mk "alice" "guess") eq_refl) as [_ H].
  apply H. intros u Hin [_ Hh].
  cbn [Sample.ledger users Sample.accounts In] in Hin.
  destruct Hin as [<-|[<-|[]]]; discriminate Hh.
Defined.

(** ** Requests without an identity *)

(** X7. A request that carries no resolved identity reads and changes
    nothing: the list, statistics, monthly and delete routes answer 401;
    POST and PUT of a transaction answer 400 when the body does not
    validate (validation runs first) and 401 otherwise; the database is as
    before. *)
Theorem unauthenticated_rejected :
  forall (strftime_Ym : string -> option string) (since now : string)
         (db : DB),
    (forall q, get_transactions db None q = JsonError 401 "请先登录")
    /\ (forall s e, get_stats since db None s e = JsonError 401 "请先登录")
    /\ get_stats_monthly strftime_Ym db None = JsonError 401 "请先登录"
    /\ (forall id,
          delete_transaction db None id = (JsonError 401 "请先登录", db))
    /\ (forall body,
          post_transaction now db None body
          = (match createTransactionSchema body with
             | Some _ => JsonError 401 "请先登录"
             | None => Invalid
             end, db))
    /\ (forall id body,
          put_transaction db None id body
          = (match createTransactionSchema_partial body with
             | Some _ => JsonError 401 "请先登录"
             | None => Invalid
             end, db)).
Proof.
  intros strftime_Ym since now db. repeat split.
  - intros body. unfold post_transaction.
    destruct (createTransactionSchema body); reflexivity.
  - intros id body. unfold put_transaction.
    destruct (createTransactionSchema_partial body); reflexivity.
Qed.

(** ** Categories *)

Lemma parse_type_text (ty : ttype) : parse_type (type_text ty) = Some ty.
Proof. destruct ty; reflexivity. Qed.

Lemma type_text_inj (a b : ttype) : type_text a = type_text b -> a = b.
Proof. destruct a, b; simpl; congruence. Qed.

Lemma categories_of_type (db : DB) (ty : ttype) :
  get_categories db (Some (type_text ty))
  = Json 200 (filter (fun c => eqb (Category.type c) ty) (categories db)).
Proof.
  unfold get_categories, Sql.where_. f_equal. apply filter_ext. intros c.
  unfold and_if.
  replace (truthy (Some (type_text ty))) with true by (destruct ty; reflexivity).
  destruct (eqb (Category.type c) ty) eqn:E.
  - apply eqb_true_iff in E. rewrite E. apply eqb_refl.
  - apply eqb_false_iff. apply eqb_false_iff in E. intros H. apply E.
    apply type_text_inj. exact H.
Qed.

(** X8. GET /api/categories with [type=income] or [type=expense] returns
    the categories of that type, in table order; with any other non-empty
    type it returns an empty list, not an error; without a type, or with an
    empty one, it returns the whole table. *)
Theorem get_categories_by_type :
  forall (db : DB),
    (forall ty,
       get_categories db (Some (type_text ty))
       = Json 200
           (filter (fun c => eqb (Category.type c) ty) (categories db)))
    /\ (forall v,
          v <> "" -> parse_type v = None ->
          get_categories db (Some v) = Json 200 [])
    /\ get_categories db None = Json 200 (categories db)
    /\ get_categories db (Some "") = Json 200 (categories db).
Proof.
  intros db. split; [apply categories_of_type|].
  unfold get_categories, Sql.where_. repeat split.
  - intros v Hv Hp. f_equal. apply filter_nil_iff. intros c _.
    unfold and_if, truthy. apply String.eqb_neq in Hv. rewrite Hv. cbn [negb].
    apply eqb_false_iff. intros H. rewrite <- H, parse_type_text in Hp.
    discriminate.
  - f_equal. apply forallb_filter_id, forallb_forall. reflexivity.
  - f_equal. apply forallb_filter_id, forallb_forall. reflexivity.
Qed.

Lemma get_categories_by_type_witness :
  get_categories Sample.ledger (Some "savings") = Json 200 [].
Proof.
  destruct (get_categories_by_type Sample.ledger) as [_ [H _]].
  apply H; [discriminate|reflexivity].
Defined.

(** X9. A category that POST /api/categories has created is returned by
    GET /api/categories for its type, after all the categories that were
    there before; it takes the default icon when none was given; its id is
    new, so category ids stay unique; users and transactions are not
    touched. *)
Theorem post_category_listed :
  forall (created : string) (st st' : Store) (body : CategoryBody.t)
         (c : Category.t),
    post_category created st body = (Json 201 c, st') ->
    get_categories (tables st') (Some (type_text (Category.type c)))
    = Json 200
        (filter (fun x => eqb (Category.type x) (Category.type c))
           (categories (tables st)) ++ [c])
    /\ (CategoryBody.icon body = None -> Category.icon c = "📦")
    /\ (forall x, In x (categories (tables st)) -> Category.id x < Category.id c)
    /\ (unique_categories (tables st) -> unique_categories (tables st'))
    /\ users (tables st') = users (tables st)
    /\ transactions (tables st') = transactions (tables st).
Proof.
  intros created st st' body c E. unfold post_category in E.
  destruct (createCategorySchema body) as [v|] eqn:Hv; [|discriminate].
  injection E as <- <-. cbn [tables categories users transactions Category.id
                              Category.type Category.icon].
  split.
  - rewrite categories_of_type. cbn [categories]. rewrite filter_app.
    cbn [filter Category.type]. rewrite eqb_refl. reflexivity.
  - split.
    { intros Hicon. unfold createCategorySchema in Hv. rewrite Hicon in Hv.
      destruct (required (CategoryBody.name body) _); [|discriminate].
      destruct (required (CategoryBody.type body) _); [|discriminate].
      injection Hv as <-. reflexivity. }
    assert (Hfresh : forall x, In x (categories (tables st)) ->
              Category.id x < next_category_id st).
    { intros x Hx. unfold next_category_id.
      destruct (max_fold_ge (categories_seq st)
                  (map Category.id (categories (tables st)))) as [_ H].
      specialize (H _ (in_map Category.id _ _ Hx)). lia. }
    split; [exact Hfresh|]. split; [|split; reflexivity].
    unfold unique_categories. cbn [categories]. intros Hnd.
    rewrite map_app. apply NoDup_snoc; [exact Hnd|].
    cbn [map Category.id]. intros Hin. apply in_map_iff in Hin.
    destruct Hin as [x [Ex Hx]]. specialize (Hfresh x Hx). lia.
Qed.

(** A category "Pets" without an icon, added to the fresh store. *)
Lemma post_category_listed_witness :
  exists c st',
    post_category "2024-03-01 09:00:00" Demo.fresh
      (CategoryBody.mk (Some "Pets") None (Some "expense"))
    = (Json 201 c, st')
    /\ Category.id c = 13 /\ Category.icon c = "📦"
    /\ unique_categories (tables st').
Proof.
  eexists. eexists. split; [reflexivity|].
  destruct (post_category_listed "2024-03-01 09:00:00" Demo.fresh _
              (CategoryBody.mk (Some "Pets") None (Some "expense")) _ eq_refl)
    as [_ [Hi [_ [Hu _]]]].
  split; [reflexivity|]. split; [exact (Hi eq_refl)|].
  apply Hu. exact seed_ids_unique.
Defined.

(** ** Creating, changing and deleting transactions *)

Lemma createTransactionSchema_valid (body : Body.t) (v : NewTransaction.t) :
  createTransactionSchema body = Some v ->
  0 < NewTransaction.amount v
  /\ 0 < NewTransaction.category_id v
  /\ date_regex (NewTransaction.date v) = true.
Proof.
  unfold createTransactionSchema, required, check, positive.
  destruct (Body.amount body) as [a|]; [|discriminate].
  destruct (Z.ltb_spec 0 a); [|discriminate].
  destruct (Body.type body) as [ty|]; [|discriminate].
  destruct (parse_type ty); [|discriminate].
  destruct (Body.category_id body) as [cid|]; [|discriminate].
  destruct (Z.ltb_spec 0 cid); [|discriminate].
  destruct (optional (Body.note body) _); [|discriminate].
  destruct (Body.date body) as [d|]; [|discriminate].
  destruct (date_regex d) eqn:Ed; [|discriminate].
  intros E. injection E as <-. cbn. auto.
Qed.

Lemma partial_schema_valid (body : Body.t) (u : Updates.t) :
  createTransactionSchema_partial body = Some u ->
  (forall a, Updates.amount u = Some a -> 0 < a)
  /\ (forall d, Updates.date u = Some d -> date_regex d = true).
Proof.
  unfold createTransactionSchema_partial, optional, check, positive.
  destruct (Body.amount body) as [a|].
  - destruct (Z.ltb_spec 0 a); [|discriminate].
    destruct (Body.type body) as [ty|]; [destruct (parse_type ty)|];
      try discriminate;
      (destruct (Body.category_id body) as [cid|];
       [destruct (0 <? cid)|]; try discriminate);
      (destruct (Body.note body));
      (destruct (Body.date body) as [d|];
       [destruct (date_regex d) eqn:Ed|]; try discriminate);
      intros E; injection E as <-; cbn; split; intros x Hx;
      try discriminate; injection Hx as <-; assumption.
  - destruct (Body.type body) as [ty|]; [destruct (parse_type ty)|];
      try discriminate;
      (destruct (Body.category_id body) as [cid|];
       [destruct (0 <? cid)|]; try discriminate);
      (destruct (Body.note body));
      (destruct (Body.date body) as [d|];
       [destruct (date_regex d) eqn:Ed|]; try discriminate);
      intros E; injection E as <-; cbn; split; intros x Hx;
      try discriminate; injection Hx as <-; assumption.
Qed.

Lemma next_rowid_fresh (db : DB) (x : Transaction.t) :
  In x (transactions db) -> Transaction.id x < next_rowid db.
Proof.
  intros Hx. unfold next_rowid.
  destruct (max_fold_ge (transactions_seq db)
              (map Transaction.id (transactions db))) as [_ H].
  specialize (H _ (in_map Transaction.id _ _ Hx)). lia.
Qed.

(** X10. A transaction that POST /api/transactions has created is appended
    to the table with an id larger than every id in it, belongs to the
    acting user, has a positive amount and a date of the shape YYYY-MM-DD,
    and never an empty note (an empty note is stored as NULL).  Users and
    categories are not touched. *)
Theorem post_transaction_creates :
  forall (now : string) (db db' : DB) (user : option Identity.t)
         (body : Body.t) (t : Transaction.t),
    post_transaction now db user body = (Json 201 t, db') ->
    transactions db' = transactions db ++ [t]
    /\ (exists u, user = Some u /\ Transaction.user_id t = Some (Identity.id u))
    /\ (forall x, In x (transactions db) -> Transaction.id x < Transaction.id t)
    /\ 0 < Transaction.amount t
    /\ date_regex (Transaction.date t) = true
    /\ Transaction.note t <> Some ""
    /\ users db' = users db
    /\ categories db' = categories db.
Proof.
  intros now db db' user body t E. unfold post_transaction in E.
  destruct (createTransactionSchema body) as [v|] eqn:Hv; [|discriminate].
  destruct user as [u|]; cbn [requireAuth] in E; [|discriminate].
  injection E as <- <-.
  destruct (createTransactionSchema_valid body v Hv) as [Ha [_ Hd]].
  cbn [transactions users categories Transaction.id Transaction.amount
       Transaction.date Transaction.note Transaction.user_id].
  split; [reflexivity|]. split; [eauto|].
  split; [apply next_rowid_fresh|]. split; [exact Ha|]. split; [exact Hd|].
  split; [|split; reflexivity].
  unfold or_null. destruct (NewTransaction.note v) as [n|]; [|discriminate].
  destruct (String.eqb_spec n ""); [discriminate|congruence].
Qed.

Lemma post_transaction_creates_witness :
  exists t db',
    post_transaction "2024-03-31 10:00:00" Sample.ledger (Some Sample.bob)
      (Body.mk (Some 12) (Some "expense") (Some 6) (Some "") (Some "2024-03-30"))
    = (Json 201 t, db')
    /\ Transaction.id t = 7
    /\ Transaction.note t <> Some "".
Proof.
  eexists. eexists. split; [reflexivity|]. split; [reflexivity|].
  destruct (post_transaction_creates "2024-03-31 10:00:00" Sample.ledger _
              (Some Sample.bob)
              (Body.mk (Some 12) (Some "expense") (Some 6) (Some "")
                 (Some "2024-03-30")) _ eq_refl)
    as [_ [_ [_ [_ [_ [H _]]]]]].
  exact H.
Defined.

Lemma ids_after_delete (keep : Transaction.t -> bool)
    (rows : list Transaction.t) :
  NoDup (map Transaction.id rows) ->
  NoDup (map Transaction.id (filter keep rows)).
Proof.
  set (p := keep). set (f := Transaction.id).
  induction rows as [|x l IH]; simpl; intros H; [constructor|].
  apply NoDup_cons_iff in H. destruct H as [Hx Hl].
  destruct (p x); simpl; [|auto]. constructor; [|auto].
  intros Hin. apply Hx. apply in_map_iff in Hin. destruct Hin as [y [E Hy]].
  apply filter_In in Hy. rewrite <- E. apply in_map. tauto.
Qed.

Lemma set_valid (u : Updates.t) (t : Transaction.t) :
  (forall a, Updates.amount u = Some a -> 0 < a) ->
  (forall d, Updates.date u = Some d -> date_regex d = true) ->
  0 < Transaction.amount t /\ date_regex (Transaction.date t) = true ->
  0 < Transaction.amount (fold_left assign (put_fields u) t)
  /\ date_regex (Transaction.date (fold_left assign (put_fields u) t)) = true.
Proof.
  destruct u as [a ty c n d]. cbn [Updates.amount Updates.date].
  intros Ha Hd [Ht Hdt]. destruct t.
  destruct a, ty, c, n, d; cbn in *; auto.
Qed.

Lemma update_table_ids (fields : list assignment) (p : Transaction.t -> bool)
    (rows : list Transaction.t) :
  map Transaction.id (fst (sql_update fields p rows))
  = map Transaction.id rows.
Proof.
  unfold sql_update. cbn [fst]. rewrite map_map. apply map_ext.
  intros t. destruct (p t); [apply set_id|reflexivity].
Qed.

(** X11. Two invariants of the transaction table are kept by every POST,
    PUT and DELETE, whatever the request: ids are unique, and every row has
    a positive amount and a date of the shape YYYY-MM-DD. *)
Theorem transactions_stay_valid :
  forall (now : string) (db : DB) (user : option Identity.t) (id : Z)
         (body : Body.t),
    unique_ids db -> valid_rows db ->
    (unique_ids (snd (post_transaction now db user body))
     /\ valid_rows (snd (post_transaction now db user body)))
    /\ (unique_ids (snd (put_transaction db user id body))
        /\ valid_rows (snd (put_transaction db user id body)))
    /\ (unique_ids (snd (delete_transaction db user id))
        /\ valid_rows (snd (delete_transaction db user id))).
Proof.
  intros now db user id body Hu Hv. unfold unique_ids, valid_rows in *.
  split; [|split].
  - unfold post_transaction.
    destruct (createTransactionSchema body) as [v|] eqn:Hs; [|auto].
    destruct user as [u|]; cbn [requireAuth snd]; [|auto].
    cbn [transactions]. destruct (createTransactionSchema_valid body v Hs)
      as [Ha [_ Hd]].
    split.
    + rewrite map_app. apply NoDup_snoc; [exact Hu|]. apply fresh_not_in.
    + apply Forall_app. split; [exact Hv|]. repeat constructor; assumption.
  - unfold put_transaction.
    destruct (createTransactionSchema_partial body) as [upd|] eqn:Hs; [|auto].
    destruct user as [u|]; cbn [requireAuth snd]; [|auto].
    destruct (List.length (put_fields upd) =? 0)%nat; [auto|].
    destruct (partial_schema_valid body upd Hs) as [Ha Hd].
    pose proof (update_table_ids (put_fields upd)
                  (id_and_owner id (Identity.id u)) (transactions db)) as Hid.
    unfold sql_update in *. cbn [fst snd transactions set_transactions] in *.
    split; [rewrite Hid; exact Hu|].
    rewrite Forall_forall in *. intros t Ht. apply in_map_iff in Ht.
    destruct Ht as [x [<- Hx]].
    destruct (id_and_owner id (Identity.id u) x); [|auto].
    apply set_valid; auto.
  - unfold delete_transaction.
    destruct user as [u|]; cbn [requireAuth snd]; [|auto].
    unfold sql_delete. cbn [snd transactions set_transactions]. split.
    + apply ids_after_delete. exact Hu.
    + rewrite Forall_forall in *. intros t Ht. apply filter_In in Ht.
      apply Hv. tauto.
Qed.

Lemma ledger_valid : unique_ids Sample.ledger /\ valid_rows Sample.ledger.
Proof.
  split.
  - unfold unique_ids. cbn.
    repeat (constructor; [cbn [In]; intuition discriminate|]). constructor.
  - unfold valid_rows. cbn. repeat constructor.
Qed.

(** Alice moves her transaction 3 to another day and doubles it: the table
    is still well formed. *)
Lemma transactions_stay_valid_witness :
  unique_ids
    (snd (put_transaction Sample.ledger (Some Sample.alice) 3
            (Body.mk (Some 60) None None None (Some "2024-03-09"))))
  /\ valid_rows
       (snd (put_transaction Sample.ledger (Some Sample.alice) 3
               (Body.mk (Some 60) None None None (Some "2024-03-09")))).
Proof.
  destruct ledger_valid as [Hu Hv].
  destruct (transactions_stay_valid "2024-03-31 10:00:00" Sample.ledger
              (Some Sample.alice) 3
              (Body.mk (Some 60) None None None (Some "2024-03-09")) Hu Hv)
    as [_ [H _]].
  exact H.
Defined.

Lemma id_and_owner_spec (id uid : Z) (t : Transaction.t) :
  id_and_owner id uid t = true
  <-> Transaction.id t = id /\ Transaction.user_id t = Some uid.
Proof.
  unfold id_and_owner, owned_by. rewrite andb_true_iff, !eqb_true_iff.
  reflexivity.
Qed.

Lemma no_hit (id uid : Z) (rows : list Transaction.t) :
  (forall t, In t rows -> Transaction.id t = id ->
     Transaction.user_id t <> Some uid) ->
  forall t, In t rows -> id_and_owner id uid t = false.
Proof.
  intros Hnone t Ht. destruct (id_and_owner id uid t) eqn:E; [|reflexivity].
  apply id_and_owner_spec in E. destruct E as [E1 E2].
  exfalso. exact (Hnone t Ht E1 E2).
Qed.

(** X12. PUT /api/transactions/:id changes something only when it finds the
    row: a 200 answer is the updated form of a row that has the id and
    belongs to the acting user; when no such row exists the database is left
    as it was, and a valid body with at least one field is answered 404; an
    empty body is answered 400 before anything is looked up. *)
Theorem put_needs_own_row :
  forall (db : DB) (user : Identity.t) (id : Z) (body : Body.t),
    (forall t',
       fst (put_transaction db (Some user) id body) = Json 200 t' ->
       exists t updates,
         In t (transactions db)
         /\ Transaction.id t = id
         /\ Transaction.user_id t = Some (Identity.id user)
         /\ createTransactionSchema_partial body = Some updates
         /\ t' = fold_left assign (put_fields updates) t)
    /\ ((forall t, In t (transactions db) -> Transaction.id t = id ->
           Transaction.user_id t <> Some (Identity.id user)) ->
        snd (put_transaction db (Some user) id body) = db
        /\ forall updates,
             createTransactionSchema_partial body = Some updates ->
             put_fields updates <> [] ->
             fst (put_transaction db (Some user) id body)
             = JsonError 404 "Transaction not found")
    /\ put_transaction db (Some user) id (Body.mk None None None None None)
       = (JsonError 400 "No fields to update", db).
Proof.
  intros db user id body. split; [|split; [|reflexivity]].
  - intros t'. unfold put_transaction.
    destruct (createTransactionSchema_partial body) as [u|]; [|discriminate].
    cbn [requireAuth].
    destruct (List.length (put_fields u) =? 0)%nat; [discriminate|].
    unfold sql_update, Sql.first. cbn [fst].
    destruct (Sql.where_ _ (transactions db)) as [|t l] eqn:E; [discriminate|].
    cbn [map hd_error]. intros H. injection H as <-.
    assert (Ht : In t (Sql.where_ (id_and_owner id (Identity.id user))
                         (transactions db))) by (rewrite E; left; reflexivity).
    apply filter_In in Ht. destruct Ht as [Hin Hhit].
    apply id_and_owner_spec in Hhit. exists t, u. tauto.
  - intros Hnone. pose proof (no_hit id (Identity.id user) _ Hnone) as Hmiss.
    unfold put_transaction.
    destruct (createTransactionSchema_partial body) as [u|];
      [|split; [reflexivity|discriminate]].
    cbn [requireAuth].
    destruct (List.length (put_fields u) =? 0)%nat eqn:El.
    { split; [reflexivity|]. intros u' E Hne. injection E as <-.
      apply Nat.eqb_eq in El. destruct (put_fields u); [congruence|discriminate]. }
    unfold sql_update. cbn [fst snd].
    replace (Sql.where_ (id_and_owner id (Identity.id user)) (transactions db))
      with (@nil Transaction.t)
      by (symmetry; apply filter_nil_iff; exact Hmiss).
    split; [|reflexivity].
    replace (map _ (transactions db)) with (transactions db);
      [apply set_transactions_same|].
    rewrite <- (map_id (transactions db)) at 1. apply map_ext_in.
    intros t Ht. rewrite (Hmiss t Ht). reflexivity.
Qed.

(** Alice tries to change bob's transaction 5. *)
Lemma put_needs_own_row_witness :
  put_transaction Sample.ledger (Some Sample.alice) 5
    (Body.mk (Some 1) None None None None)
  = (JsonError 404 "Transaction not found", Sample.ledger).
Proof.
  destruct (put_needs_own_row Sample.ledger Sample.alice 5
              (Body.mk (Some 1) None None None None)) as [_ [H _]].
  destruct H as [Hdb Hresp].
  - intros t Hin Hid. cbn [Sample.ledger transactions In] in Hin.
    repeat (destruct Hin as [<-|Hin]; [discriminate|]). destruct Hin.
  - specialize (Hresp _ eq_refl).
    destruct (put_transaction Sample.ledger (Some Sample.alice) 5
                (Body.mk (Some 1) None None None None)) as [r d].
    cbn [fst snd] in *. rewrite Hdb, Hresp; [reflexivity|discriminate].
Defined.

Lemma set_twice (u : Updates.t) (t : Transaction.t) :
  fold_left assign (put_fields u) (fold_left assign (put_fields u) t)
  = fold_left assign (put_fields u) t.
Proof.
  destruct u as [a ty c n d], t. destruct a, ty, c, n, d; reflexivity.
Qed.

Lemma set_hit (id uid : Z) (fields : list assignment) (t : Transaction.t) :
  id_and_owner id uid (fold_left assign fields t) = id_and_owner id uid t.
Proof. unfold id_and_owner. rewrite set_id, set_owned. reflexivity. Qed.

(** X13. PUT is idempotent: sending the same request again gives the same
    answer and leaves the database as the first request left it. *)
Theorem put_idempotent :
  forall (db : DB) (user : option Identity.t) (id : Z) (body : Body.t),
    put_transaction (snd (put_transaction db user id body)) user id body
    = put_transaction db user id body.
Proof.
  intros db user id body. unfold put_transaction.
  destruct (createTransactionSchema_partial body) as [u|]; [|reflexivity].
  destruct user as [user|]; cbn [requireAuth]; [|reflexivity].
  destruct (List.length (put_fields u) =? 0)%nat; [reflexivity|].
  unfold sql_update, Sql.where_. cbn [fst snd transactions set_transactions].
  set (hit := id_and_owner id (Identity.id user)).
  set (set := fun t => fold_left assign (put_fields u) t).
  set (g := fun t => if hit t then set t else t).
  assert (Hg : forall t, hit (g t) = hit t).
  { intros t. unfold g. destruct (hit t) eqn:E; [|exact E].
    unfold hit, set. rewrite set_hit. exact E. }
  assert (Hgg : map g (map g (transactions db)) = map g (transactions db)).
  { rewrite map_map. apply map_ext. intros t. unfold g at 1.
    rewrite Hg. unfold g. destruct (hit t); [apply set_twice|reflexivity]. }
  assert (Hret : map set (filter hit (map g (transactions db)))
                 = map set (filter hit (transactions db))).
  { clear Hgg. induction (transactions db) as [|t l IH]; [reflexivity|].
    cbn [map filter]. rewrite Hg. destruct (hit t) eqn:E; [|exact IH].
    cbn [map]. rewrite IH. f_equal. unfold g. rewrite E. apply set_twice. }
  rewrite Hret, Hgg. reflexivity.
Qed.

Lemma filter_idem {A : Type} (p : A -> bool) (l : list A) :
  filter p (filter p l) = filter p l.
Proof.
  rewrite <- filter_and. apply filter_ext. intros x. destruct (p x); reflexivity.
Qed.

(** X14. DELETE /api/transactions/:id of a transaction the acting user owns
    answers 200 and removes exactly the rows with that id and owner: every
    other row stays.  Afterwards no page of the user's transaction list
    shows the id, and the same DELETE again is answered 404 and changes
    nothing. *)
Theorem delete_removes :
  forall (db : DB) (user : Identity.t) (id : Z) (t : Transaction.t),
    In t (transactions db) ->
    Transaction.id t = id ->
    Transaction.user_id t = Some (Identity.id user) ->
    fst (delete_transaction db (Some user) id) = Json 200 true
    /\ (forall t',
          In t' (transactions (snd (delete_transaction db (Some user) id)))
          <-> In t' (transactions db)
              /\ ~ (Transaction.id t' = id
                    /\ Transaction.user_id t' = Some (Identity.id user)))
    /\ (forall q rows r,
          get_transactions (snd (delete_transaction db (Some user) id))
            (Some user) q = Json 200 rows ->
          In r rows -> Transaction.id (TransactionRow.txn r) <> id)
    /\ delete_transaction (snd (delete_transaction db (Some user) id))
         (Some user) id
       = (JsonError 404 "Transaction not found",
          snd (delete_transaction db (Some user) id)).
Proof.
  intros db user id t Hin Hid Howner.
  unfold delete_transaction at 1 2 3 5. cbn [requireAuth sql_delete fst snd].
  set (hit := id_and_owner id (Identity.id user)).
  set (db' := set_transactions db (filter (fun t => negb (hit t)) (transactions db))).
  assert (Hrows : forall t', In t' (transactions db')
                    <-> In t' (transactions db)
                        /\ ~ (Transaction.id t' = id
                              /\ Transaction.user_id t' = Some (Identity.id user))).
  { intros t'. unfold db'. cbn [transactions set_transactions].
    rewrite filter_In, negb_true_iff.
    unfold hit. rewrite <- id_and_owner_spec.
    destruct (id_and_owner id (Identity.id user) t'); split; intros [H1 H2];
      split; congruence || auto. }
  split; [|split; [exact Hrows|split]].
  - assert (Ht : In t (Sql.where_ hit (transactions db))).
    { apply filter_In. split; [exact Hin|]. apply id_and_owner_spec. auto. }
    destruct (Sql.where_ hit (transactions db)); [destruct Ht|reflexivity].
  - intros q rows r E Hr Hrid.
    destruct (get_transactions_rows _ _ _ _ _ E Hr) as [c [Ht' [_ [_ Hw]]]].
    apply list_where_owned in Hw. cbn [fst] in Hw.
    apply Hrows in Ht'. destruct Ht' as [_ Hnot]. apply Hnot.
    split; [exact Hrid|]. apply eqb_true_iff in Hw. exact Hw.
  - unfold delete_transaction. cbn [requireAuth sql_delete fst snd].
    fold hit.
    assert (Hnone : Sql.where_ hit (transactions db') = []).
    { apply filter_nil_iff. intros x Hx. unfold db' in Hx.
      cbn [transactions set_transactions] in Hx. apply filter_In in Hx.
      apply negb_true_iff, Hx. }
    rewrite Hnone. cbn [map Sql.first hd_error]. f_equal.
    unfold db' at 2. cbn [transactions set_transactions].
    rewrite filter_idem. reflexivity.
Qed.

(** Alice deletes her transaction 2. *)
Lemma delete_removes_witness :
  fst (delete_transaction Sample.ledger (Some Sample.alice) 2) = Json 200 true
  /\ delete_transaction
       (snd (delete_transaction Sample.ledger (Some Sample.alice) 2))
       (Some Sample.alice) 2
     = (JsonError 404 "Transaction not found",
        snd (delete_transaction Sample.ledger (Some Sample.alice) 2)).
Proof.
  destruct (delete_removes Sample.ledger Sample.alice 2
              (Sample.txn 2 50 expense 5 "2024-03-01" 1))
    as [H1 [_ [_ H4]]];
    [right; left; reflexivity | reflexivity | reflexivity | ].
  split; [exact H1|exact H4].
Defined.

(** ** GET /api/transactions: order, pages and filters *)

Lemma and_if_spec {A : Type} (param : option string)
    (cond : string -> A -> bool) (row : A) :
  and_if param cond row = true
  <-> (forall v, param = Some v -> v <> "" -> cond v row = true).
Proof.
  unfold and_if, truthy. destruct param as [v|].
  - destruct (String.eqb_spec v "") as [E|E]; cbn [negb]; split.
    + intros _ v' Hv Hne. injection Hv as <-. contradiction.
    + reflexivity.
    + intros H v' Hv _. injection Hv as <-. exact H.
    + intros H. apply (H v eq_refl E).
  - split; [discriminate|reflexivity].
Qed.

Lemma list_where_spec (uid : Z) (q : ListQuery.t) (t : Transaction.t)
    (c : Category.t) :
  list_where uid q (t, c) = true
  <-> Transaction.user_id t = Some uid /\ passes q t.
Proof.
  unfold list_where, passes, owned_by.
  rewrite !andb_true_iff, !and_if_spec, eqb_true_iff. cbn [fst].
  assert (Hty : forall v, eqb (type_text (Transaction.type t)) v = true
                          <-> type_text (Transaction.type t) = v)
    by (intros v; apply eqb_true_iff).
  split.
  - intros [[[Ho Hty'] Hs] He]. repeat split; auto.
    intros v Hv Hne. apply Hty. auto.
  - intros [Ho [Hty' [Hs He]]]. repeat split; auto.
    intros v Hv Hne. apply Hty. auto.
Qed.

Lemma text_lt_trans (a b c : string) :
  Sql.text_lt a b = true -> Sql.text_lt b c = true -> Sql.text_lt a c = true.
Proof.
  unfold Sql.text_lt, String.ltb. intros Hab Hbc.
  destruct (String.compare a b) eqn:Eab; try discriminate.
  destruct (String.compare b c) eqn:Ebc; try discriminate.
  pose proof (string_compare_trans a b c) as H.
  destruct (String.compare a c) eqn:Eac; [|reflexivity|].
  - apply String.compare_eq_iff in Eac. subst c.
    rewrite String.compare_antisym, Eab in Ebc. discriminate.
  - exfalso. apply H; congruence.
Qed.

Lemma text_lt_cases (a b : string) :
  Sql.text_lt a b = true \/ a = b \/ Sql.text_lt b a = true.
Proof.
  unfold Sql.text_lt, String.ltb.
  destruct (String.compare a b) eqn:E.
  - right. left. apply String.compare_eq_iff. exact E.
  - left. reflexivity.
  - right. right. rewrite String.compare_antisym, E. reflexivity.
Qed.

Lemma list_order_spec (x y : Transaction.t * Category.t) :
  list_order x y = true <-> newer_first (list_select x) (list_select y).
Proof.
  unfold list_order, newer_first, list_select. cbn [TransactionRow.txn].
  rewrite orb_true_iff, andb_true_iff, eqb_true_iff, Z.leb_le. reflexivity.
Qed.

Lemma list_order_total (x y : Transaction.t * Category.t) :
  list_order x y = true \/ list_order y x = true.
Proof.
  rewrite !list_order_spec. unfold newer_first, list_select.
  cbn [TransactionRow.txn].
  destruct (text_lt_cases (Transaction.date (fst x)) (Transaction.date (fst y)))
    as [H|[H|H]]; auto.
  destruct (Z.le_ge_cases (Transaction.id (fst x)) (Transaction.id (fst y)));
    auto.
Qed.

Lemma list_order_trans (x y z : Transaction.t * Category.t) :
  list_order x y = true -> list_order y z = true -> list_order x z = true.
Proof.
  rewrite !list_order_spec. unfold newer_first, list_select.
  cbn [TransactionRow.txn].
  intros [Hxy|[Exy Ixy]] [Hyz|[Eyz Iyz]].
  - left. exact (text_lt_trans _ _ _ Hyz Hxy).
  - left. rewrite <- Eyz. exact Hxy.
  - left. rewrite Exy. exact Hyz.
  - right. split; [congruence|lia].
Qed.

Lemma sorted_map {A B : Type} (R : A -> A -> Prop) (S : B -> B -> Prop)
    (f : A -> B) (l : list A) :
  (forall x y, R x y -> S (f x) (f y)) ->
  StronglySorted R l -> StronglySorted S (map f l).
Proof.
  intros Hf. induction 1 as [|x l Hs IH Hx]; cbn [map]; constructor.
  - exact IH.
  - apply Forall_map. revert Hx. apply Forall_impl. intros y. apply Hf.
Qed.

Lemma offset_sorted {A : Type} (R : A -> A -> Prop) (n : Z) (l : list A) :
  StronglySorted R l -> StronglySorted R (Sql.offset n l).
Proof.
  unfold Sql.offset. generalize (Z.to_nat n) as k. intros k. revert l.
  induction k as [|k IH]; intros l Hs; [exact Hs|].
  destruct l as [|x l]; [constructor|]. cbn [skipn]. apply IH.
  apply StronglySorted_inv in Hs. tauto.
Qed.

(** X15. For a signed-in user and a query whose limit and offset are
    integers that can be bound (within 64 bits), GET /api/transactions
    answers 200 with a page in which the latest date comes first and, within
    one date, the highest id; the page has at most [limit] rows (50 when no
    limit is given) unless the limit is negative; and every row shows a
    stored transaction of that user which passes the filters that were set,
    together with the name and icon of the category its [category_id]
    names. *)
Theorem list_page :
  forall (db : DB) (user : Identity.t) (q : ListQuery.t),
    bindable q ->
    exists rows,
      get_transactions db (Some user) q = Json 200 rows
      /\ StronglySorted newer_first rows
      /\ (0 <= list_limit q -> Z.of_nat (List.length rows) <= list_limit q)
      /\ (ListQuery.limit q = None -> (List.length rows <= 50)%nat)
      /\ forall r, In r rows ->
           In (TransactionRow.txn r) (transactions db)
           /\ Transaction.user_id (TransactionRow.txn r)
              = Some (Identity.id user)
           /\ passes q (TransactionRow.txn r)
           /\ exists c, In c (categories db)
                /\ Category.id c
                   = Transaction.category_id (TransactionRow.txn r)
                /\ TransactionRow.category_name r = Category.name c
                /\ TransactionRow.category_icon r = Category.icon c.
Proof.
  intros db user q _. eexists. split; [reflexivity|].
  set (sorted := Sql.order_by list_order
                   (Sql.where_ (list_where (Identity.id user) q)
                      (Sql.join on_category (transactions db) (categories db)))).
  assert (Hlen : 0 <= list_limit q ->
            Z.of_nat (List.length
              (map list_select
                 (Sql.limit (list_limit q) (Sql.offset (list_offset q) sorted))))
            <= list_limit q).
  { intros Hn. rewrite length_map. apply limit_length. exact Hn. }
  split; [|split; [exact Hlen|split]].
  - apply (sorted_map (fun x y => list_order x y = true)).
    + intros x y. apply list_order_spec.
    + apply limit_sorted, offset_sorted, order_by_sorted.
      * apply list_order_total.
      * apply list_order_trans.
  - intros E. unfold list_limit in Hlen. rewrite E in Hlen.
    unfold list_limit at 1. rewrite E. lia.
  - intros r Hr. apply in_map_iff in Hr. destruct Hr as [[t c] [<- Hr]].
    apply limit_In, offset_In in Hr. unfold sorted in Hr.
    apply order_by_In, filter_In in Hr. destruct Hr as [Hj Hw].
    apply join_In in Hj. destruct Hj as [Ht [Hc Hon]].
    apply eqb_true_iff in Hon. apply list_where_spec in Hw.
    cbn [list_select TransactionRow.txn TransactionRow.category_name
         TransactionRow.category_icon fst snd].
    destruct Hw as [Ho Hp]. repeat split; try assumption; try apply Hp.
    exists c. auto.
Qed.

(** The second and third of Alice's rows. *)
Lemma list_page_witness :
  bindable (ListQuery.mk None None None (Some 2) (Some 1))
  /\ exists rows,
       get_transactions Sample.ledger (Some Sample.alice)
         (ListQuery.mk None None None (Some 2) (Some 1))
       = Json 200 rows
       /\ StronglySorted newer_first rows
       /\ (0 <= 2 -> Z.of_nat (List.length rows) <= 2)
       /\ (Some 2 = None -> (List.length rows <= 50)%nat)
       /\ forall r, In r rows ->
            In (TransactionRow.txn r) (transactions Sample.ledger)
            /\ Transaction.user_id (TransactionRow.txn r)
               = Some (Identity.id Sample.alice)
            /\ passes (ListQuery.mk None None None (Some 2) (Some 1))
                 (TransactionRow.txn r)
            /\ exists c, In c (categories Sample.ledger)
                 /\ Category.id c
                    = Transaction.category_id (TransactionRow.txn r)
                 /\ TransactionRow.category_name r = Category.name c
                 /\ TransactionRow.category_icon r = Category.icon c.
Proof.
  assert (Hb : bindable (ListQuery.mk None None None (Some 2) (Some 1))).
  { unfold bindable, int64. cbn. lia. }
  split; [exact Hb|].
  exact (list_page Sample.ledger Sample.alice
           (ListQuery.mk None None None (Some 2) (Some 1)) Hb).
Defined.

Lemma firstn_plus {A : Type} (n m : nat) (l : list A) :
  firstn (n + m) l = firstn n l ++ firstn m (skipn n l).
Proof.
  revert l. induction n as [|n IH]; intros l; [reflexivity|].
  destruct l as [|x l]; cbn [Nat.add firstn skipn app].
  - rewrite firstn_nil. reflexivity.
  - rewrite IH. reflexivity.
Qed.

Lemma skipn_plus {A : Type} (n m : nat) (l : list A) :
  skipn (n + m) l = skipn m (skipn n l).
Proof.
  revert l. induction n as [|n IH]; intros l; [reflexivity|].
  destruct l as [|x l]; cbn [Nat.add skipn]; [|apply IH].
  rewrite skipn_nil. reflexivity.
Qed.

(** X16. Pages of GET /api/transactions fit together: with the same
    filters, for offsets and limits that are not negative and stay within
    64 bits, the page of [n] rows at offset [o] followed by the page of [m]
    rows at offset [o + n] is the page of [n + m] rows at offset [o]; no
    row is skipped or shown twice at the seam. *)
Theorem list_pages_compose :
  forall (db : DB) (user : Identity.t) (type start_date end_date : option string)
         (o n m : Z),
    0 <= o -> 0 <= n -> 0 <= m -> int64 (o + n + m) ->
    exists a b,
      get_transactions db (Some user)
        (ListQuery.mk type start_date end_date (Some n) (Some o)) = Json 200 a
      /\ get_transactions db (Some user)
           (ListQuery.mk type start_date end_date (Some m) (Some (o + n)))
         = Json 200 b
      /\ get_transactions db (Some user)
           (ListQuery.mk type start_date end_date (Some (n + m)) (Some o))
         = Json 200 (a ++ b).
Proof.
  intros db user ty s e o n m Ho Hn Hm _. eexists. eexists.
  split; [reflexivity|]. split; [reflexivity|].
  unfold get_transactions. cbn [requireAuth]. f_equal.
  unfold list_limit, list_offset. cbn [ListQuery.limit ListQuery.offset].
  rewrite <- map_app. f_equal.
  unfold Sql.limit, Sql.offset.
  destruct (Z.ltb_spec n 0); [lia|]. destruct (Z.ltb_spec m 0); [lia|].
  destruct (Z.ltb_spec (n + m) 0); [lia|].
  rewrite !Z2Nat.inj_add by lia. rewrite firstn_plus, skipn_plus. reflexivity.
Qed.

(** Alice's four March rows, two by two. *)
Lemma list_pages_compose_witness :
  exists a b,
    get_transactions Sample.ledger (Some Sample.alice)
      (ListQuery.mk None (Some "2024-03-01") None (Some 2) (Some 0))
    = Json 200 a
    /\ get_transactions Sample.ledger (Some Sample.alice)
         (ListQuery.mk None (Some "2024-03-01") None (Some 2) (Some (0 + 2)))
       = Json 200 b
    /\ get_transactions Sample.ledger (Some Sample.alice)
         (ListQuery.mk None (Some "2024-03-01") None (Some (2 + 2)) (Some 0))
       = Json 200 (a ++ b).
Proof.
  apply (list_pages_compose Sample.ledger Sample.alice None
           (Some "2024-03-01") None 0 2 2); unfold int64; lia.
Defined.

Lemma on_category_at_most_one (cats : list Category.t) (t : Transaction.t) :
  NoDup (map Category.id cats) ->
  (List.length (filter (on_category t) cats) <= 1)%nat.
Proof.
  intros Hnd. destruct (filter (on_category t) cats) as [|c l] eqn:E;
    [cbn; lia|].
  assert (Hc : In c (filter (on_category t) cats)) by (rewrite E; left; reflexivity).
  apply filter_In in Hc. destruct Hc as [Hc Hon]. apply eqb_true_iff in Hon.
  rewrite <- E, (on_category_unique cats t c Hnd Hc (eq_sym Hon)).
  cbn. lia.
Qed.

Lemma filter_length_le {A : Type} (p : A -> bool) (l : list A) :
  (List.length (filter p l) <= List.length l)%nat.
Proof.
  induction l as [|x l IH]; cbn; [lia|]. destruct (p x); cbn; lia.
Qed.

(** With unique category ids the join has at most one row per transaction,
    so the list of a user is no longer than the user's transactions. *)
Lemma listed_at_most_own (db : DB) (uid : Z) (q : ListQuery.t) :
  unique_categories db ->
  (List.length (Sql.where_ (list_where uid q)
                  (Sql.join on_category (transactions db) (categories db)))
   <= List.length (own uid db))%nat.
Proof.
  intros Hnd. unfold own, Sql.where_.
  induction (transactions db) as [|t l IH]; [cbn; lia|].
  rewrite join_cons, filter_app, length_app. cbn [filter].
  assert (Hone : (List.length
                    (filter (list_where uid q)
                       (map (pair t) (filter (on_category t) (categories db))))
                  <= if owned_by uid t then 1 else 0)%nat).
  { destruct (owned_by uid t) eqn:Eo.
    - etransitivity; [apply filter_length_le|]. rewrite length_map.
      apply on_category_at_most_one. exact Hnd.
    - replace (filter _ _) with (@nil (Transaction.t * Category.t));
        [cbn; lia|].
      symmetry. apply filter_nil_iff. intros x Hx.
      apply in_map_iff in Hx. destruct Hx as [c [<- _]].
      destruct (list_where uid q (t, c)) eqn:Ew; [|reflexivity].
      apply list_where_owned in Ew. cbn [fst] in Ew. congruence. }
  destruct (owned_by uid t); cbn [List.length]; lia.
Qed.

(** The unpaged list holds every transaction of the user that passes the
    filters and whose category exists. *)
Lemma listed_when_room (db : DB) (user : Identity.t) (q : ListQuery.t)
    (t : Transaction.t) (c : Category.t) :
  unique_categories db ->
  In t (transactions db) ->
  Transaction.user_id t = Some (Identity.id user) ->
  In c (categories db) ->
  Category.id c = Transaction.category_id t ->
  passes q t ->
  list_offset q <= 0 ->
  list_limit q < 0
  \/ Z.of_nat (List.length (own (Identity.id user) db)) <= list_limit q ->
  exists rows,
    get_transactions db (Some user) q = Json 200 rows
    /\ In (TransactionRow.mk t (Category.name c) (Category.icon c)) rows.
Proof.
  intros Hnd Ht Ho Hc Hid Hp Hoff Hlim. eexists. split; [reflexivity|].
  apply in_map_iff. exists (t, c). split; [reflexivity|].
  set (found := Sql.where_ (list_where (Identity.id user) q)
                  (Sql.join on_category (transactions db) (categories db))).
  assert (Hin : In (t, c) (Sql.order_by list_order found)).
  { apply order_by_In. apply filter_In. split.
    - apply join_In. split; [exact Ht|]. split; [exact Hc|].
      apply eqb_true_iff. symmetry. exact Hid.
    - apply list_where_spec. auto. }
  unfold Sql.offset. replace (Z.to_nat (list_offset q)) with 0%nat by lia.
  cbn [skipn]. unfold Sql.limit.
  destruct (Z.ltb_spec (list_limit q) 0) as [Hneg|Hpos]; [exact Hin|].
  destruct Hlim as [Hlim|Hlim]; [lia|].
  rewrite firstn_all2; [exact Hin|].
  rewrite (Permutation_length (order_by_perm list_order found)).
  pose proof (listed_at_most_own db (Identity.id user) q Hnd). fold found in H.
  lia.
Qed.

(** X17. Read after write, when category ids are unique.  A transaction
    that POST /api/transactions has just created for a category that exists
    is in the user's list, with that category's name and icon, for every
    query whose filters it passes and whose limit and offset can be bound
    (integers within 64 bits), when the query starts at offset 0 and its
    limit (50 by default) is not below the number of the user's transactions
    or is negative. *)
Theorem create_then_list :
  forall (now : string) (db db' : DB) (user : Identity.t) (body : Body.t)
         (t : Transaction.t) (c : Category.t) (q : ListQuery.t),
    unique_categories db ->
    post_transaction now db (Some user) body = (Json 201 t, db') ->
    In c (categories db) ->
    Category.id c = Transaction.category_id t ->
    passes q t ->
    bindable q ->
    list_offset q <= 0 ->
    list_limit q < 0
    \/ Z.of_nat (List.length (own (Identity.id user) db')) <= list_limit q ->
    exists rows,
      get_transactions db' (Some user) q = Json 200 rows
      /\ In (TransactionRow.mk t (Category.name c) (Category.icon c)) rows.
Proof.
  intros now db db' user body t c q Hnd E Hc Hid Hp _ Hoff Hlim.
  unfold post_transaction in E.
  destruct (createTransactionSchema body) as [v|]; [|discriminate].
  cbn [requireAuth] in E. injection E as Et Edb.
  apply listed_when_room; try assumption.
  - rewrite <- Edb. exact Hnd.
  - rewrite <- Edb. cbn [transactions]. apply in_or_app. right. left. exact Et.
  - rewrite <- Et. reflexivity.
  - rewrite <- Edb. exact Hc.
Qed.

(** Bob notes a lunch and finds it on his first page. *)
Lemma create_then_list_witness :
  exists rows,
    get_transactions
      (snd (post_transaction "2024-03-31 10:00:00" Sample.ledger
              (Some Sample.bob)
              (Body.mk (Some 12) (Some "expense") (Some 5) None
                 (Some "2024-03-30"))))
      (Some Sample.bob) (ListQuery.mk None None None None None)
    = Json 200 rows
    /\ In (TransactionRow.mk
             (Transaction.mk 7 12 expense 5 None "2024-03-30"
                (Some "2024-03-31 10:00:00") (Some 2))
             "餐饮" "🍜") rows.
Proof.
  apply (create_then_list "2024-03-31 10:00:00" Sample.ledger _ Sample.bob
           (Body.mk (Some 12) (Some "expense") (Some 5) None
              (Some "2024-03-30"))
           _ (Category.mk 5 "餐饮" "🍜" expense None)).
  - apply seed_ids_unique.
  - reflexivity.
  - cbn. tauto.
  - reflexivity.
  - repeat split; discriminate.
  - unfold bindable, int64. cbn. lia.
  - cbn. lia.
  - right. apply Z.leb_le. vm_compute. reflexivity.
Defined.

(** ** GET /api/stats: the rows of the by-category breakdown *)

Section ByCategoryRows.

Variable cats : list Category.t.
Variable keep : Transaction.t -> bool.
Hypothesis cats_unique : NoDup (map Category.id cats).

Lemma joined_chunk (t : Transaction.t) (c : Category.t) :
  In c cats ->
  Sql.with_key (fun r => Category.id (snd r)) (Category.id c)
    (Sql.where_ (fun r => keep (fst r))
       (map (pair t) (filter (on_category t) cats)))
  = if keep t && eqb (Transaction.category_id t) (Category.id c)
    then [(t, c)] else [].
Proof.
  intros Hc. unfold Sql.with_key, Sql.where_.
  destruct (eq_dec (Transaction.category_id t) (Category.id c)) as [E|E].
  - rewrite (on_category_unique cats t c cats_unique Hc (eq_sym E)).
    cbn [map filter fst snd]. rewrite E, eqb_refl, andb_true_r.
    destruct (keep t); cbn [filter snd]; [rewrite eqb_refl|]; reflexivity.
  - replace (eqb (Transaction.category_id t) (Category.id c)) with false
      by (symmetry; apply eqb_false_iff; exact E).
    rewrite andb_false_r. apply filter_nil_iff. intros x Hx.
    apply filter_In in Hx. destruct Hx as [Hx _].
    apply in_map_iff in Hx. destruct Hx as [c' [<- Hc']].
    apply filter_In in Hc'. destruct Hc' as [_ Hon].
    apply eqb_true_iff in Hon. cbn [snd]. apply eqb_false_iff. congruence.
Qed.

(** The group of category [c] holds the kept transactions that name [c],
    in table order, each paired with [c]. *)
Lemma joined_group (txs : list Transaction.t) (c : Category.t) :
  In c cats ->
  Sql.with_key (fun r => Category.id (snd r)) (Category.id c)
    (Sql.where_ (fun r => keep (fst r)) (Sql.join on_category txs cats))
  = map (fun t => (t, c))
      (filter (fun t => eqb (Transaction.category_id t) (Category.id c))
         (filter keep txs)).
Proof.
  intros Hc. induction txs as [|t txs IH]; [reflexivity|].
  rewrite join_cons. unfold Sql.where_, Sql.with_key in *.
  rewrite !filter_app, IH.
  pose proof (joined_chunk t c Hc) as Hchunk.
  unfold Sql.where_, Sql.with_key in Hchunk. rewrite Hchunk.
  cbn [filter]. destruct (keep t); cbn [andb filter]; [|reflexivity].
  destruct (eqb (Transaction.category_id t) (Category.id c)); reflexivity.
Qed.

End ByCategoryRows.

Lemma sum_paired (c : Category.t) (l : list Transaction.t) :
  Sql.sum amount_of (map (fun t => (t, c)) l) = Sql.sum Transaction.amount l
  /\ Sql.count (map (fun t => (t, c)) l) = Sql.count l.
Proof.
  split; [|unfold Sql.count; rewrite length_map; reflexivity].
  induction l as [|t l IH]; [reflexivity|].
  cbn [map]. rewrite !sum_cons, IH. reflexivity.
Qed.

Lemma category_stat_paired (k : Z) (c : Category.t) (l : list Transaction.t) :
  category_stat (k, map (fun t => (t, c)) l)
  = match l with [] => [] | _ :: _ => [stat_of c l] end.
Proof.
  unfold category_stat, stat_of. cbn [snd].
  destruct (sum_paired c l) as [-> ->]. destruct l; reflexivity.
Qed.

(** The group of every key of the by-category query, under unique
    category ids. *)
Lemma byCategory_groups (db : DB) (uid : Z) (s e : option string)
    (g : Z * list (Transaction.t * Category.t)) :
  unique_categories db ->
  In g (Sql.group_by (fun r => Category.id (snd r))
          (Sql.where_ (fun r => dateFilter uid s e (fst r))
             (Sql.join on_category (transactions db) (categories db)))) ->
  exists c, In c (categories db)
            /\ in_category db uid s e c <> []
            /\ g = (Category.id c,
                    map (fun t => (t, c)) (in_category db uid s e c)).
Proof.
  intros Hnd Hg. apply group_by_In in Hg. destruct Hg as [Hk Hrows].
  apply in_map_iff in Hk. destruct Hk as [[t c] [Hkey Hr]].
  cbn [snd] in Hkey. apply filter_In in Hr. destruct Hr as [Hj Hkeep].
  apply join_In in Hj. destruct Hj as [Ht [Hc Hon]]. cbn [fst] in Hkeep.
  exists c. split; [exact Hc|].
  rewrite <- Hkey, (joined_group _ _ Hnd _ _ Hc) in Hrows.
  split.
  - unfold in_category, Sql.where_. intros Hnil.
    assert (Hin : In t (filter
                     (fun t => eqb (Transaction.category_id t) (Category.id c))
                     (filter (dateFilter uid s e) (transactions db)))).
    { apply filter_In. split; [apply filter_In; auto|exact Hon]. }
    rewrite Hnil in Hin. destruct Hin.
  - destruct g as [k rows]. cbn [fst snd] in *. subst k rows. reflexivity.
Qed.

Lemma stat_ids_in (groups : list (Z * list (Transaction.t * Category.t)))
    (x : Z) :
  (forall g r, In g groups -> In r (snd g) -> Category.id (snd r) = fst g) ->
  In x (map CategoryStat.id (flat_map category_stat groups)) ->
  In x (map fst groups).
Proof.
  intros Hkey Hx. apply in_map_iff in Hx. destruct Hx as [r [<- Hr]].
  apply in_flat_map in Hr. destruct Hr as [g [Hg Hr]].
  apply in_map_iff. exists g. split; [|exact Hg].
  unfold category_stat in Hr. destruct (snd g) as [|[t c] l] eqn:E;
    [destruct Hr|].
  destruct Hr as [<-|[]]. cbn [CategoryStat.id].
  symmetry. apply (Hkey g (t, c) Hg). rewrite E. left. reflexivity.
Qed.

Lemma stat_ids_unique (groups : list (Z * list (Transaction.t * Category.t))) :
  (forall g r, In g groups -> In r (snd g) -> Category.id (snd r) = fst g) ->
  NoDup (map fst groups) ->
  NoDup (map CategoryStat.id (flat_map category_stat groups)).
Proof.
  induction groups as [|g groups IH]; intros Hkey Hnd; [constructor|].
  cbn [map flat_map] in *. apply NoDup_cons_iff in Hnd. destruct Hnd as [Hg Hnd].
  assert (Hrest : NoDup (map CategoryStat.id (flat_map category_stat groups)))
    by (apply IH; [intros g' r Hg'; apply Hkey; right; exact Hg'|exact Hnd]).
  unfold category_stat at 1. destruct (snd g) as [|[t c] l] eqn:E;
    [exact Hrest|].
  cbn [app map CategoryStat.id]. constructor; [|exact Hrest].
  intros Hin. apply Hg.
  replace (fst g) with (Category.id c).
  - apply stat_ids_in; [|exact Hin].
    intros g' r Hg'. apply Hkey. right. exact Hg'.
  - apply (Hkey g (t, c)); [left; reflexivity|]. rewrite E. left. reflexivity.
Qed.

(** The rows of the by-category query, under unique category ids. *)
Lemma byCategory_spec (db : DB) (uid : Z) (s e : option string)
    (r : CategoryStat.t) :
  unique_categories db ->
  In r (byCategory_query db uid s e)
  <-> exists c,
        In c (categories db)
        /\ in_category db uid s e c <> []
        /\ r = stat_of c (in_category db uid s e c).
Proof.
  intros Hnd. unfold byCategory_query. rewrite order_by_In, in_flat_map. split.
  - intros [g [Hg Hr]].
    destruct (byCategory_groups db _ s e g Hnd Hg) as [c [Hc [Hne ->]]].
    rewrite category_stat_paired in Hr.
    exists c. split; [exact Hc|]. split; [exact Hne|].
    destruct (in_category db uid s e c);
      [destruct Hr|destruct Hr as [<-|[]]; reflexivity].
  - intros [c [Hc [Hne ->]]].
    exists (Category.id c, map (fun t => (t, c)) (in_category db uid s e c)).
    split.
    + apply group_by_In. cbn [fst snd]. split.
      * destruct (in_category db uid s e c) as [|t l] eqn:El; [congruence|].
        assert (Ht : In t (in_category db uid s e c))
          by (rewrite El; left; reflexivity).
        apply filter_In in Ht. destruct Ht as [Ht Hon].
        apply filter_In in Ht. destruct Ht as [Ht Hkeep].
        apply in_map_iff. exists (t, c). split; [reflexivity|].
        apply filter_In. split; [|exact Hkeep].
        apply join_In. auto.
      * symmetry. apply (joined_group _ _ Hnd _ _ Hc).
    + rewrite category_stat_paired.
      destruct (in_category db uid s e c); [congruence|left; reflexivity].
Qed.

(** X18. The by-category breakdown of GET /api/stats, when category ids
    are unique: it has one row for each category that at least one selected
    transaction of the user names, and no other row; the row carries the
    category's id, name, icon and type, the sum of the amounts of those
    transactions and their number; no id occurs twice; and the rows stand in
    descending order of their totals. *)
Theorem by_category_rows :
  forall (since : string) (db : DB) (user : Identity.t)
         (start_date end_date : option string) (stats : Stats.t),
    unique_categories db ->
    get_stats since db (Some user) start_date end_date = Json 200 stats ->
    NoDup (map CategoryStat.id (Stats.by_category stats))
    /\ StronglySorted
         (fun x y => CategoryStat.total y <= CategoryStat.total x)
         (Stats.by_category stats)
    /\ forall r,
         In r (Stats.by_category stats)
         <-> exists c,
               In c (categories db)
               /\ in_category db (Identity.id user) start_date end_date c <> []
               /\ r = stat_of c
                        (in_category db (Identity.id user) start_date
                           end_date c).
Proof.
  intros since db user s e stats Hnd E. open_stats E stats.
  cbn [Stats.by_category]. unfold byCategory_query.
  set (rows := Sql.where_ (fun r => dateFilter (Identity.id user) s e (fst r))
                 (Sql.join on_category (transactions db) (categories db))).
  set (groups := Sql.group_by (fun r => Category.id (snd r)) rows).
  set (before := fun x y => CategoryStat.total y <=? CategoryStat.total x).
  split; [|split].
  - apply (Permutation_NoDup
             (Permutation_map CategoryStat.id
                (Permutation_sym (order_by_perm before _)))).
    apply stat_ids_unique; [|apply group_by_NoDup].
    intros g r Hg Hr. apply group_by_In in Hg. destruct Hg as [_ Hrows].
    rewrite Hrows in Hr. apply filter_In in Hr. destruct Hr as [_ Hr].
    apply eqb_true_iff in Hr. exact Hr.
  - rewrite <- (map_id (Sql.order_by before _)).
    apply (sorted_map (fun x y => before x y = true)).
    + intros x y. unfold before. apply Z.leb_le.
    + apply order_by_sorted; unfold before; intros; lia.
  - intros r. apply (byCategory_spec db (Identity.id user) s e r Hnd).
Qed.

(** Alice's March by category. *)
Lemma by_category_rows_witness :
  exists stats,
    get_stats "2024-02-20" Sample.ledger (Some Sample.alice)
      (Some "2024-03-01") (Some "2024-03-31") = Json 200 stats
    /\ NoDup (map CategoryStat.id (Stats.by_category stats))
    /\ StronglySorted
         (fun x y => CategoryStat.total y <= CategoryStat.total x)
         (Stats.by_category stats).
Proof.
  eexists. split; [reflexivity|].
  destruct (by_category_rows "2024-02-20" Sample.ledger Sample.alice
              (Some "2024-03-01") (Some "2024-03-31") _
              seed_ids_unique eq_refl) as [H1 [H2 _]].
  split; [exact H1|exact H2].
Defined.

(** ** The client: stored session and registration form *)

Lemma getItem_removed (key : string) (s : Client.storage) :
  Client.getItem key (Client.removeItem key s) = None.
Proof.
  unfold Client.getItem, Client.removeItem.
  induction s as [|[k v] s IH]; [reflexivity|].
  cbn [filter fst]. destruct (String.eqb_spec k key) as [E|E]; cbn [negb].
  - exact IH.
  - cbn [find fst]. apply String.eqb_neq in E. rewrite E. exact IH.
Qed.

Lemma getItem_removed_other (key key' : string) (s : Client.storage) :
  key <> key' ->
  Client.getItem key (Client.removeItem key' s) = Client.getItem key s.
Proof.
  intros Hne. unfold Client.getItem, Client.removeItem.
  induction s as [|[k v] s IH]; [reflexivity|].
  cbn [filter find fst].
  destruct (String.eqb_spec k key') as [E|E]; cbn [negb].
  - subst k. destruct (String.eqb_spec key' key) as [E'|E']; [congruence|].
    exact IH.
  - cbn [find fst]. destruct (k =? key)%string; [reflexivity|exact IH].
Qed.

Lemma getItem_set (key value : string) (s : Client.storage) :
  Client.getItem key (Client.setItem key value s) = Some value.
Proof.
  unfold Client.getItem, Client.setItem. cbn [find fst].
  rewrite String.eqb_refl. reflexivity.
Qed.

Lemma getItem_set_other (key key' value : string) (s : Client.storage) :
  key <> key' ->
  Client.getItem key (Client.setItem key' value s) = Client.getItem key s.
Proof.
  intros Hne. unfold Client.setItem.
  change (Client.getItem key ((key', value) :: Client.removeItem key' s))
    with (option_map snd
            (if (key' =? key)%string then Some (key', value)
             else find (fun e => (fst e =? key)%string)
                    (Client.removeItem key' s))).
  destruct (String.eqb_spec key' key) as [E|E]; [congruence|].
  apply (getItem_removed_other key key' s Hne).
Qed.

Lemma keys_differ : Client.TOKEN_KEY <> Client.USER_KEY.
Proof. discriminate. Qed.

(** X20. The client's session survives a restart and ends at logout.  After
    [saveAuth], a fresh start of the app (no token in memory, the same
    storage) finds the saved user and token again, whatever was stored
    before.  After [clearAuth], a fresh start finds nothing and requests
    carry no Authorization header. *)
Theorem client_session_restored :
  forall (stringify : Identity.t -> string)
         (parse : string -> option Identity.t)
         (token : string) (user : Identity.t) (c : Client.session),
    token <> "" ->
    stringify user <> "" ->
    parse (stringify user) = Some user ->
    let saved := Client.saveAuth stringify token user c in
    Client.initAuth parse (Client.mkSession None (Client.stored saved))
    = (Some user, Client.mkSession (Some token) (Client.stored saved))
    /\ Client.initAuth parse
         (Client.mkSession None (Client.stored (Client.clearAuth saved)))
       = (None, Client.mkSession None (Client.stored (Client.clearAuth saved)))
    /\ Client.authorization (Client.clearAuth saved) = None.
Proof.
  intros stringify parse token user c Htoken Huser Hparse saved.
  assert (Ht : Client.getItem Client.TOKEN_KEY (Client.stored saved)
               = Some token).
  { unfold saved, Client.saveAuth. cbn [Client.stored].
    rewrite (getItem_set_other _ _ _ _ keys_differ). apply getItem_set. }
  assert (Hu : Client.getItem Client.USER_KEY (Client.stored saved)
               = Some (stringify user)).
  { unfold saved, Client.saveAuth. cbn [Client.stored]. apply getItem_set. }
  assert (Htruthy : forall v, v <> "" -> truthy (Some v) = true).
  { intros v Hv. unfold truthy. apply String.eqb_neq in Hv. rewrite Hv.
    reflexivity. }
  split; [|split].
  - unfold Client.initAuth. cbn [Client.stored]. rewrite Ht, Hu.
    rewrite (Htruthy _ Htoken), (Htruthy _ Huser). cbn [andb].
    rewrite Hparse. reflexivity.
  - unfold Client.initAuth, Client.clearAuth. cbn [Client.stored].
    rewrite (getItem_removed_other _ _ _ keys_differ), getItem_removed.
    reflexivity.
  - reflexivity.
Qed.

(** Bob signs in on a device that still holds alice's session, and restarts
    the app. *)
Lemma client_session_restored_witness :
  Client.initAuth Demo.parse
    (Client.mkSession None
       (Client.stored
          (Client.saveAuth Demo.stringify "Mjpib2I6MA==" Sample.bob
             (Client.saveAuth Demo.stringify "MTphbGljZTow" Sample.alice
                (Client.mkSession None [])))))
  = (Some Sample.bob,
     Client.mkSession (Some "Mjpib2I6MA==")
       [(Client.USER_KEY, "2:bob"); (Client.TOKEN_KEY, "Mjpib2I6MA==")]).
Proof.
  destruct (client_session_restored Demo.stringify Demo.parse "Mjpib2I6MA=="
              Sample.bob
              (Client.saveAuth Demo.stringify "MTphbGljZTow" Sample.alice
                 (Client.mkSession None [])))
    as [H _]; [discriminate|discriminate|reflexivity|].
  exact H.
Defined.

(** X21. What the registration form lets through, the server accepts,
    except for length: a body that [handleRegister] posts passes
    [registerSchema] exactly when the trimmed user name has at most 20
    characters and the password at most 50; the form itself does not check
    these two bounds. *)
Theorem handleRegister_accepted :
  forall (trim : string -> string) (username password confirmPassword : string)
         (body : RegisterBody.t),
    handleRegister trim username password confirmPassword = Some body ->
    registerSchema body
    = if ((String.length (trim username) <=? 20)
          && (String.length password <=? 50))%nat
      then Some (Credentials.mk (trim username) password)
      else None.
Proof.
  intros trim username password confirm body. unfold handleRegister.
  destruct (trim username =? "")%string; [discriminate|].
  destruct (Nat.ltb_spec (String.length (trim username)) 3) as [|H3];
    [discriminate|].
  destruct (word_regex (trim username)) eqn:Hw; cbn [negb]; [|discriminate].
  destruct (password =? "")%string; [discriminate|].
  destruct (Nat.ltb_spec (String.length password) 6) as [|H6]; [discriminate|].
  destruct (password =? confirm)%string eqn:Hc; cbn [negb]; [|discriminate].
  intros E. injection E as <-. unfold registerSchema, length_within.
  cbn [RegisterBody.username RegisterBody.password
       RegisterBody.confirm_password].
  rewrite Hw, Hc.
  replace (3 <=? String.length (trim username))%nat with true
    by (symmetry; apply Nat.leb_le; exact H3).
  replace (6 <=? String.length password)%nat with true
    by (symmetry; apply Nat.leb_le; exact H6).
  cbn [andb]. rewrite !andb_true_r. reflexivity.
Qed.

(** A user name typed with a blank after it is sent trimmed, and the
    server accepts it. *)
Lemma handleRegister_accepted_witness :
  registerSchema
    (RegisterBody.mk (Some "carol_01") (Some "secret1") (Some "secret1"))
  = Some (Credentials.mk "carol_01" "secret1").
Proof.
  exact (handleRegister_accepted Demo.trim "carol_01 " "secret1" "secret1"
           _ eq_refl).
Defined.

(** X22. From form to form: when the registration form has sent what was
    typed and the server has created the account, typing the same user name
    and password into the login form logs in, as the same user; the login
    form trims the user name as the registration form did. *)
Theorem forms_register_then_login :
  forall (hashPassword : string -> string) (btoa : string -> string)
         (trim : string -> string) (created : string) (now now' : Z)
         (st st' : Store) (username password confirmPassword : string)
         (body : RegisterBody.t) (data : AuthResponse.t),
    handleRegister trim username password confirmPassword = Some body ->
    register hashPassword btoa created now st body = (Json 201 data, st') ->
    exists sent data',
      handleLogin trim username password = Some sent
      /\ login hashPassword btoa now' (tables st') sent = Json 200 data'
      /\ AuthResponse.user data' = AuthResponse.user data.
Proof.
  intros hashPassword btoa trim created now now' st st' username password
         confirm body data Hform E.
  assert (Hsent : handleLogin trim username password
                  = Some (LoginBody.mk (Some (trim username)) (Some password))).
  { unfold handleRegister in Hform. unfold handleLogin.
    destruct (trim username =? "")%string; [discriminate|].
    destruct (String.length (trim username) <? 3)%nat; [discriminate|].
    destruct (negb (word_regex (trim username))); [discriminate|].
    destruct (password =? "")%string; [discriminate|]. reflexivity. }
  destruct (registerSchema body) as [v|] eqn:Hv;
    [|unfold register in E; rewrite Hv in E; discriminate].
  assert (Hv' : v = Credentials.mk (trim username) password).
  { unfold handleRegister in Hform.
    destruct (trim username =? "")%string; [discriminate|].
    destruct (String.length (trim username) <? 3)%nat; [discriminate|].
    destruct (negb (word_regex (trim username))); [discriminate|].
    destruct (password =? "")%string; [discriminate|].
    destruct (String.length password <? 6)%nat; [discriminate|].
    destruct (negb (password =? confirm)%string); [discriminate|].
    injection Hform as <-. unfold registerSchema in Hv.
    cbn [RegisterBody.username RegisterBody.password
         RegisterBody.confirm_password] in Hv.
    destruct (_ && _); [|discriminate]. injection Hv as <-. reflexivity. }
  destruct (login_created hashPassword btoa created now now' st st' body v
              data Hv E) as [data' [Hlogin Huser]].
  subst v. cbn [Credentials.username Credentials.password] in Hlogin.
  exists (LoginBody.mk (Some (trim username)) (Some password)), data'.
  split; [exact Hsent|]. split; [exact Hlogin|exact Huser].
Qed.

(** Carol types a blank after her name on both screens. *)
Lemma forms_register_then_login_witness :
  exists sent data',
    handleLogin Demo.trim "carol_01 " "secret1" = Some sent
    /\ login Demo.hashPassword Base64.btoa 1700000000999
         (tables
            (snd (register Demo.hashPassword Base64.btoa "2024-03-01 09:00:00"
                    1700000000000 Demo.fresh Demo.carol)))
         sent
       = Json 200 data'
    /\ AuthResponse.user data' = Identity.mk 3 "carol_01".
Proof.
  exact (forms_register_then_login Demo.hashPassword Base64.btoa Demo.trim
           "2024-03-01 09:00:00" 1700000000000 1700000000999 Demo.fresh _
           "carol_01 " "secret1" "secret1" _ _ eq_refl eq_refl).
Defined.

(** X23. Which screen the app opens with.  After a start it goes to the
    tabs exactly when the storage holds a non-empty token and a non-empty
    user text, and to the login screen otherwise; whether the user text can
    be parsed plays no part, so a stored user that is not valid JSON leads
    to the tabs with no user loaded and the token in use. *)
Theorem startup_route :
  forall (parse : string -> option Identity.t) (s : Client.storage),
    (launch parse s = "/(tabs)"
     <-> exists token text,
           Client.getItem Client.TOKEN_KEY s = Some token /\ token <> ""
           /\ Client.getItem Client.USER_KEY s = Some text /\ text <> "")
    /\ (launch parse s = "/(tabs)" \/ launch parse s = "/login")
    /\ (forall token text,
          Client.getItem Client.TOKEN_KEY s = Some token -> token <> "" ->
          Client.getItem Client.USER_KEY s = Some text -> text <> "" ->
          parse text = None ->
          fst (Client.initAuth parse (Client.mkSession None s)) = None
          /\ Client.authorization (checkAuth parse (Client.mkSession None s))
             = Some ("Bearer " ++ token)%string).
Proof.
  intros parse s. unfold launch, checkAuth, IndexScreen, Client.initAuth.
  cbn [Client.stored].
  assert (Htruthy : forall v, truthy (Some v) = true <-> v <> "").
  { intros v. unfold truthy. rewrite negb_true_iff. apply String.eqb_neq. }
  split; [|split].
  - destruct (Client.getItem Client.TOKEN_KEY s) as [t|];
      [destruct (Client.getItem Client.USER_KEY s) as [u|]|].
    + destruct (truthy (Some t)) eqn:Et; cbn [andb].
      * destruct (truthy (Some u)) eqn:Eu.
        -- assert (Hroute : forall o : option Identity.t,
                     (if truthy
                           (Client.getToken
                              (snd match o with
                                   | Some user =>
                                       (Some user, Client.mkSession (Some t) s)
                                   | None => (None, Client.mkSession (Some t) s)
                                   end))
                      then "/(tabs)" else "/login") = "/(tabs)").
           { intros [o|]; cbn [snd Client.getToken Client.authToken];
               rewrite Et; reflexivity. }
           rewrite Hroute. split; [|reflexivity]. intros _.
           exists t, u. apply Htruthy in Et, Eu. auto.
        -- cbn [snd Client.getToken Client.authToken truthy].
           split; [discriminate|]. intros [t' [u' [_ [_ [Hu Hne]]]]].
           injection Hu as <-. apply Htruthy in Hne. congruence.
      * cbn [snd Client.getToken Client.authToken truthy].
        split; [discriminate|]. intros [t' [u' [Ht [Hne _]]]].
        injection Ht as <-. apply Htruthy in Hne. congruence.
    + cbn [snd Client.getToken Client.authToken truthy].
      split; [discriminate|]. intros [t' [u' [_ [_ [Hu _]]]]]. discriminate.
    + cbn [snd Client.getToken Client.authToken truthy].
      split; [discriminate|]. intros [t' [u' [Ht _]]]. discriminate.
  - destruct (truthy _); auto.
  - intros token text Ht Hne Hu Hne' Hbad. rewrite Ht, Hu.
    apply Htruthy in Hne, Hne'. rewrite Hne, Hne'. cbn [andb].
    rewrite Hbad. cbn [fst snd]. split; [reflexivity|].
    unfold Client.authorization. cbn [Client.authToken]. rewrite Hne.
    reflexivity.
Qed.

(** ** The monthly trend of the statistics screen *)

Section FromSet.

Context {K : Type} `{EqDec K}.

Lemma from_set_In (xs : list K) (x : K) : In x (from_set xs) <-> In x xs.
Proof.
  induction xs as [|y xs IH]; [reflexivity|].
  cbn [from_set In]. rewrite filter_In, IH, negb_true_iff, eqb_false_iff.
  destruct (eq_dec y x) as [E|E]; [tauto|].
  split; [tauto|]. intros [E'|Hx]; [tauto|]. right. split; [exact Hx|congruence].
Qed.

Lemma from_set_NoDup (xs : list K) : NoDup (from_set xs).
Proof.
  induction xs as [|y xs IH]; cbn [from_set]; constructor.
  - rewrite filter_In, negb_true_iff, eqb_false_iff. tauto.
  - apply NoDup_filter. exact IH.
Qed.

End FromSet.

Lemma filter_sorted {A : Type} (R : A -> A -> Prop) (p : A -> bool)
    (l : list A) :
  StronglySorted R l -> StronglySorted R (filter p l).
Proof.
  induction 1 as [|x l Hs IH Hx]; cbn [filter]; [constructor|].
  destruct (p x); [|exact IH]. constructor; [exact IH|].
  rewrite Forall_forall in *. intros y Hy. apply filter_In in Hy.
  apply Hx. tauto.
Qed.

(** In a sorted list, whatever stands in a front part is related to
    whatever stands behind it. *)
Lemma sorted_across {A : Type} (R : A -> A -> Prop) (l l' : list A)
    (a b : A) :
  StronglySorted R (l ++ l') -> In a l -> In b l' -> R a b.
Proof.
  induction l as [|x l IH]; cbn [app]; intros Hs Ha Hb; [destruct Ha|].
  apply StronglySorted_inv in Hs. destruct Hs as [Hs Hx].
  destruct Ha as [<-|Ha]; [|exact (IH Hs Ha Hb)].
  rewrite Forall_forall in Hx. apply Hx. apply in_or_app. right. exact Hb.
Qed.

Lemma text_le_antisym (a b : string) :
  Sql.text_le a b = true -> Sql.text_le b a = true -> a = b.
Proof.
  unfold Sql.text_le, String.leb. rewrite (String.compare_antisym a b).
  destruct (String.compare b a) eqn:E; cbn [CompOpp]; try discriminate.
  intros _ _. symmetry. apply String.compare_eq_iff. exact E.
Qed.

Lemma null_text_le_antisym (a b : option string) :
  Sql.null_text_le a b = true -> Sql.null_text_le b a = true -> a = b.
Proof.
  destruct a as [a|], b as [b|]; cbn [Sql.null_text_le]; try discriminate;
    [|reflexivity].
  intros Hab Hba. f_equal. exact (text_le_antisym a b Hab Hba).
Qed.

(** The distinct values of a list in descending order descend strictly. *)
Lemma from_set_descends (months : list (option string)) :
  StronglySorted (fun a b => Sql.null_text_le b a = true) months ->
  StronglySorted later_month (from_set months).
Proof.
  induction 1 as [|m months Hs IH Hm]; cbn [from_set]; constructor.
  - apply filter_sorted. exact IH.
  - rewrite Forall_forall in *. intros y Hy. apply filter_In in Hy.
    destruct Hy as [Hy Hne]. apply (proj1 (from_set_In _ _)) in Hy.
    apply negb_true_iff, eqb_false_iff in Hne.
    split; [exact (Hm y Hy)|congruence].
Qed.

Lemma types_at_most_two (l : list ttype) :
  NoDup l -> (List.length l <= 2)%nat.
Proof.
  intros Hnd. destruct l as [|a [|b [|c l]]]; cbn [List.length]; try lia.
  exfalso. apply NoDup_cons_iff in Hnd. destruct Hnd as [Ha Hnd].
  apply NoDup_cons_iff in Hnd. destruct Hnd as [Hb _].
  cbn [In] in Ha, Hb. destruct a, b, c; tauto.
Qed.

Lemma filter_keeps_distinct {A B : Type} (f : A -> B) (keep : A -> bool)
    (rows : list A) :
  NoDup (map f rows) -> NoDup (map f (filter keep rows)).
Proof.
  induction rows as [|r rows IH]; cbn [map filter]; intros Hnd; [constructor|].
  apply NoDup_cons_iff in Hnd. destruct Hnd as [Hr Hnd].
  destruct (keep r); [|exact (IH Hnd)].
  cbn [map]. constructor; [|exact (IH Hnd)].
  intros Hin. apply Hr. apply in_map_iff in Hin.
  destruct Hin as [r' [E Hr']]. apply filter_In in Hr'.
  apply in_map_iff. exists r'. tauto.
Qed.

Lemma sum_ones {A : Type} (l : list A) :
  Sql.sum (fun _ => 1) l = Z.of_nat (List.length l).
Proof.
  induction l as [|x l IH]; [reflexivity|].
  rewrite sum_cons, IH. cbn [List.length]. lia.
Qed.

Lemma sum_bounded {A : Type} (f : A -> Z) (c : Z) (l : list A) :
  (forall x, In x l -> f x <= c) ->
  Sql.sum f l <= c * Z.of_nat (List.length l).
Proof.
  induction l as [|x l IH]; intros Hf; [cbn; lia|].
  rewrite sum_cons. cbn [List.length].
  pose proof (Hf x (or_introl eq_refl)).
  assert (Sql.sum f l <= c * Z.of_nat (List.length l))
    by (apply IH; intros y Hy; apply Hf; right; exact Hy).
  lia.
Qed.

(** Rows with pairwise distinct (month, type) pairs: at most two for each
    month. *)
Lemma rows_per_month (rows : list Monthly.t) :
  NoDup (map (fun r => (Monthly.month r, Monthly.type r)) rows) ->
  (List.length rows
   <= 2 * List.length (from_set (map Monthly.month rows)))%nat.
Proof.
  intros Hnd.
  assert (Hsum : Sql.sum (fun _ : Monthly.t => 1) rows
                 <= 2 * Z.of_nat
                          (List.length (from_set (map Monthly.month rows)))).
  { rewrite <- (sum_by_key Monthly.month (fun _ => 1)
                  (from_set (map Monthly.month rows)) rows).
    - apply sum_bounded. intros m _. rewrite sum_ones.
      assert (Hty : NoDup (map Monthly.type
                             (Sql.with_key Monthly.month m rows))).
      { apply (NoDup_map_inv (pair m)). rewrite map_map.
        rewrite (map_ext_in _ (fun r => (Monthly.month r, Monthly.type r))).
        - apply filter_keeps_distinct. exact Hnd.
        - intros r Hr. apply filter_In in Hr. destruct Hr as [_ Hr].
          apply eqb_true_iff in Hr. rewrite Hr. reflexivity. }
      apply types_at_most_two in Hty. rewrite length_map in Hty. lia.
    - apply from_set_NoDup.
    - intros r Hr. apply from_set_In. apply in_map. exact Hr. }
  rewrite sum_ones in Hsum. lia.
Qed.

Section TrendFacts.

Variable strftime_Ym : string -> option string.
Variables (db : DB) (uid : Z).

Lemma monthly_query_all :
  monthly_query strftime_Ym db uid = firstn 24 (monthly_all strftime_Ym db uid).
Proof. reflexivity. Qed.

Lemma monthly_all_rows (r : Monthly.t) :
  In r (monthly_all strftime_Ym db uid) ->
  in_month strftime_Ym db uid (Monthly.month r) (Monthly.type r) <> []
  /\ Monthly.total r
     = Sql.sum Transaction.amount
         (in_month strftime_Ym db uid (Monthly.month r) (Monthly.type r)).
Proof.
  unfold monthly_all, in_month. intros Hr.
  apply order_by_In, in_map_iff in Hr. destruct Hr as [[[m ty] g] [<- Hg]].
  apply group_by_In in Hg.
  cbn [fst snd Monthly.month Monthly.type Monthly.total] in *.
  destruct Hg as [Hk ->]. split; [|reflexivity].
  apply in_map_iff in Hk. destruct Hk as [t [E Ht]]. intros Hnil.
  assert (Hin : In t (Sql.with_key
                        (fun t => (strftime_Ym (Transaction.date t),
                                   Transaction.type t))
                        (m, ty) (own uid db))).
  { apply filter_In. split; [exact Ht|]. apply eqb_true_iff. exact E. }
  rewrite Hnil in Hin. destruct Hin.
Qed.

Lemma monthly_all_distinct :
  NoDup (map (fun r => (Monthly.month r, Monthly.type r))
           (monthly_all strftime_Ym db uid)).
Proof.
  unfold monthly_all.
  apply (Permutation_NoDup
           (Permutation_map _ (Permutation_sym (order_by_perm _ _)))).
  rewrite map_map. cbn [Monthly.month Monthly.type].
  rewrite (map_ext _ fst) by (intros [[m ty] g]; reflexivity).
  apply group_by_NoDup.
Qed.

Lemma monthly_all_sorted :
  StronglySorted
    (fun x y => Sql.null_text_le (Monthly.month y) (Monthly.month x) = true)
    (monthly_all strftime_Ym db uid).
Proof.
  unfold monthly_all. apply order_by_sorted.
  - intros x y. apply null_text_le_total.
  - intros x y z Hxy Hyz. exact (null_text_le_trans _ _ _ Hyz Hxy).
Qed.

Lemma monthly_all_covers (t : Transaction.t) :
  In t (own uid db) ->
  exists r, In r (monthly_all strftime_Ym db uid)
            /\ Monthly.month r = strftime_Ym (Transaction.date t)
            /\ Monthly.type r = Transaction.type t.
Proof.
  intros Ht. unfold monthly_all.
  set (key := fun t => (strftime_Ym (Transaction.date t), Transaction.type t)).
  exists (Monthly.mk (strftime_Ym (Transaction.date t)) (Transaction.type t)
            (Sql.sum Transaction.amount (Sql.with_key key (key t) (own uid db)))
            (Sql.count (Sql.with_key key (key t) (own uid db)))).
  split; [|split; reflexivity].
  apply order_by_In, in_map_iff.
  exists (key t, Sql.with_key key (key t) (own uid db)).
  split; [reflexivity|]. apply group_by_In. cbn [fst snd].
  split; [|reflexivity]. apply (in_map key). exact Ht.
Qed.

(** The months of the rows that the server sends, in descending order. *)
Lemma sent_months_sorted :
  StronglySorted (fun a b => Sql.null_text_le b a = true)
    (map Monthly.month (monthly_query strftime_Ym db uid)).
Proof.
  rewrite monthly_query_all.
  apply (sorted_map
           (fun x y => Sql.null_text_le (Monthly.month y) (Monthly.month x)
                       = true)).
  - auto.
  - apply (StronglySorted_app_l _ _ (skipn 24 (monthly_all strftime_Ym db uid))).
    rewrite firstn_skipn. apply monthly_all_sorted.
Qed.

(** When [LIMIT 24] has cut rows off, there are more than six months
    among the rows sent. *)
Lemma cut_means_many_months :
  skipn 24 (monthly_all strftime_Ym db uid) <> [] ->
  (12 <= List.length
           (from_set (map Monthly.month (monthly_query strftime_Ym db uid))))%nat.
Proof.
  intros Hcut.
  assert (Hlen : List.length (monthly_query strftime_Ym db uid) = 24%nat).
  { rewrite monthly_query_all, length_firstn.
    assert (List.length (skipn 24 (monthly_all strftime_Ym db uid)) <> 0)%nat
      by (destruct (skipn 24 _); [congruence|discriminate]).
    rewrite length_skipn in H. lia. }
  pose proof (rows_per_month (monthly_query strftime_Ym db uid)) as Hper.
  rewrite Hlen in Hper.
  assert (Hnd : NoDup (map (fun r => (Monthly.month r, Monthly.type r))
                         (monthly_query strftime_Ym db uid))).
  { rewrite monthly_query_all.
    apply (NoDup_app_remove_r _
             (map (fun r => (Monthly.month r, Monthly.type r))
                (skipn 24 (monthly_all strftime_Ym db uid)))).
    rewrite <- map_app, firstn_skipn. apply monthly_all_distinct. }
  specialize (Hper Hnd). lia.
Qed.

(** A row of a month that is among the first six months sent has not been
    cut off by [LIMIT 24]. *)
Lemma shown_month_complete (m : option string) (r : Monthly.t) :
  In m (firstn 6
          (from_set (map Monthly.month (monthly_query strftime_Ym db uid)))) ->
  In r (monthly_all strftime_Ym db uid) ->
  Monthly.month r = m ->
  In r (monthly_query strftime_Ym db uid).
Proof.
  intros Hm Hr Hmonth.
  set (sent := monthly_query strftime_Ym db uid) in *.
  set (months := from_set (map Monthly.month sent)) in *.
  rewrite <- (firstn_skipn 24 (monthly_all strftime_Ym db uid)) in Hr.
  apply in_app_or in Hr. destruct Hr as [Hr|Hr]; [exact Hr|]. exfalso.
  assert (Hmany : (12 <= List.length months)%nat).
  { apply cut_means_many_months. intros Hnil. rewrite Hnil in Hr. destruct Hr. }
  assert (Hlow : forall x, In x months -> Sql.null_text_le m x = true).
  { intros x Hx. apply (proj1 (from_set_In _ _)) in Hx.
    apply in_map_iff in Hx. destruct Hx as [r' [<- Hr']]. rewrite <- Hmonth.
    apply (sorted_across
             (fun x y => Sql.null_text_le (Monthly.month y) (Monthly.month x)
                         = true)
             (firstn 24 (monthly_all strftime_Ym db uid))
             (skipn 24 (monthly_all strftime_Ym db uid)) r' r).
    - rewrite firstn_skipn. apply monthly_all_sorted.
    - exact Hr'.
    - exact Hr. }
  destruct (skipn 6 months) as [|x rest] eqn:Erest.
  - assert (List.length (skipn 6 months) = 0%nat) by (rewrite Erest; reflexivity).
    rewrite length_skipn in H. lia.
  - assert (Hx : In x (skipn 6 months)) by (rewrite Erest; left; reflexivity).
    assert (Hsorted : StronglySorted later_month
                        (firstn 6 months ++ skipn 6 months)).
    { rewrite firstn_skipn. apply from_set_descends, sent_months_sorted. }
    destruct (sorted_across _ _ _ m x Hsorted Hm Hx) as [Hle Hne].
    apply Hne. apply null_text_le_antisym; [|exact Hle].
    apply Hlow. rewrite <- (firstn_skipn 6 months). apply in_or_app. right.
    exact Hx.
Qed.

End TrendFacts.

Lemma trend_months (rows : list Monthly.t) :
  map Trend.month (monthly_trend rows)
  = firstn 6 (from_set (map Monthly.month rows)).
Proof.
  unfold monthly_trend. rewrite map_map. cbn [Trend.month]. apply map_id.
Qed.

Lemma in_firstn {A : Type} (n : nat) (l : list A) (x : A) :
  In x (firstn n l) -> In x l.
Proof.
  intros Hx. rewrite <- (firstn_skipn n l). apply in_or_app. left. exact Hx.
Qed.

(** A figure of the trend is the sum over the month, also when the month
    has no row of that type. *)
Lemma trend_figure (strftime_Ym : string -> option string) (db : DB)
    (uid : Z) (m : option string) (ty : ttype) :
  In m (firstn 6
          (from_set (map Monthly.month (monthly_query strftime_Ym db uid)))) ->
  total_or_zero (find_month m ty (monthly_query strftime_Ym db uid))
  = Sql.sum Transaction.amount (in_month strftime_Ym db uid m ty).
Proof.
  intros Hm. unfold find_month.
  destruct (find _ (monthly_query strftime_Ym db uid)) as [r|] eqn:E;
    cbn [total_or_zero].
  - apply find_some in E. destruct E as [Hr Hp].
    apply andb_true_iff in Hp. destruct Hp as [H1 H2].
    apply eqb_true_iff in H1, H2.
    rewrite monthly_query_all in Hr. apply in_firstn in Hr.
    destruct (monthly_all_rows strftime_Ym db uid r Hr) as [_ Ht].
    rewrite Ht, H1, H2. reflexivity.
  - destruct (in_month strftime_Ym db uid m ty) as [|t l] eqn:El;
      [reflexivity|].
    exfalso.
    assert (Ht : In t (in_month strftime_Ym db uid m ty))
      by (rewrite El; left; reflexivity).
    apply filter_In in Ht. destruct Ht as [Ht Hk].
    apply eqb_true_iff in Hk. injection Hk as Hk1 Hk2.
    destruct (monthly_all_covers strftime_Ym db uid t Ht) as [r [Hr [H1 H2]]].
    rewrite Hk1 in H1. rewrite Hk2 in H2.
    pose proof (shown_month_complete strftime_Ym db uid m r Hm Hr H1) as Hsent.
    pose proof (find_none _ _ E r Hsent) as Hp. cbn beta in Hp.
    rewrite H1, H2, !eqb_refl in Hp. discriminate.
Qed.

(** X24. The monthly trend of the statistics screen, computed from what
    GET /api/stats/monthly sends: it has at most six lines, for distinct
    months, the latest first; each line is a month in which the user has a
    transaction and shows the sum of all the user's income and of all the
    user's expenses of that month (0 when there is none), the server's
    limit of 24 rows notwithstanding; and the months shown are the latest
    ones: a month of the user that is not shown lies before each of the six
    that are. *)
Theorem monthly_trend_exact :
  forall (strftime_Ym : string -> option string) (db : DB) (user : Identity.t),
    exists rows,
      get_stats_monthly strftime_Ym db (Some user) = Json 200 rows
      /\ (List.length (monthly_trend rows) <= 6)%nat
      /\ StronglySorted
           (fun x y => later_month (Trend.month x) (Trend.month y))
           (monthly_trend rows)
      /\ (forall e, In e (monthly_trend rows) ->
            (exists t, In t (own (Identity.id user) db)
                       /\ strftime_Ym (Transaction.date t) = Trend.month e)
            /\ Trend.income e
               = Sql.sum Transaction.amount
                   (in_month strftime_Ym db (Identity.id user)
                      (Trend.month e) income)
            /\ Trend.expense e
               = Sql.sum Transaction.amount
                   (in_month strftime_Ym db (Identity.id user)
                      (Trend.month e) expense))
      /\ (forall t, In t (own (Identity.id user) db) ->
            In (strftime_Ym (Transaction.date t))
              (map Trend.month (monthly_trend rows))
            \/ (List.length (monthly_trend rows) = 6%nat
                /\ forall e, In e (monthly_trend rows) ->
                     later_month (Trend.month e)
                       (strftime_Ym (Transaction.date t)))).
Proof.
  intros strftime_Ym db user. eexists. split; [reflexivity|].
  set (uid := Identity.id user).
  set (sent := monthly_query strftime_Ym db uid).
  set (months := from_set (map Monthly.month sent)).
  assert (Hdesc : StronglySorted later_month
                    (firstn 6 months ++ skipn 6 months)).
  { rewrite firstn_skipn. apply from_set_descends, sent_months_sorted. }
  assert (Hlen : List.length (monthly_trend sent)
                 = List.length (firstn 6 months)).
  { unfold monthly_trend. apply length_map. }
  split; [|split; [|split]].
  - rewrite Hlen. apply firstn_le_length.
  - unfold monthly_trend. fold months.
    apply (sorted_map later_month); [auto|].
    exact (StronglySorted_app_l _ _ _ Hdesc).
  - intros e He. unfold monthly_trend in He. fold months in He.
    apply in_map_iff in He. destruct He as [m [<- Hm]].
    cbn [Trend.month Trend.income Trend.expense].
    split; [|split; apply trend_figure; exact Hm].
    pose proof (in_firstn _ _ _ Hm) as Hin.
    apply (proj1 (from_set_In _ _)), in_map_iff in Hin.
    destruct Hin as [r [Hmonth Hr]]. unfold sent in Hr.
    rewrite monthly_query_all in Hr. apply in_firstn in Hr.
    destruct (monthly_all_rows strftime_Ym db uid r Hr) as [Hne _].
    destruct (in_month strftime_Ym db uid (Monthly.month r) (Monthly.type r))
      as [|t l] eqn:El; [congruence|].
    assert (Ht : In t (in_month strftime_Ym db uid (Monthly.month r)
                         (Monthly.type r))) by (rewrite El; left; reflexivity).
    apply filter_In in Ht. destruct Ht as [Ht Hk].
    apply eqb_true_iff in Hk. injection Hk as Hk _.
    exists t. split; [exact Ht|congruence].
  - intros t Ht. rewrite trend_months. fold sent. fold months.
    destruct (in_dec eq_dec (strftime_Ym (Transaction.date t))
                (firstn 6 months)) as [Hshown|Hnot]; [left; exact Hshown|].
    right.
    destruct (monthly_all_covers strftime_Ym db uid t Ht) as [r [Hr [Hmonth _]]].
    rewrite <- (firstn_skipn 24 (monthly_all strftime_Ym db uid)) in Hr.
    apply in_app_or in Hr.
    assert (Hshown : forall e, In e (monthly_trend sent) ->
              In (Trend.month e) (firstn 6 months)).
    { intros e He. unfold months. rewrite <- trend_months. apply in_map.
      exact He. }
    destruct Hr as [Hr|Hr].
    + assert (Hm : In (strftime_Ym (Transaction.date t)) (skipn 6 months)).
      { assert (Hin : In (strftime_Ym (Transaction.date t)) months).
        { apply from_set_In. rewrite <- Hmonth. apply in_map. exact Hr. }
        rewrite <- (firstn_skipn 6 months) in Hin. apply in_app_or in Hin.
        tauto. }
      split.
      * rewrite Hlen, length_firstn.
        assert (List.length (skipn 6 months) <> 0)%nat
          by (destruct (skipn 6 months); [destruct Hm|discriminate]).
        rewrite length_skipn in H. lia.
      * intros e He.
        exact (sorted_across _ _ _ _ _ Hdesc (Hshown e He) Hm).
    + assert (Hmany : (12 <= List.length months)%nat).
      { apply cut_means_many_months. intros Hnil. rewrite Hnil in Hr.
        destruct Hr. }
      split; [rewrite Hlen, length_firstn; lia|].
      intros e He. specialize (Hshown e He). split.
      * pose proof (in_firstn _ _ _ Hshown) as Hin.
        apply (proj1 (from_set_In _ _)), in_map_iff in Hin.
        destruct Hin as [r' [<- Hr']]. rewrite <- Hmonth.
        apply (sorted_across
                 (fun x y => Sql.null_text_le (Monthly.month y)
                               (Monthly.month x) = true)
                 (firstn 24 (monthly_all strftime_Ym db uid))
                 (skipn 24 (monthly_all strftime_Ym db uid)) r' r).
        -- rewrite firstn_skipn. apply monthly_all_sorted.
        -- exact Hr'.
        -- exact Hr.
      * intros E. apply Hnot. rewrite <- E. exact Hshown.
Qed.

(** The trend of the sample ledger. *)
Example trend_on_ledger :
  monthly_trend
    [ Monthly.mk (Some "2024-03") income 5000 1;
      Monthly.mk (Some "2024-03") expense 100 3;
      Monthly.mk (Some "2024-02") expense 10 1 ]
  = [ Trend.mk (Some "2024-03") 5000 100; Trend.mk (Some "2024-02") 0 10 ].
Proof. reflexivity. Qed.

(** ** Login opens a session *)

(** X25. The token issued at login is accepted: while the accounts are
    well formed, once the client has saved the reply to a successful login,
    the Authorization header of its next request resolves, on the server,
    to the user that logged in. *)
Theorem login_session_round_trip :
  forall (hashPassword : string -> string) (btoa : string -> string)
         (atob : string -> option string) (parseInt : string -> option Z)
         (stringify : Identity.t -> string)
         (now : Z) (db : DB) (body : LoginBody.t) (data : AuthResponse.t)
         (c : Client.session),
    accounts_ok db ->
    login hashPassword btoa now db body = Json 200 data ->
    AuthResponse.token data <> "" ->
    atob (AuthResponse.token data)
    = Some (credential (Identity.id (AuthResponse.user data))
              (Identity.username (AuthResponse.user data)) now) ->
    parseInt (number_text (Identity.id (AuthResponse.user data)))
    = Some (Identity.id (AuthResponse.user data)) ->
    authMiddleware atob parseInt db
      (Client.authorization (Client.signed_in stringify (Json 200 data) c))
    = Return (Some (AuthResponse.user data)).
Proof.
  intros hashPassword btoa atob parseInt stringify now db body data c
         [_ [_ Hwords]] E Htoken Hatob Hparse.
  unfold login in E. destruct (loginSchema body) as [v|]; [|discriminate].
  cbv zeta in E. unfold Sql.first, Sql.where_ in E.
  destruct (filter _ (users db)) as [|u l] eqn:Ef; [discriminate|].
  cbn [hd_error] in E. injection E as <-.
  cbn [AuthResponse.user AuthResponse.token Identity.id Identity.username] in *.
  assert (Hu : In u (users db)).
  { assert (Hin : In u (u :: l)) by (left; reflexivity).
    rewrite <- Ef in Hin. apply filter_In in Hin. tauto. }
  unfold Client.signed_in. change (Client.ok 200) with true. cbv iota.
  unfold Client.authorization, Client.saveAuth. cbn [Client.authToken].
  unfold truthy. cbn [AuthResponse.token AuthResponse.user].
  apply String.eqb_neq in Htoken. rewrite Htoken. cbn [negb].
  rewrite bearer_token.
  rewrite (resolve_token_stored atob parseInt db u now); [reflexivity| | | |].
  - exact Hu.
  - apply word_no_colon. rewrite Forall_forall in Hwords. apply Hwords, Hu.
  - exact Hatob.
  - exact Hparse.
Qed.

Lemma carol_registered_ok :
  accounts_ok
    (tables (snd (register Demo.hashPassword Base64.btoa "2024-03-01 09:00:00"
                    1700000000000 Demo.fresh Demo.carol))).
Proof.
  unfold accounts_ok. cbn.
  repeat split; repeat (constructor; [cbn [In]; intuition discriminate|]);
    repeat constructor.
Qed.

(** Carol logs in a second later on another device. *)
Lemma login_session_round_trip_witness :
  exists data,
    login Demo.hashPassword Base64.btoa 1700000001000
      (tables (snd (register Demo.hashPassword Base64.btoa
                      "2024-03-01 09:00:00" 1700000000000 Demo.fresh
                      Demo.carol)))
      (LoginBody.mk (Some "carol_01") (Some "secret1"))
    = Json 200 data
    /\ authMiddleware Builtins.atob Builtins.parseInt
         (tables (snd (register Demo.hashPassword Base64.btoa
                         "2024-03-01 09:00:00" 1700000000000 Demo.fresh
                         Demo.carol)))
         (Client.authorization
            (Client.signed_in Demo.stringify (Json 200 data)
               (Client.mkSession None [])))
       = Return (Some (Identity.mk 3 "carol_01")).
Proof.
  eexists. split; [reflexivity|].
  apply (login_session_round_trip Demo.hashPassword Base64.btoa Builtins.atob
           Builtins.parseInt Demo.stringify 1700000001000 _
           (LoginBody.mk (Some "carol_01") (Some "secret1"))).
  - exact carol_registered_ok.
  - reflexivity.
  - discriminate.
  - reflexivity.
  - reflexivity.
Defined.

(** ** Ids are not given out twice *)

Lemma next_rowid_above_seq (db : DB) : transactions_seq db < next_rowid db.
Proof.
  unfold next_rowid.
  destruct (max_fold_ge (transactions_seq db)
              (map Transaction.id (transactions db))) as [H _].
  lia.
Qed.

Lemma handle_seq (db : DB) (r : request) :
  transactions_seq db <= transactions_seq (handle db r).
Proof.
  destruct r as [now user body|user id body|user id]; cbn [handle].
  - unfold post_transaction.
    destruct (createTransactionSchema body); [|cbn; lia].
    destruct user; cbn [requireAuth snd transactions_seq]; [|lia].
    pose proof (next_rowid_above_seq db). lia.
  - unfold put_transaction.
    destruct (createTransactionSchema_partial body); [|cbn; lia].
    destruct user; cbn [requireAuth snd]; [|lia].
    destruct (List.length _ =? 0)%nat; cbn; lia.
  - unfold delete_transaction. destruct user; cbn; lia.
Qed.

Lemma history_seq (rs : list request) (db : DB) :
  transactions_seq db <= transactions_seq (history db rs).
Proof.
  revert db. induction rs as [|r rs IH]; intros db; [cbn; lia|].
  cbn [history fold_left]. specialize (IH (handle db r)).
  unfold history in IH. pose proof (handle_seq db r). lia.
Qed.

(** X26. The id of a transaction is never given out again: whatever is
    posted, updated or deleted afterwards, by whichever user, a transaction
    created later has a larger id, also when the first one has been deleted
    in between (the table is AUTOINCREMENT). *)
Theorem ids_not_reused :
  forall (now now' : string) (db db1 db3 : DB) (user user' : option Identity.t)
         (body body' : Body.t) (t t' : Transaction.t) (rs : list request),
    post_transaction now db user body = (Json 201 t, db1) ->
    post_transaction now' (history db1 rs) user' body' = (Json 201 t', db3) ->
    Transaction.id t < Transaction.id t'.
Proof.
  intros now now' db db1 db3 user user' body body' t t' rs E E'.
  assert (Hposted : forall n d u b x d',
            post_transaction n d u b = (Json 201 x, d') ->
            Transaction.id x = next_rowid d /\ transactions_seq d' = next_rowid d).
  { intros n d u b x d' H. unfold post_transaction in H.
    destruct (createTransactionSchema b); [|discriminate].
    destruct u; cbn [requireAuth] in H; [|discriminate].
    injection H as <- <-. split; reflexivity. }
  destruct (Hposted _ _ _ _ _ _ E) as [Hid Hseq].
  destruct (Hposted _ _ _ _ _ _ E') as [Hid' _].
  pose proof (history_seq rs db1). pose proof (next_rowid_above_seq (history db1 rs)).
  lia.
Qed.

(** Bob's lunch gets id 7; alice deletes one of hers, bob deletes his lunch
    and notes another: id 8. *)
Lemma ids_not_reused_witness :
  exists t t' db1 db3,
    post_transaction "2024-03-31 10:00:00" Sample.ledger (Some Sample.bob)
      (Body.mk (Some 12) (Some "expense") (Some 5) None (Some "2024-03-30"))
    = (Json 201 t, db1)
    /\ post_transaction "2024-03-31 11:00:00"
         (history db1 [Delete (Some Sample.alice) 2; Delete (Some Sample.bob) 7])
         (Some Sample.bob)
         (Body.mk (Some 15) (Some "expense") (Some 5) None (Some "2024-03-31"))
       = (Json 201 t', db3)
    /\ Transaction.id t < Transaction.id t'.
Proof.
  eexists. eexists. eexists. eexists. split; [reflexivity|].
  split; [reflexivity|].
  eapply (ids_not_reused "2024-03-31 10:00:00" "2024-03-31 11:00:00"
           Sample.ledger _ _ (Some Sample.bob) (Some Sample.bob)
           (Body.mk (Some 12) (Some "expense") (Some 5) None (Some "2024-03-30"))
           (Body.mk (Some 15) (Some "expense") (Some 5) None (Some "2024-03-31"))
           _ _ [Delete (Some Sample.alice) 2; Delete (Some Sample.bob) 7]);
    reflexivity.
Defined.

(** ** PUT /api/transactions/:id: what a successful update writes *)

Lemma parse_type_sound (s : string) (ty : ttype) :
  parse_type s = Some ty -> type_text ty = s.
Proof.
  unfold parse_type.
  destruct (String.eqb_spec s "income") as [->|_];
    [intros E; injection E as <-; reflexivity|].
  destruct (String.eqb_spec s "expense") as [->|_]; [|discriminate].
  intros E. injection E as <-. reflexivity.
Qed.

Lemma partial_schema_fields (body : Body.t) (u : Updates.t) :
  createTransactionSchema_partial body = Some u ->
  Updates.amount u = Body.amount body
  /\ option_map type_text (Updates.type u) = Body.type body
  /\ Updates.category_id u = Body.category_id body
  /\ Updates.note u = Body.note body
  /\ Updates.date u = Body.date body.
Proof.
  unfold createTransactionSchema_partial, optional, check.
  destruct (Body.amount body) as [a|]; [destruct (positive a)|];
    try discriminate;
    (destruct (Body.type body) as [s|];
     [destruct (parse_type s) as [ty|] eqn:Ety|]; try discriminate);
    (destruct (Body.category_id body) as [cid|];
     [destruct (positive cid)|]; try discriminate);
    (destruct (Body.note body));
    (destruct (Body.date body) as [d|]; [destruct (date_regex d)|];
     try discriminate);
    intros E; injection E as <-; cbn; repeat split;
    f_equal; apply parse_type_sound; exact Ety.
Qed.

Lemma set_fields (u : Updates.t) (t : Transaction.t) :
  let t' := fold_left assign (put_fields u) t in
  Transaction.amount t' = given (Updates.amount u) (Transaction.amount t)
  /\ Transaction.type t' = given (Updates.type u) (Transaction.type t)
  /\ Transaction.category_id t'
     = given (Updates.category_id u) (Transaction.category_id t)
  /\ Transaction.note t'
     = match Updates.note u with
       | Some n => or_null (Some n)
       | None => Transaction.note t
       end
  /\ Transaction.date t' = given (Updates.date u) (Transaction.date t)
  /\ Transaction.created_at t' = Transaction.created_at t.
Proof.
  destruct u as [a ty c n d], t. destruct a, ty, c, n, d; cbn;
    repeat split; reflexivity.
Qed.

(** X27. What a successful PUT writes, when transaction ids are unique:
    the answer is the one row with the given id, which belongs to the
    acting user, with every field that the body supplies replaced and every
    other field as it was; an empty note is stored as NULL; id, creation
    time and owner never change; and in the table exactly that row is
    replaced. *)
Theorem put_replaces_fields :
  forall (db db' : DB) (user : Identity.t) (id : Z) (body : Body.t)
         (t' : Transaction.t),
    unique_ids db ->
    put_transaction db (Some user) id body = (Json 200 t', db') ->
    exists t,
      In t (transactions db)
      /\ Transaction.id t = id
      /\ Transaction.user_id t = Some (Identity.id user)
      /\ Transaction.amount t'
         = given (Body.amount body) (Transaction.amount t)
      /\ type_text (Transaction.type t')
         = given (Body.type body) (type_text (Transaction.type t))
      /\ Transaction.category_id t'
         = given (Body.category_id body) (Transaction.category_id t)
      /\ Transaction.note t'
         = match Body.note body with
           | Some n => if (n =? "")%string then None else Some n
           | None => Transaction.note t
           end
      /\ Transaction.date t' = given (Body.date body) (Transaction.date t)
      /\ Transaction.id t' = id
      /\ Transaction.created_at t' = Transaction.created_at t
      /\ Transaction.user_id t' = Transaction.user_id t
      /\ transactions db'
         = map (fun x => if Transaction.id x =? id then t' else x)
             (transactions db).
Proof.
  intros db db' user id body t' Hnd E. unfold put_transaction in E.
  destruct (createTransactionSchema_partial body) as [u|] eqn:Hu;
    [|discriminate].
  cbn [requireAuth] in E.
  destruct (List.length (put_fields u) =? 0)%nat; [discriminate|].
  unfold sql_update, Sql.first, Sql.where_ in E.
  destruct (filter _ (transactions db)) as [|t l] eqn:Ef; [discriminate|].
  cbn [map hd_error] in E. injection E as <- <-.
  assert (Ht : In t (filter (id_and_owner id (Identity.id user))
                       (transactions db))) by (rewrite Ef; left; reflexivity).
  apply filter_In in Ht. destruct Ht as [Hin Hhit].
  pose proof Hhit as Hhit'. apply id_and_owner_spec in Hhit'.
  destruct Hhit' as [Hid Howner].
  destruct (partial_schema_fields body u Hu) as [Fa [Fty [Fc [Fn Fd]]]].
  destruct (set_fields u t) as [Sa [Sty [Sc [Sn [Sd Scr]]]]].
  exists t. rewrite <- Fa, <- Fty, <- Fc, <- Fn, <- Fd.
  split; [exact Hin|]. split; [exact Hid|]. split; [exact Howner|].
  split; [exact Sa|].
  split; [rewrite Sty; destruct (Updates.type u); reflexivity|].
  split; [exact Sc|]. split; [exact Sn|]. split; [exact Sd|].
  split; [rewrite set_id; exact Hid|]. split; [exact Scr|].
  split; [apply set_user_id|].
  - cbn [transactions set_transactions]. apply map_ext_in. intros x Hx.
    destruct (Z.eqb_spec (Transaction.id x) id) as [Ex|Ex].
    + assert (x = t)
        by (apply (NoDup_map_inj Transaction.id (transactions db));
            [exact Hnd|exact Hx|exact Hin|congruence]).
      subst x. rewrite Hhit. reflexivity.
    + destruct (id_and_owner id (Identity.id user) x) eqn:Eh; [|reflexivity].
      apply id_and_owner_spec in Eh. tauto.
Qed.

(** Alice moves her transaction 2 to another day and clears its note. *)
Lemma put_replaces_fields_witness :
  exists t,
    In t (transactions Sample.ledger)
    /\ Transaction.id t = 2
    /\ fst (put_transaction Sample.ledger (Some Sample.alice) 2
              (Body.mk None None None (Some "") (Some "2024-03-05")))
       = Json 200
           (Transaction.mk 2 (Transaction.amount t) (Transaction.type t)
              (Transaction.category_id t) None "2024-03-05"
              (Transaction.created_at t) (Transaction.user_id t)).
Proof.
  destruct (put_replaces_fields Sample.ledger _ Sample.alice 2
              (Body.mk None None None (Some "") (Some "2024-03-05")) _
              (proj1 ledger_valid) eq_refl)
    as [t [Hin [Hid _]]].
  exists t. split; [exact Hin|]. split; [exact Hid|].
  cbn [Sample.ledger transactions In] in Hin.
  repeat (destruct Hin as [<-|Hin]; [try discriminate Hid; reflexivity|]).
  destruct Hin.
Defined.

(** ** Statistics over nothing *)

(** X28. With nothing to count the statistics are empty, not an error:
    when no transaction of the user is selected by the range, the summary
    of GET /api/stats is 0 throughout and the by-category breakdown is
    empty; for a user without any transaction the daily breakdown, the
    monthly breakdown and the transaction list (for every query whose
    limit and offset can be bound) are empty as well. *)
Theorem stats_of_nothing :
  forall (strftime_Ym : string -> option string) (since : string) (db : DB)
         (user : Identity.t) (start_date end_date : option string),
    ((forall t, In t (transactions db) ->
        dateFilter (Identity.id user) start_date end_date t = false) ->
     exists daily,
       get_stats since db (Some user) start_date end_date
       = Json 200 (Stats.mk (Summary.mk 0 0 0 0 0) [] daily))
    /\ (own (Identity.id user) db = [] ->
        get_stats since db (Some user) start_date end_date
        = Json 200 (Stats.mk (Summary.mk 0 0 0 0 0) [] [])
        /\ get_stats_monthly strftime_Ym db (Some user) = Json 200 []
        /\ forall q, bindable q ->
                     get_transactions db (Some user) q = Json 200 []).
Proof.
  intros strftime_Ym since db user s e.
  assert (Hstats : (forall t, In t (transactions db) ->
                      dateFilter (Identity.id user) s e t = false) ->
            get_stats since db (Some user) s e
            = Json 200 (Stats.mk (Summary.mk 0 0 0 0 0) []
                          (daily_query since db (Identity.id user)))).
  { intros Hnone. unfold get_stats. cbn [requireAuth]. f_equal.
    assert (Htot : totals_query db (Identity.id user) s e = []).
    { unfold totals_query, Sql.where_.
      rewrite (proj2 (filter_nil_iff _ _) Hnone). reflexivity. }
    assert (Hcat : byCategory_query db (Identity.id user) s e = []).
    { unfold byCategory_query, Sql.where_.
      replace (filter _ (Sql.join on_category (transactions db) (categories db)))
        with (@nil (Transaction.t * Category.t)); [reflexivity|].
      symmetry. apply filter_nil_iff. intros [t c] Hj.
      apply join_In in Hj. cbn [fst]. apply Hnone. tauto. }
    rewrite Htot, Hcat. reflexivity. }
  split.
  - intros Hnone. eexists. exact (Hstats Hnone).
  - intros Hown.
    assert (Hnone : forall t, In t (transactions db) ->
              owned_by (Identity.id user) t = false).
    { apply filter_nil_iff. exact Hown. }
    split; [|split].
    + rewrite Hstats.
      * unfold daily_query, Sql.where_.
        replace (filter _ (transactions db)) with (@nil Transaction.t);
          [reflexivity|].
        symmetry. apply filter_nil_iff. intros t Ht.
        rewrite (Hnone t Ht). reflexivity.
      * intros t Ht. unfold dateFilter. rewrite (Hnone t Ht). reflexivity.
    + unfold get_stats_monthly, monthly_query. cbn [requireAuth].
      change (Sql.where_ (owned_by (Identity.id user)) (transactions db))
        with (own (Identity.id user) db).
      rewrite Hown. reflexivity.
    + intros q _. unfold get_transactions. cbn [requireAuth].
      replace (Sql.where_ _ (Sql.join on_category (transactions db)
                               (categories db)))
        with (@nil (Transaction.t * Category.t)).
      * unfold Sql.offset, Sql.limit. cbn [Sql.order_by fold_right].
        rewrite skipn_nil, firstn_nil. destruct (list_limit q <? 0); reflexivity.
      * symmetry. apply filter_nil_iff. intros [t c] Hj.
        apply join_In in Hj. destruct Hj as [Ht _].
        destruct (list_where (Identity.id user) q (t, c)) eqn:Ew; [|reflexivity].
        apply list_where_owned in Ew. cbn [fst] in Ew.
        rewrite (Hnone t Ht) in Ew. discriminate.
Qed.

(** ** What [getTransactions] leaves out of the query string *)

Lemma and_if_sent {A : Type} (v : option string) (cond : string -> A -> bool)
    (row : A) :
  and_if (Client.sent_text v) cond row = and_if v cond row.
Proof.
  unfold Client.sent_text, and_if. destruct v as [s|]; [|reflexivity].
  destruct (truthy (Some s)) eqn:E; [rewrite E|]; reflexivity.
Qed.

Lemma raw_query_spec (p : Client.ListParams.t) (q : ListQuery.t) :
  raw_query p = Some q ->
  ListQuery.type q = Client.ListParams.type p
  /\ ListQuery.start_date q = Client.ListParams.start_date p
  /\ ListQuery.end_date q = Client.ListParams.end_date p
  /\ as_given (Client.ListParams.limit p) = Some (ListQuery.limit q)
  /\ as_given (Client.ListParams.offset p) = Some (ListQuery.offset q).
Proof.
  unfold raw_query. intros E.
  destruct (as_given (Client.ListParams.limit p)) as [l|]; [|discriminate].
  destruct (as_given (Client.ListParams.offset p)) as [o|]; [|discriminate].
  injection E as <-. repeat split; reflexivity.
Qed.

Lemma list_offset_sent (p : Client.ListParams.t) (q : ListQuery.t) :
  raw_query p = Some q ->
  list_offset (Client.list_query p) = list_offset q.
Proof.
  intros E. apply raw_query_spec in E. destruct E as (_ & _ & _ & _ & Eo).
  unfold list_offset, Client.list_query, Client.sent_number.
  cbn [ListQuery.offset].
  destruct (Client.ListParams.offset p) as [[|n]|]; cbn [as_given] in Eo;
    [discriminate| |]; injection Eo as <-; [|reflexivity].
  destruct (Z.eqb_spec n 0) as [->|_]; reflexivity.
Qed.

Lemma list_where_sent (uid : Z) (p : Client.ListParams.t) (q : ListQuery.t)
    (r : Transaction.t * Category.t) :
  raw_query p = Some q ->
  list_where uid (Client.list_query p) r = list_where uid q r.
Proof.
  intros E. apply raw_query_spec in E. destruct E as (Et & Es & Ee & _).
  unfold list_where, Client.list_query.
  cbn [ListQuery.type ListQuery.start_date ListQuery.end_date].
  rewrite !and_if_sent, Et, Es, Ee. reflexivity.
Qed.

(** X29. The client's [getTransactions] leaves every falsy parameter out
    of the query string.  When limit and offset are whole numbers that can
    be bound (within 64 bits), this changes nothing for the filters and the
    offset: the server answers as if they had been sent as given.  A limit
    of 0 is the exception: the server, asked for 0 rows, would send none,
    but the client leaves the limit out and gets the default page of up to
    50 rows.  A limit or an offset that is NaN is left out as well, so that
    the server falls back on its default. *)
Theorem client_list_query :
  forall (db : DB) (user : option Identity.t) (params : Client.ListParams.t),
    (forall q,
        raw_query params = Some q -> bindable q ->
        bindable (Client.list_query params)
        /\ (Client.ListParams.limit params <> Some (Client.Whole 0) ->
            get_transactions db user (Client.list_query params)
            = get_transactions db user q)
        /\ (Client.ListParams.limit params = Some (Client.Whole 0) ->
            get_transactions db user (Client.list_query params)
            = get_transactions db user
                (ListQuery.mk (ListQuery.type q) (ListQuery.start_date q)
                   (ListQuery.end_date q) (Some 50) (ListQuery.offset q))
            /\ forall u, get_transactions db (Some u) q = Json 200 []))
    /\ (Client.ListParams.limit params = Some Client.NaN ->
        list_limit (Client.list_query params) = 50)
    /\ (Client.ListParams.offset params = Some Client.NaN ->
        list_offset (Client.list_query params) = 0).
Proof.
  intros db user params. split; [|split].
  - intros q Hq [Hbl Hbo].
    assert (Hsame : forall q',
              list_limit q' = list_limit (Client.list_query params) ->
              list_offset q' = list_offset q ->
              (forall uid r, list_where uid q' r = list_where uid q r) ->
              get_transactions db user (Client.list_query params)
              = get_transactions db user q').
    { intros q' Hl Ho Hw. unfold get_transactions.
      destruct user as [u|]; cbn [requireAuth]; [|reflexivity].
      rewrite Hl, (list_offset_sent params q Hq), Ho. unfold Sql.where_.
      rewrite (filter_ext _ _
                 (fun r => eq_trans (list_where_sent _ params q r Hq)
                             (eq_sym (Hw _ r)))).
      reflexivity. }
    pose proof (raw_query_spec params q Hq) as (_ & _ & _ & El & _).
    split; [|split].
    + split.
      * unfold list_limit in *. unfold Client.list_query, Client.sent_number.
        cbn [ListQuery.limit].
        destruct (Client.ListParams.limit params) as [[|n]|];
          cbn [as_given] in El; [discriminate| |];
          injection El as El; rewrite <- El in Hbl.
        -- destruct (Z.eqb_spec n 0) as [->|_]; [|exact Hbl].
           unfold int64. lia.
        -- exact Hbl.
      * rewrite (list_offset_sent params q Hq). exact Hbo.
    + intros Hne. apply Hsame; [|reflexivity|reflexivity].
      unfold list_limit, Client.list_query, Client.sent_number.
      cbn [ListQuery.limit].
      destruct (Client.ListParams.limit params) as [[|n]|];
        cbn [as_given] in El; [discriminate| |];
        injection El as El; rewrite <- El; [|reflexivity].
      destruct (Z.eqb_spec n 0) as [->|_]; [congruence|reflexivity].
    + intros Hzero. rewrite Hzero in El. cbn [as_given] in El.
      injection El as El. split.
      * apply Hsame; [|reflexivity|reflexivity].
        unfold list_limit, Client.list_query, Client.sent_number.
        cbn [ListQuery.limit]. rewrite Hzero. reflexivity.
      * intros u. unfold get_transactions. cbn [requireAuth].
        unfold list_limit. rewrite <- El. reflexivity.
  - intros E. unfold list_limit, Client.list_query, Client.sent_number.
    cbn [ListQuery.limit]. rewrite E. reflexivity.
  - intros E. unfold list_offset, Client.list_query, Client.sent_number.
    cbn [ListQuery.offset]. rewrite E. reflexivity.
Qed.

(** ** GET /api/stats/monthly *)

(** The month of a stored date as the reference [strftime] gives it. *)
Example strftime_reference :
  Builtins.strftime_Ym "2024-03-15" = Some "2024-03"
  /\ Builtins.strftime_Ym "2024-02-29" = Some "2024-02"
  /\ Builtins.strftime_Ym "2023-02-29" = Some "2023-03"
  /\ Builtins.strftime_Ym "2024-02-30" = Some "2024-03"
  /\ Builtins.strftime_Ym "2024-13-01" = None
  /\ Builtins.strftime_Ym "2024-00-10" = None
  /\ Builtins.strftime_Ym "2024-01-32" = None.
Proof. repeat split; reflexivity. Qed.

(** The sample ledger by month: March before February.  The order of the two
    March rows among themselves is the engine's choice. *)
Example monthly_on_ledger :
  exists rows,
    get_stats_monthly Builtins.strftime_Ym Sample.ledger (Some Sample.alice)
    = Json 200 rows
    /\ Permutation rows
         [ Monthly.mk (Some "2024-03") expense 100 3;
           Monthly.mk (Some "2024-03") income 5000 1;
           Monthly.mk (Some "2024-02") expense 10 1 ]
    /\ map Monthly.month rows
       = [Some "2024-03"; Some "2024-03"; Some "2024-02"].
Proof.
  eexists. split; [reflexivity|]. split; [|reflexivity].
  apply Permutation_sym, perm_swap.
Qed.


(** ** GET /api/stats: which transactions the aggregates cover *)

Lemma selected_one_sided (db : DB) (uid : Z) (s e : option string) :
  truthy s && truthy e = false ->
  Sql.where_ (dateFilter uid s e) (transactions db) = own uid db.
Proof.
  intros H. unfold Sql.where_, own. apply filter_ext. intros t.
  rewrite (dateFilter_one_sided uid s e t H). unfold dateFilter, range_filter.
  apply andb_true_r.
Qed.

Lemma selected_two_sided (db : DB) (uid : Z) (s e : string) :
  s <> "" -> e <> "" ->
  Sql.where_ (dateFilter uid (Some s) (Some e)) (transactions db)
  = filter (in_range (Some (s, e))) (own uid db).
Proof.
  intros Hs He. unfold Sql.where_, own. rewrite <- filter_and.
  apply filter_ext. intros t. rewrite (dateFilter_two_sided uid s e t Hs He).
  unfold dateFilter, range_filter. rewrite andb_true_r. apply andb_comm.
Qed.

Lemma matching_own (db : DB) (uid : Z) (range : option (string * string))
    (ty : ttype) :
  matching uid range ty db
  = filter (has_type ty) (filter (in_range range) (own uid db)).
Proof.
  unfold matching, own. rewrite <- !filter_and. apply filter_ext. intros t.
  symmetry. apply andb_assoc.
Qed.

(** C9. GET /api/stats filters the summary and the by-category breakdown by
    date only when both [start_date] and [end_date] are supplied.  When one
    of them is absent (or empty) the other is ignored: the whole answer is
    the one given without any range parameter, the summary holds, for each
    type, the sum and the number of all the user's transactions of the
    type, whatever their date, and (category ids being unique) the
    by-category breakdown has a row for each category that any transaction
    of the user names, summed over all of those.  When both are supplied
    the same holds with the user's transactions dated inside the closed
    range in place of all of them. *)
Theorem range_needs_both_bounds :
  forall (since : string) (db : DB) (user : Identity.t)
         (start_date end_date : option string),
    (truthy start_date && truthy end_date = false ->
     get_stats since db (Some user) start_date end_date
     = get_stats since db (Some user) None None
     /\ exists stats,
          get_stats since db (Some user) start_date end_date = Json 200 stats
          /\ (forall ty,
                summary_total ty (Stats.summary stats)
                = Sql.sum Transaction.amount
                    (matching (Identity.id user) None ty db)
                /\ summary_count ty (Stats.summary stats)
                   = Sql.count (matching (Identity.id user) None ty db))
          /\ (unique_categories db ->
              forall r,
                In r (Stats.by_category stats)
                <-> exists c,
                      In c (categories db)
                      /\ naming c (own (Identity.id user) db) <> []
                      /\ r = stat_of c (naming c (own (Identity.id user) db))))
    /\ (forall s e,
          start_date = Some s -> end_date = Some e -> s <> "" -> e <> "" ->
          exists stats inside,
            get_stats since db (Some user) start_date end_date = Json 200 stats
            /\ get_stats since
                 (set_transactions db
                    (filter (in_range (Some (s, e))) (transactions db)))
                 (Some user) None None
               = Json 200 inside
            /\ Stats.summary stats = Stats.summary inside
            /\ Stats.by_category stats = Stats.by_category inside
            /\ (forall ty,
                  summary_total ty (Stats.summary stats)
                  = Sql.sum Transaction.amount
                      (matching (Identity.id user) (Some (s, e)) ty db)
                  /\ summary_count ty (Stats.summary stats)
                     = Sql.count
                         (matching (Identity.id user) (Some (s, e)) ty db))
            /\ (unique_categories db ->
                forall r,
                  In r (Stats.by_category stats)
                  <-> exists c,
                        In c (categories db)
                        /\ naming c
                             (filter (in_range (Some (s, e)))
                                (own (Identity.id user) db)) <> []
                        /\ r = stat_of c
                                 (naming c
                                    (filter (in_range (Some (s, e)))
                                       (own (Identity.id user) db))))).
Proof.
  intros since db user start_date end_date.
  assert (Hsummary : forall rows,
            Sql.where_ (dateFilter (Identity.id user) start_date end_date) (transactions db)
            = rows ->
            forall stats,
              get_stats since db (Some user) start_date end_date
              = Json 200 stats ->
              (forall ty,
                 summary_total ty (Stats.summary stats)
                 = Sql.sum Transaction.amount (filter (has_type ty) rows)
                 /\ summary_count ty (Stats.summary stats)
                    = Sql.count (filter (has_type ty) rows))
              /\ (unique_categories db ->
                  forall r,
                    In r (Stats.by_category stats)
                    <-> exists c,
                          In c (categories db)
                          /\ naming c rows <> []
                          /\ r = stat_of c (naming c rows))).
  { intros rows Hrows stats E. split.
    - intros ty. rewrite <- Hrows.
      exact (get_stats_summary _ _ _ _ _ _ ty E).
    - intros Hnd r. open_stats E stats. cbn [Stats.by_category].
      rewrite (byCategory_spec db (Identity.id user) start_date end_date r Hnd).
      unfold in_category. rewrite Hrows. reflexivity. }
  split.
  - intros H. split.
    + unfold get_stats. cbn [requireAuth]. cbv zeta.
      assert (Ht : totals_query db (Identity.id user) start_date end_date
                   = totals_query db (Identity.id user) None None).
      { unfold totals_query, Sql.where_. f_equal. f_equal.
        apply filter_ext. intros t. apply dateFilter_one_sided. exact H. }
      assert (Hc : byCategory_query db (Identity.id user) start_date end_date
                   = byCategory_query db (Identity.id user) None None).
      { unfold byCategory_query, Sql.where_. do 3 f_equal.
        apply filter_ext. intros r. apply dateFilter_one_sided. exact H. }
      rewrite Ht, Hc. reflexivity.
    + destruct (get_stats_ok since db user start_date end_date) as [stats E].
      exists stats. split; [exact E|].
      destruct (Hsummary _ (selected_one_sided db (Identity.id user) _ _ H) stats E)
        as [Hsum Hcat].
      split; [|exact Hcat].
      intros ty. rewrite matching_own.
      rewrite (forallb_filter_id (in_range None))
        by (apply forallb_forall; reflexivity).
      apply Hsum.
  - intros s e -> -> Hs He.
    destruct (get_stats_ok since db user (Some s) (Some e)) as [stats E].
    exists stats. eexists.
    split; [exact E|]. split; [reflexivity|].
    destruct (Hsummary _ (selected_two_sided db (Identity.id user) s e Hs He) stats E)
      as [Hsum Hcat].
    assert (Ht : totals_query db (Identity.id user) (Some s) (Some e)
                 = totals_query
                     (set_transactions db
                        (filter (in_range (Some (s, e))) (transactions db)))
                     (Identity.id user) None None).
    { unfold totals_query, Sql.where_. cbn [transactions set_transactions].
      f_equal. f_equal. rewrite <- filter_and. apply filter_ext. intros t.
      apply dateFilter_two_sided; assumption. }
    assert (Hc : byCategory_query db (Identity.id user) (Some s) (Some e)
                 = byCategory_query
                     (set_transactions db
                        (filter (in_range (Some (s, e))) (transactions db)))
                     (Identity.id user) None None).
    { unfold byCategory_query, Sql.where_.
      cbn [transactions set_transactions categories]. do 3 f_equal.
      rewrite <- (join_where_left on_category (in_range (Some (s, e)))
                    (fun r => dateFilter (Identity.id user) None None (fst r))).
      apply filter_ext. intros r. apply dateFilter_two_sided; assumption. }
    split; [|split; [|split; [|exact Hcat]]].
    + pose proof E as E'. open_stats E' stats. cbn [Stats.summary].
      rewrite Ht. reflexivity.
    + pose proof E as E'. open_stats E' stats. cbn [Stats.by_category].
      rewrite Hc. reflexivity.
    + intros ty. rewrite matching_own. apply Hsum.
Qed.

(** With only [start_date=2024-03-01], alice's February expense is still
    counted: the expense total is 110, over all her expenses. *)
Lemma range_needs_both_bounds_witness :
  truthy (Some "2024-03-01") && truthy None = false
  /\ exists stats,
       get_stats "2024-02-20" Sample.ledger (Some Sample.alice)
         (Some "2024-03-01") None = Json 200 stats
       /\ summary_total expense (Stats.summary stats) = 110
       /\ summary_count expense (Stats.summary stats) = 4.
Proof.
  split; [reflexivity|].
  destruct (range_needs_both_bounds "2024-02-20" Sample.ledger Sample.alice
              (Some "2024-03-01") None) as [H _].
  destruct (H eq_refl) as [_ [stats [E [Hsum _]]]].
  exists stats. split; [exact E|].
  destruct (Hsum expense) as [-> ->]. split; reflexivity.
Defined.
